(** * StockNewsScreener: the signal-scanning pipeline

    A shallow embedding of [bot_core/news_screener.py] (class
    [FyersNewsScreener] and the [start_scan] / [get_results] routes), of
    [bot_core/enhanced_screener.py] ([NewsAnalyzer], [AdvancedFilters],
    [get_trading_recommendation]), of the detail route of [app.py], of the
    screener results kept by [socket_worker.py] and of [bot_core/broker.py],
    followed by the properties of the pipeline.

    Conventions of the embedding.
    - Python [float] values (prices, volumes, ratios) are rationals [Q]:
      the code only adds, divides and compares them, and every finite float
      is a rational.  Rounding, infinities and NaN are outside the model.
    - Python [int] values (scores, counts) are [Z].
    - A raised exception is a value of [exn]; fallible functions return
      [result A], and [try ... except Exception] is a match on that value.
    - Network calls (brokerage history and quotes, the news provider, the
      clock) are the fields of an environment record [Env]. *)

From Stdlib Require Import List String Ascii Bool Arith ZArith QArith Qabs Lia Lqa.
From Stdlib Require Import Sorting.Sorted Sorting.Permutation.
Import ListNotations.

Local Open Scope string_scope.
Local Open Scope Z_scope.
Local Open Scope Q_scope.

(** ** Exceptions and the error monad *)

Module Py.

Inductive exn : Type :=
| AttributeError
| ZeroDivisionError
| TypeError.

Inductive result (A : Type) : Type :=
| Raise (e : exn)
| Return (a : A).

Arguments Raise {A} e.
Arguments Return {A} a.

Definition bind {A B : Type} (m : result A) (k : A -> result B) : result B :=
  match m with
  | Raise e => Raise e
  | Return a => k a
  end.

(** [x / y] on numbers: Python raises on a zero divisor.  The quotient is
    the exact one; what depends on its rounding is not stated over it. *)
Definition div (x y : Q) : result Q :=
  if Qeq_bool y 0 then Raise ZeroDivisionError else Return (x / y).

(** [a > b], [a >= b], [a < b], [a <= b] on numbers. *)
Definition gt (a b : Q) : bool := negb (Qle_bool a b).
Definition ge (a b : Q) : bool := Qle_bool b a.
Definition lt (a b : Q) : bool := negb (Qle_bool b a).
Definition le (a b : Q) : bool := Qle_bool a b.

(** [str.lower()] on the ASCII range: 'A'..'Z' go to 'a'..'z'. *)
Definition lower_ascii (c : ascii) : ascii :=
  let n := nat_of_ascii c in
  if (65 <=? n)%nat && (n <=? 90)%nat then ascii_of_nat (n + 32) else c.

Fixpoint lower (s : string) : string :=
  match s with
  | EmptyString => EmptyString
  | String c s' => String (lower_ascii c) (lower s')
  end.

(** [kw in text]: substring containment. *)
Fixpoint contains (kw text : string) : bool :=
  String.prefix kw text ||
  match text with
  | EmptyString => false
  | String _ text' => contains kw text'
  end.

(** [s.replace(old, new)] for a non-empty [old]: every occurrence, left to
    right, without overlap.  [skip] counts the characters of a match that
    are still to be dropped. *)
Fixpoint replace_from (old new : string) (skip : nat) (s : string) : string :=
  match s with
  | EmptyString => EmptyString
  | String c s' =>
      match skip with
      | S k => replace_from old new k s'
      | O =>
          if String.prefix old s
          then new ++ replace_from old new (String.length old - 1) s'
          else String c (replace_from old new 0 s')
      end
  end.

Definition replace (old new s : string) : string := replace_from old new 0 s.

(** [any(p(x) for x in l)] *)
Definition any {A : Type} (p : A -> bool) (l : list A) : bool := existsb p l.

End Py.

Notation "x <- m ;; k" := (Py.bind m (fun x => k))
  (at level 61, m at next level, right associativity).

(** ** Data model *)

(** One article of the news provider.  The classifier reads it with
    [article.get('title', '')] and [article.get('description', '')]: a
    missing key is [None] here and reads as the empty string, and a key
    that is present holds a string. *)
Module Article.
Record t : Type := mk {
  title : option string;
  description : option string;
  publishedAt : string
}.
Definition get (field : option string) (default : string) : string :=
  match field with
  | Some s => s
  | None => default
  end.
End Article.

(** The dict returned by [NewsAnalyzer.get_news_summary] for a non-empty
    article list. *)
Module Summary.
Record t : Type := mk {
  sentiment : string;
  sentiment_score : Q;
  category : string;
  is_major : bool;
  positive_keywords : Z;
  negative_keywords : Z
}.
End Summary.

(** What a caller can pass as [news_summary]: [None], a string (the
    no-news sentinel is one) or the summary dict. *)
Inductive news_summary : Type :=
| SNone
| SStr (s : string)
| SDict (d : Summary.t).

(** Truth value of [if news_summary:]; the summary dict always has its six
    keys, so it is never the empty dict. *)
Definition truthy (ns : news_summary) : bool :=
  match ns with
  | SNone => false
  | SStr s => negb (String.eqb s "")
  | SDict _ => true
  end.

(** ** enhanced_screener.py: NewsAnalyzer *)

Module NewsAnalyzer.

(** The two keyword sets, as lists without repetition: the loops over them
    only count, so the order of iteration does not matter. *)
Definition POSITIVE_KEYWORDS : list string :=
  [ "contract"; "deal"; "win"; "won"; "awarded"; "growth"; "profit";
    "surge"; "gain"; "record"; "high"; "acquisition"; "expand";
    "partnership"; "collaboration"; "success"; "breakthrough"; "innovation";
    "dividend"; "buyback"; "upgrade"; "positive"; "approval"; "order";
    "revenue"; "beat"; "exceed"; "strong"; "robust"; "bullish" ].

Definition NEGATIVE_KEYWORDS : list string :=
  [ "loss"; "losses"; "decline"; "drop"; "fall"; "fell"; "down"; "weak";
    "miss"; "missed"; "below"; "concern"; "worry"; "risk"; "threat";
    "lawsuit"; "investigation"; "fraud"; "scandal"; "downgrade"; "cut";
    "layoff"; "fire"; "closure"; "bankruptcy"; "debt"; "bearish"; "warning" ].

(** Insertion order of the dict is the order of this list. *)
Definition MAJOR_NEWS_TYPES : list (string * list string) :=
  [ ("contract", ["contract"; "deal"; "order"; "awarded"]);
    ("financial", ["profit"; "revenue"; "earnings"; "results"; "quarter"]);
    ("acquisition", ["acquisition"; "merger"; "takeover"; "buyout"]);
    ("regulatory", ["approval"; "license"; "compliance"; "regulation"]);
    ("legal", ["lawsuit"; "court"; "legal"; "case"; "settlement"]);
    ("management", ["ceo"; "cfo"; "appointment"; "resignation"; "chairman"]);
    ("product", ["launch"; "product"; "service"; "innovation"]) ].

(** [text = f"{title} {description}"] with both parts lower-cased. *)
Definition article_text (article : Article.t) : string :=
  let title := Py.lower (Article.get (Article.title article) "") in
  let description := Py.lower (Article.get (Article.description article) "") in
  title ++ " " ++ description.

(** [for keyword in KEYWORDS: if keyword in text: count += 1] *)
Definition count_keywords (keywords : list string) (text : string) (count : Z) : Z :=
  fold_left (fun c keyword => if Py.contains keyword text then (c + 1)%Z else c)
            keywords count.

(** The loop over the articles, on the pair
    [(positive_count, negative_count)]. *)
Definition count_articles (news_articles : list Article.t) (counts : Z * Z) : Z * Z :=
  fold_left
    (fun pn article =>
       let text := article_text article in
       (count_keywords POSITIVE_KEYWORDS text (fst pn),
        count_keywords NEGATIVE_KEYWORDS text (snd pn)))
    news_articles counts.

Definition analyze_sentiment (news_articles : list Article.t)
  : Py.result (Q * Z * Z) :=
  match news_articles with
  | [] => Py.Return (0, 0%Z, 0%Z)
  | _ =>
      let '(positive_count, negative_count) := count_articles news_articles (0%Z, 0%Z) in
      let total := (positive_count + negative_count)%Z in
      sentiment_score <-
        (if (total =? 0)%Z then Py.Return 0
         else Py.div (inject_Z (positive_count - negative_count)) (inject_Z total)) ;;
      Py.Return (sentiment_score, positive_count, negative_count)
  end.

(** First category, in dict order, one of whose keywords occurs in the
    text: the inner [for ... break]. *)
Definition first_category (text : string) : option string :=
  option_map fst
    (find (fun entry => Py.any (fun keyword => Py.contains keyword text) (snd entry))
          MAJOR_NEWS_TYPES).

Definition categorize_news (news_articles : list Article.t) : list string :=
  fold_left
    (fun categories article =>
       match first_category (article_text article) with
       | Some category => (categories ++ [category])%list
       | None => categories
       end)
    news_articles [].

Definition major_categories : list string :=
  ["contract"; "acquisition"; "regulatory"; "legal"].

Definition is_major_news (news_articles : list Article.t) : bool :=
  let categories := categorize_news news_articles in
  Py.any (fun cat => existsb (String.eqb cat) major_categories) categories.

(** [Counter(categories)]: counts kept in first-seen order. *)
Fixpoint counter_incr (c : string) (counts : list (string * Z)) : list (string * Z) :=
  match counts with
  | [] => [(c, 1%Z)]
  | (k, n) :: rest =>
      if String.eqb k c then (k, (n + 1)%Z) :: rest
      else (k, n) :: counter_incr c rest
  end.

Definition Counter (l : list string) : list (string * Z) :=
  fold_left (fun counts c => counter_incr c counts) l [].

(** [most_common(1)[0][0]]: the first entry of maximal count. *)
Fixpoint max_entry (best : string * Z) (counts : list (string * Z)) : string * Z :=
  match counts with
  | [] => best
  | e :: rest => max_entry (if (snd best <? snd e)%Z then e else best) rest
  end.

Definition most_common (counts : list (string * Z)) : option string :=
  match counts with
  | [] => None
  | e :: rest => Some (fst (max_entry e rest))
  end.

(** [str.title()] on ASCII letters. *)
Definition is_letter (c : ascii) : bool :=
  let n := nat_of_ascii c in
  ((65 <=? n) && (n <=? 90) || (97 <=? n) && (n <=? 122))%nat.

Definition upper_ascii (c : ascii) : ascii :=
  let n := nat_of_ascii c in
  if (97 <=? n)%nat && (n <=? 122)%nat then ascii_of_nat (n - 32) else c.

Fixpoint title_from (in_word : bool) (s : string) : string :=
  match s with
  | EmptyString => EmptyString
  | String c s' =>
      String (if in_word then Py.lower_ascii c else upper_ascii c)
             (title_from (is_letter c) s')
  end.

Definition title (s : string) : string := title_from false s.

Definition sentiment_label (sentiment_score : Q) : string :=
  if Py.gt sentiment_score (3 # 10) then "Highly Positive"
  else if Py.gt sentiment_score 0 then "Positive"
  else if Py.lt sentiment_score (- (3 # 10)) then "Highly Negative"
  else if Py.lt sentiment_score 0 then "Negative"
  else "Neutral".

Definition get_news_summary (news_articles : list Article.t)
  : Py.result news_summary :=
  match news_articles with
  | [] => Py.Return (SStr "No recent news")
  | _ =>
      r <- analyze_sentiment news_articles ;;
      let '(sentiment_score, pos_count, neg_count) := r in
      let categories := categorize_news news_articles in
      let is_major := is_major_news news_articles in
      let category_str :=
        match most_common (Counter categories) with
        | Some c => title c ++ " News"
        | None => "General News"
        end in
      Py.Return (SDict {|
        Summary.sentiment := sentiment_label sentiment_score;
        Summary.sentiment_score := sentiment_score;
        Summary.category := category_str;
        Summary.is_major := is_major;
        Summary.positive_keywords := pos_count;
        Summary.negative_keywords := neg_count |})
  end.

End NewsAnalyzer.

Definition article1 : Article.t :=
  Article.mk (Some "TCS wins record DEAL") (Some "Profit growth beats lawsuit fears") "2024-01-02".

Definition article2 : Article.t :=
  Article.mk (Some "Court case over merger") None "2024-01-03".

(** One daily candle; a history ([df]) is the list of its rows, oldest
    first. *)
Module Candle.
Record t : Type := mk {
  timestamp : Z;
  open : Q;
  high : Q;
  low : Q;
  close : Q;
  volume : Q
}.
End Candle.

Definition DataFrame : Type := list Candle.t.

(** The dict built by [get_current_quote]. *)
Module Quote.
Record t : Type := mk {
  ltp : Q;
  volume : Q;
  change_percent : Q;
  prev_close : Q
}.
End Quote.

(** The dict returned by [analyze_volume_and_price]. *)
Module Analysis.
Record t : Type := mk {
  volume_ratio : Q;
  price_change : Q;
  range_ratio : Q;
  avg_volume : Q;
  current_volume : Q
}.
End Analysis.

(** ** enhanced_screener.py: AdvancedFilters *)

Module AdvancedFilters.

Definition volume_points (volume_ratio : Q) : Z :=
  if Py.gt volume_ratio 5 then 30
  else if Py.gt volume_ratio 3 then 25
  else if Py.gt volume_ratio 2 then 20
  else 10.

Definition price_points (price_change : Q) : Z :=
  if Py.gt price_change 8 then 25
  else if Py.gt price_change 5 then 20
  else if Py.gt price_change 3 then 15
  else 10.

(** The block under [if news_summary:].  [news_summary.get] exists on a
    dict only: on a string the attribute lookup raises. *)
Definition news_points (news_summary : news_summary) : Py.result Z :=
  if truthy news_summary then
    match news_summary with
    | SDict d =>
        let sentiment_score := Summary.sentiment_score d in
        let major := if Summary.is_major d then 15%Z else 0%Z in
        let tone :=
          if Py.gt (Qabs sentiment_score) (5 # 10) then 10%Z
          else if Py.gt (Qabs sentiment_score) (2 # 10) then 5%Z
          else 0%Z in
        Py.Return (major + tone)%Z
    | SStr _ => Py.Raise Py.AttributeError
    | SNone => Py.Return 0%Z
    end
  else Py.Return 0%Z.

Definition range_points (range_ratio : Q) : Z :=
  if Py.gt range_ratio 2 then 20
  else if Py.gt range_ratio (15 # 10) then 15
  else if Py.gt range_ratio 1 then 10
  else 0.

Definition calculate_strength_score
    (analysis : Analysis.t) (news_summary : news_summary) (df : option DataFrame)
  : Py.result Z :=
  let score := 0%Z in
  let score := (score + volume_points (Analysis.volume_ratio analysis))%Z in
  let score := (score + price_points (Qabs (Analysis.price_change analysis)))%Z in
  news <- news_points news_summary ;;
  let score := (score + news)%Z in
  let score := (score + range_points (Analysis.range_ratio analysis))%Z in
  Py.Return (Z.min score 100).

(** [df['high'].tail(20).max()] and [df['low'].tail(20).min()] *)
Definition tail {A : Type} (n : nat) (l : list A) : list A :=
  skipn (List.length l - n) l.

Definition maximum (l : list Q) : Q :=
  match l with
  | [] => 0
  | x :: rest => fold_left (fun m y => if Py.gt y m then y else m) rest x
  end.

Definition minimum (l : list Q) : Q :=
  match l with
  | [] => 0
  | x :: rest => fold_left (fun m y => if Py.lt y m then y else m) rest x
  end.

Definition check_breakout (df : option DataFrame) (current_quote : Quote.t) : bool :=
  match df with
  | None => false
  | Some rows =>
      if (List.length rows <? 20)%nat then false
      else
        let recent_high := maximum (map Candle.high (tail 20 rows)) in
        let recent_low := minimum (map Candle.low (tail 20 rows)) in
        let current_price := Quote.ltp current_quote in
        let breakout_above := Py.gt current_price (recent_high * (102 # 100)) in
        let breakdown_below := Py.lt current_price (recent_low * (98 # 100)) in
        breakout_above || breakdown_below
  end.

End AdvancedFilters.

(** ** news_screener.py: configuration and data *)

(** The module-level screening parameters, read from the process
    environment when the module is loaded. *)
Module Config.
Record t : Type := mk {
  VOLUME_SURGE_THRESHOLD : Q;
  PRICE_CHANGE_MIN : Q;
  PRICE_CHANGE_MAX : Q;
  LOOKBACK_DAYS : Z;
  MIN_PRICE : Q;
  MAX_PRICE : Q
}.
(** The defaults of the [os.getenv] calls. *)
Definition default : t := mk (15 # 10) 1 20 5 10 10000.
End Config.

(** The dict returned by [determine_signal]. *)
Module Signal.
Record t : Type := mk {
  signal : string;
  action : string;
  strength : string
}.
End Signal.

(** One entry of [screened_stocks] ([stock_data]). *)
Module Stock.
Record t : Type := mk {
  symbol : string;
  name : string;
  ltp : Q;
  price_change : Q;
  volume_ratio : Q;
  signal : string;
  action : string;
  strength : string;
  news_count : Z;
  news : list Article.t;
  timestamp : string
}.
End Stock.

(** The outside world of one scan: the brokerage's history and quote
    endpoints, the news provider and the clock, per symbol.  [None] is a
    failed call (an error status or a caught exception). *)
Module Env.
Record t : Type := mk {
  fyers_history : string -> option (list Candle.t);
  fyers_quotes : string -> option Quote.t;
  newsapi : string -> option (list Article.t);
  now : string -> string
}.
End Env.

(** [list.sort(key=key, reverse=True)].  CPython's sort is stable, also
    with [reverse=True]: the result is the one arrangement of the list that
    is descending in the key and keeps equal keys in their original order.
    It is computed here by insertion from the right. *)
Section Sort.
Variable A : Type.
Variable key : A -> Q.

Fixpoint insert_desc (x : A) (l : list A) : list A :=
  match l with
  | [] => [x]
  | y :: l' =>
      if Py.lt (key x) (key y) then y :: insert_desc x l'
      else x :: y :: l'
  end.

Fixpoint sort_reverse (l : list A) : list A :=
  match l with
  | [] => []
  | x :: l' => insert_desc x (sort_reverse l')
  end.
End Sort.

Arguments insert_desc {A} key x l.
Arguments sort_reverse {A} key l.

(** [Series.mean()]: the sum over the number of rows.  It is only taken
    of series with at least nine rows. *)
Definition mean (l : list Q) : Q :=
  fold_left Qplus l 0 / inject_Z (Z.of_nat (List.length l)).

(** [iloc[:-1]]: all rows but the last. *)
Definition iloc_but_last {A : Type} (l : list A) : list A := removelast l.

(** ** news_screener.py: FyersNewsScreener *)

Module FyersNewsScreener.

(** The two attributes of the instance that the scan writes. *)
Record t : Type := mk {
  screened_stocks : list Stock.t;
  is_scanning : bool
}.

(** [__init__] *)
Definition init : t := mk [] false.

Definition get_nse_symbols : list string :=
  [ "NSE:RELIANCE-EQ"; "NSE:TCS-EQ"; "NSE:HDFCBANK-EQ"; "NSE:INFY-EQ";
    "NSE:ICICIBANK-EQ"; "NSE:HINDUNILVR-EQ"; "NSE:SBIN-EQ"; "NSE:BHARTIARTL-EQ";
    "NSE:ITC-EQ"; "NSE:KOTAKBANK-EQ"; "NSE:LT-EQ"; "NSE:AXISBANK-EQ";
    "NSE:ASIANPAINT-EQ"; "NSE:MARUTI-EQ"; "NSE:BAJFINANCE-EQ"; "NSE:HCLTECH-EQ";
    "NSE:WIPRO-EQ"; "NSE:ULTRACEMCO-EQ"; "NSE:TITAN-EQ"; "NSE:NESTLEIND-EQ";
    "NSE:SUNPHARMA-EQ"; "NSE:TATAMOTORS-EQ"; "NSE:ONGC-EQ"; "NSE:NTPC-EQ";
    "NSE:POWERGRID-EQ"; "NSE:M&M-EQ"; "NSE:BAJAJFINSV-EQ"; "NSE:TECHM-EQ";
    "NSE:ADANIPORTS-EQ"; "NSE:COALINDIA-EQ"; "NSE:DIVISLAB-EQ"; "NSE:DRREDDY-EQ";
    "NSE:CIPLA-EQ"; "NSE:EICHERMOT-EQ"; "NSE:GRASIM-EQ"; "NSE:HINDALCO-EQ";
    "NSE:INDUSINDBK-EQ"; "NSE:JSWSTEEL-EQ"; "NSE:TATASTEEL-EQ"; "NSE:TATACONSUM-EQ";
    "NSE:HEROMOTOCO-EQ"; "NSE:BRITANNIA-EQ"; "NSE:UPL-EQ"; "NSE:APOLLOHOSP-EQ";
    "NSE:ADANIENT-EQ"; "NSE:ADANIGREEN-EQ"; "NSE:ADANITRANS-EQ"; "NSE:BAJAJ-AUTO-EQ";
    "NSE:BEL-EQ"; "NSE:BPCL-EQ"; "NSE:VEDL-EQ"; "NSE:IOC-EQ" ].

Section Methods.
Variable cfg : Config.t.
Variable env : Env.t.

(** A frame is returned only for an [ok] response with at least one
    candle. *)
Definition get_historical_data (symbol : string) : option DataFrame :=
  match Env.fyers_history env symbol with
  | Some (c :: candles) => Some (c :: candles)
  | Some [] => None
  | None => None
  end.

Definition get_current_quote (symbol : string) : option Quote.t :=
  Env.fyers_quotes env symbol.

(** [articles[:5]] on status 200, the empty list otherwise. *)
Definition fetch_news_for_stock (stock_name : string) : list Article.t :=
  match Env.newsapi env stock_name with
  | Some articles => firstn 5 articles
  | None => []
  end.

Definition analyze_volume_and_price (df : option DataFrame) (current_quote : Quote.t)
  : Py.result (option Analysis.t) :=
  match df with
  | None => Py.Return None
  | Some rows =>
      if (List.length rows <? 10)%nat then Py.Return None
      else
        let avg_volume := mean (map Candle.volume (iloc_but_last rows)) in
        let current_volume := Quote.volume current_quote in
        volume_ratio <-
          (if Py.gt avg_volume 0 then Py.div current_volume avg_volume
           else Py.Return 0) ;;
        let price_change := Quote.change_percent current_quote in
        let range := map (fun c => Candle.high c - Candle.low c) rows in
        let avg_range := mean range in
        let current_range :=
          Qabs (Quote.ltp current_quote - Quote.prev_close current_quote) in
        range_ratio <-
          (if Py.gt avg_range 0 then Py.div current_range avg_range
           else Py.Return 0) ;;
        Py.Return (Some {|
          Analysis.volume_ratio := volume_ratio;
          Analysis.price_change := price_change;
          Analysis.range_ratio := range_ratio;
          Analysis.avg_volume := avg_volume;
          Analysis.current_volume := current_volume |})
  end.

Definition determine_signal (analysis : option Analysis.t) (news_count : Z)
  : option Signal.t :=
  match analysis with
  | None => None
  | Some analysis =>
      let volume_surge :=
        Py.ge (Analysis.volume_ratio analysis) (Config.VOLUME_SURGE_THRESHOLD cfg) in
      let price_change := Qabs (Analysis.price_change analysis) in
      let significant_move :=
        Py.le (Config.PRICE_CHANGE_MIN cfg) price_change
        && Py.le price_change (Config.PRICE_CHANGE_MAX cfg) in
      let has_news := (news_count >? 0)%Z in
      if volume_surge && significant_move then
        let signal_strength :=
          if Py.gt (Analysis.volume_ratio analysis) 3 then "STRONG" else "MODERATE" in
        let signal_strength :=
          if has_news then "VERY STRONG" else signal_strength in
        if Py.gt (Analysis.price_change analysis) 0
        then Some (Signal.mk "BULLISH" "BUY (Delivery)" signal_strength)
        else Some (Signal.mk "BEARISH" "SELL (Intraday)" signal_strength)
      else None
  end.

(** The body of the [try] for one symbol.  [Return None] is a [continue]
    or a missing signal, [Return (Some stock_data)] is an append, and a
    raised exception is what the [except] clause catches. *)
Definition scan_symbol (symbol : string) : Py.result (option Stock.t) :=
  match get_historical_data symbol with
  | None => Py.Return None
  | Some df =>
      match get_current_quote symbol with
      | None => Py.Return None
      | Some current_quote =>
          if Py.lt (Quote.ltp current_quote) (Config.MIN_PRICE cfg)
             || Py.gt (Quote.ltp current_quote) (Config.MAX_PRICE cfg)
          then Py.Return None
          else
            analysis <- analyze_volume_and_price (Some df) current_quote ;;
            match analysis with
            | None => Py.Return None
            | Some a =>
                let news := fetch_news_for_stock symbol in
                let news_count := Z.of_nat (List.length news) in
                match determine_signal (Some a) news_count with
                | None => Py.Return None
                | Some signal =>
                    Py.Return (Some {|
                      Stock.symbol := symbol;
                      Stock.name := Py.replace "-EQ" "" (Py.replace "NSE:" "" symbol);
                      Stock.ltp := Quote.ltp current_quote;
                      Stock.price_change := Analysis.price_change a;
                      Stock.volume_ratio := Analysis.volume_ratio a;
                      Stock.signal := Signal.signal signal;
                      Stock.action := Signal.action signal;
                      Stock.strength := Signal.strength signal;
                      Stock.news_count := news_count;
                      Stock.news := firstn 3 news;
                      Stock.timestamp := Env.now env symbol |})
                end
            end
      end
  end.

(** One turn of [for symbol in symbols]: [try] the body, append on a
    signal, [continue] on an exception. *)
Definition scan_iteration (self : t) (symbol : string) : t :=
  match scan_symbol symbol with
  | Py.Return (Some stock_data) =>
      mk (screened_stocks self ++ [stock_data])%list (is_scanning self)
  | Py.Return None => self
  | Py.Raise _ => self
  end.

Definition scan_loop (symbols : list string) (self : t) : t :=
  fold_left scan_iteration symbols self.

(** [scan_stocks]: the new state of the instance and the returned list,
    which is [self.screened_stocks]. *)
Definition scan_stocks (self : t) : t * list Stock.t :=
  let self := mk (screened_stocks self) true in
  let self := mk [] (is_scanning self) in
  let symbols := get_nse_symbols in
  let self := scan_loop symbols self in
  let self := mk (sort_reverse Stock.volume_ratio (screened_stocks self))
                 (is_scanning self) in
  let self := mk (screened_stocks self) false in
  (self, screened_stocks self).

End Methods.
End FyersNewsScreener.

(** ** scan_stocks statement by statement

    The scan runs on a background thread while the routes read the same
    instance, so its intermediate states are observable.  A thread is at one
    of the following program points of [scan_stocks]. *)
Module Thread.

Inductive pc : Type :=
| AtStart                        (* started, before [self.is_scanning = True] *)
| AtClear                        (* before [self.screened_stocks = []] *)
| InLoop (rest : list string)    (* in the [for], [rest] still to visit *)
| AtFlag                         (* sorted, before [self.is_scanning = False] *)
| Finished.

(** What a step does to the attributes of the instance. *)
Inductive event : Type :=
| SetFlag (b : bool)             (* an assignment to [self.is_scanning] *)
| Rebind                         (* [self.screened_stocks = []] *)
| Visit (symbol : string)        (* one loop iteration *)
| SortInPlace                    (* [self.screened_stocks.sort(...)] *)
| Idle.

Section Step.
Variable cfg : Config.t.
Variable env : Env.t.

Import FyersNewsScreener.

Definition step (p : pc) (self : t) : pc * t * event :=
  match p with
  | AtStart => (AtClear, mk (screened_stocks self) true, SetFlag true)
  | AtClear => (InLoop get_nse_symbols, mk [] (is_scanning self), Rebind)
  | InLoop (symbol :: rest) =>
      (InLoop rest, scan_iteration cfg env self symbol, Visit symbol)
  | InLoop [] =>
      (AtFlag,
       mk (sort_reverse Stock.volume_ratio (screened_stocks self)) (is_scanning self),
       SortInPlace)
  | AtFlag => (Finished, mk (screened_stocks self) false, SetFlag false)
  | Finished => (Finished, self, Idle)
  end.

(** [n] steps of one thread with no other thread running. *)
Fixpoint run (n : nat) (p : pc) (self : t) : pc * t :=
  match n with
  | O => (p, self)
  | S n' => let '(p', self', _) := step p self in run n' p' self'
  end.

End Step.
End Thread.

(** ** news_screener.py: the routes *)

Module App.

Import FyersNewsScreener.

(** The global [screener] once it is authenticated, with the scan threads
    that [start_scan] has started on it. *)
Record system : Type := mkSystem {
  screener : FyersNewsScreener.t;
  threads : list Thread.pc
}.

Inductive response : Type :=
| NotAuthenticated                       (* 401, 'Fyers not authenticated' *)
| AlreadyScanning                        (* 400, 'Scan already in progress' *)
| ScanStarted                            (* 200, 'Scan started' *)
| Results (is_scanning : bool) (stocks : list Stock.t) (count : Z).

Definition status (r : response) : Z :=
  match r with
  | NotAuthenticated => 401
  | AlreadyScanning => 400
  | ScanStarted => 200
  | Results _ _ _ => 200
  end.

(** [POST /api/scan]; [start_screener_scan] of app.py makes the same test
    before it starts its thread.  The flag is read here and written by the
    thread. *)
Definition start_scan (g : option system) : response * option system :=
  match g with
  | None => (NotAuthenticated, None)
  | Some sys =>
      if is_scanning (screener sys) then (AlreadyScanning, Some sys)
      else (ScanStarted,
            Some (mkSystem (screener sys) (threads sys ++ [Thread.AtStart])%list))
  end.

(** [GET /api/results] *)
Definition get_results (g : option system) : response :=
  match g with
  | None => NotAuthenticated
  | Some sys =>
      Results (is_scanning (screener sys))
              (screened_stocks (screener sys))
              (Z.of_nat (List.length (screened_stocks (screener sys))))
  end.

Section Schedule.
Variable cfg : Config.t.
Variable env : Env.t.

Fixpoint set_nth {A : Type} (i : nat) (x : A) (l : list A) : list A :=
  match l, i with
  | [], _ => []
  | _ :: l', O => x :: l'
  | y :: l', S i' => y :: set_nth i' x l'
  end.

(** Thread [i] takes one step; nothing happens when there is no such
    thread. *)
Definition step_thread (i : nat) (sys : system) : system * Thread.event :=
  match nth_error (threads sys) i with
  | None => (sys, Thread.Idle)
  | Some p =>
      let '(p', self', ev) := Thread.step cfg env p (screener sys) in
      (mkSystem self' (set_nth i p' (threads sys)), ev)
  end.

(** A schedule names the thread that runs at each step; the run returns
    the final state and the events in order. *)
Fixpoint run_schedule (schedule : list nat) (sys : system)
  : system * list Thread.event :=
  match schedule with
  | [] => (sys, [])
  | i :: schedule' =>
      let '(sys', ev) := step_thread i sys in
      let '(sys'', evs) := run_schedule schedule' sys' in
      (sys'', ev :: evs)
  end.

Definition is_rebind (ev : Thread.event) : bool :=
  match ev with Thread.Rebind => true | _ => false end.

Definition is_sort (ev : Thread.event) : bool :=
  match ev with Thread.SortInPlace => true | _ => false end.

(** How often a run replaces the result list, and how often it completes
    one. *)
Definition rebinds (evs : list Thread.event) : nat :=
  List.length (filter is_rebind evs).

Definition completions (evs : list Thread.event) : nat :=
  List.length (filter is_sort evs).

End Schedule.
End App.

(** ** The result list as an object

    [self.screened_stocks] holds a reference to a list object.  The second
    statement of [scan_stocks] binds the attribute to a new, empty list;
    [append] and [sort] change the list the attribute refers to in place.
    A reference taken earlier keeps naming the list it was taken from: the
    list of the previous scan after the rebinding, and the growing list of
    the running scan afterwards. *)
Module Heap.

Record t : Type := mk {
  objects : list (list Stock.t);     (* the list objects created so far, by address *)
  screened_stocks : nat;             (* the address [self.screened_stocks] holds *)
  is_scanning : bool
}.

(** The list at an address, as it is now. *)
Definition deref (h : t) (address : nat) : list Stock.t :=
  nth address (objects h) [].

(** An instance whose result list is the only list object. *)
Definition of_instance (self : FyersNewsScreener.t) : t :=
  mk [FyersNewsScreener.screened_stocks self] 0
     (FyersNewsScreener.is_scanning self).

(** The attributes as values. *)
Definition view (h : t) : FyersNewsScreener.t :=
  FyersNewsScreener.mk (deref h (screened_stocks h)) (is_scanning h).

(** A method that changes the list [self.screened_stocks] refers to. *)
Definition in_place (f : list Stock.t -> list Stock.t) (h : t) : t :=
  mk (App.set_nth (screened_stocks h) (f (deref h (screened_stocks h))) (objects h))
     (screened_stocks h) (is_scanning h).

Section Step.
Variable cfg : Config.t.
Variable env : Env.t.

(** The statements of [scan_stocks] on the objects. *)
Definition step (p : Thread.pc) (h : t) : Thread.pc * t :=
  match p with
  | Thread.AtStart =>
      (Thread.AtClear, mk (objects h) (screened_stocks h) true)
  | Thread.AtClear =>
      (Thread.InLoop FyersNewsScreener.get_nse_symbols,
       mk (objects h ++ [[]])%list (List.length (objects h)) (is_scanning h))
  | Thread.InLoop (symbol :: rest) =>
      (Thread.InLoop rest,
       match FyersNewsScreener.scan_symbol cfg env symbol with
       | Py.Return (Some stock_data) =>
           in_place (fun l => (l ++ [stock_data])%list) h
       | Py.Return None => h
       | Py.Raise _ => h
       end)
  | Thread.InLoop [] =>
      (Thread.AtFlag, in_place (sort_reverse Stock.volume_ratio) h)
  | Thread.AtFlag =>
      (Thread.Finished, mk (objects h) (screened_stocks h) false)
  | Thread.Finished => (Thread.Finished, h)
  end.

Fixpoint run (n : nat) (p : Thread.pc) (h : t) : Thread.pc * t :=
  match n with
  | O => (p, h)
  | S n' => let '(p', h') := step p h in run n' p' h'
  end.

End Step.

(** [GET /api/results] read by read.  The dict display evaluates
    [screener.is_scanning], then [screener.screened_stocks], which yields a
    reference, then [len(screener.screened_stocks)]; [jsonify] writes the
    referenced list out afterwards, taken here as one read of that list.
    The scan thread may run between any two of the four, so each is given
    the state it finds. *)
Definition get_results (at_flag at_list at_len at_dump : t) : App.response :=
  App.Results (is_scanning at_flag)
              (deref at_dump (screened_stocks at_list))
              (Z.of_nat (List.length (deref at_len (screened_stocks at_len)))).

End Heap.

(** ** Vocabulary of the properties *)

(** The two conditions under which [determine_signal] produces a signal. *)
Definition signal_preconditions (cfg : Config.t) (a : Analysis.t) : Prop :=
  Config.VOLUME_SURGE_THRESHOLD cfg <= Analysis.volume_ratio a
  /\ Config.PRICE_CHANGE_MIN cfg <= Qabs (Analysis.price_change a)
  /\ Qabs (Analysis.price_change a) <= Config.PRICE_CHANGE_MAX cfg.

(** A string that [if news_summary:] lets through. *)
Definition nonempty_string (ns : news_summary) : bool :=
  match ns with
  | SStr s => negb (String.eqb s "")
  | _ => false
  end.

(** [avg_volume] and [avg_range] of a history. *)
Definition historical_mean_volume (rows : DataFrame) : Q :=
  mean (map Candle.volume (iloc_but_last rows)).

Definition mean_range (rows : DataFrame) : Q :=
  mean (map (fun c => Candle.high c - Candle.low c) rows).

Section Order.
Variable A : Type.
Variable key : A -> Q.

(** [a] may stand before [b] in a descending list. *)
Definition descending (a b : A) : Prop := key b <= key a.

(** The elements whose key equals [k], in their order in the list. *)
Definition with_key (k : Q) (l : list A) : list A :=
  filter (fun x => Qeq_bool (key x) k) l.
End Order.

Arguments descending {A} key a b.
Arguments with_key {A} key k l.

Section Discovery.
Variable cfg : Config.t.
Variable env : Env.t.

(** The results that the visit of [symbols], in this order, finds: the
    discovery order. *)
Definition discovered (symbols : list string) : list Stock.t :=
  flat_map
    (fun symbol =>
       match FyersNewsScreener.scan_symbol cfg env symbol with
       | Py.Return (Some stock_data) => [stock_data]
       | _ => []
       end)
    symbols.

(** The attributes of the instance at each program point of a scan that
    started from the state [before] and runs alone. *)
Definition visible_during
    (before : FyersNewsScreener.t) (p : Thread.pc) (self : FyersNewsScreener.t)
  : Prop :=
  match p with
  | Thread.AtStart => self = before
  | Thread.AtClear =>
      FyersNewsScreener.screened_stocks self
      = FyersNewsScreener.screened_stocks before
      /\ FyersNewsScreener.is_scanning self = true
  | Thread.InLoop rest =>
      exists visited,
        FyersNewsScreener.get_nse_symbols = (visited ++ rest)%list
        /\ FyersNewsScreener.screened_stocks self = discovered visited
        /\ FyersNewsScreener.is_scanning self = true
  | Thread.AtFlag =>
      FyersNewsScreener.screened_stocks self
      = sort_reverse Stock.volume_ratio (discovered FyersNewsScreener.get_nse_symbols)
      /\ FyersNewsScreener.is_scanning self = true
  | Thread.Finished =>
      FyersNewsScreener.screened_stocks self
      = sort_reverse Stock.volume_ratio (discovered FyersNewsScreener.get_nse_symbols)
      /\ FyersNewsScreener.is_scanning self = false
  end.
End Discovery.

(** What a thread has still to do: one rebinding of the result list until
    it has passed [AtClear], one sort until it has left the loop. *)
Definition rebinds_left (p : Thread.pc) : nat :=
  match p with
  | Thread.AtStart | Thread.AtClear => 1
  | _ => 0
  end.

Definition sorts_left (p : Thread.pc) : nat :=
  match p with
  | Thread.AtStart | Thread.AtClear | Thread.InLoop _ => 1
  | _ => 0
  end.

Definition total (budget : Thread.pc -> nat) (ts : list Thread.pc) : nat :=
  fold_right (fun p n => budget p + n)%nat 0%nat ts.

Definition spent (is_ev : Thread.event -> bool) (ev : Thread.event) : nat :=
  if is_ev ev then 1 else 0.

(** The program point a step leads to: it does not depend on the
    attributes of the instance. *)
Definition next_pc (p : Thread.pc) : Thread.pc :=
  match p with
  | Thread.AtStart => Thread.AtClear
  | Thread.AtClear => Thread.InLoop FyersNewsScreener.get_nse_symbols
  | Thread.InLoop (_ :: rest) => Thread.InLoop rest
  | Thread.InLoop [] => Thread.AtFlag
  | Thread.AtFlag => Thread.Finished
  | Thread.Finished => Thread.Finished
  end.

(** The program points of the threads after a schedule. *)
Definition threads_after (schedule : list nat) (ts : list Thread.pc)
  : list Thread.pc :=
  fold_left
    (fun ts i =>
       match nth_error ts i with
       | None => ts
       | Some p => App.set_nth i (next_pc p) ts
       end)
    schedule ts.

(** A scan thread that has executed [self.screened_stocks = []]. *)
Definition past_rebind (p : Thread.pc) : bool :=
  match p with
  | Thread.AtStart | Thread.AtClear => false
  | _ => true
  end.

(** The list objects during a scan that started from [h0] and runs alone:
    until the rebinding nothing has changed; from then on the attribute
    holds the one new address, and the lists that existed at the start are
    as they were. *)
Definition objects_during (h0 : Heap.t) (p : Thread.pc) (h : Heap.t) : Prop :=
  if past_rebind p then
    Heap.screened_stocks h = List.length (Heap.objects h0)
    /\ List.length (Heap.objects h) = S (List.length (Heap.objects h0))
    /\ forall address : nat,
        (address < List.length (Heap.objects h0))%nat ->
        Heap.deref h address = Heap.deref h0 address
  else
    Heap.objects h = Heap.objects h0
    /\ Heap.screened_stocks h = Heap.screened_stocks h0.

(** The statements of a whole scan: the two assignments, one turn of the
    loop for each symbol, the sort and the last assignment. *)
Definition scan_steps : nat :=
  2 + List.length FyersNewsScreener.get_nse_symbols + 2.

(** ** A small market for the examples *)

Definition flat_candles (n : nat) (volume : Q) : list Candle.t :=
  repeat (Candle.mk 0 100 102 100 101 volume) n.

Definition demo_env : Env.t :=
  Env.mk
    (fun symbol =>
       if String.eqb symbol "NSE:RELIANCE-EQ" then Some (flat_candles 10 1000)
       else if String.eqb symbol "NSE:TCS-EQ" then Some (flat_candles 12 500)
       else if String.eqb symbol "NSE:INFY-EQ" then Some (flat_candles 3 500)
       else None)
    (fun symbol =>
       if String.eqb symbol "NSE:RELIANCE-EQ" then Some (Quote.mk 2450 2000 2 2400)
       else if String.eqb symbol "NSE:TCS-EQ" then Some (Quote.mk 3850 2000 (-6) 4100)
       else if String.eqb symbol "NSE:INFY-EQ" then Some (Quote.mk 1580 9000 5 1500)
       else None)
    (fun symbol =>
       if String.eqb symbol "NSE:TCS-EQ" then Some [article1; article2]
       else None)
    (fun _ => "2024-01-05 10:00:00").

Definition reliance_stock : Stock.t :=
  Stock.mk "NSE:RELIANCE-EQ" "RELIANCE" 2450 2 (18000 # 9000)
           "BULLISH" "BUY (Delivery)" "MODERATE" 0 [] "2024-01-05 10:00:00".

Definition tcs_stock : Stock.t :=
  Stock.mk "NSE:TCS-EQ" "TCS" 3850 (-6) (22000 # 5500)
           "BEARISH" "SELL (Intraday)" "VERY STRONG" 2 [article1; article2]
           "2024-01-05 10:00:00".

(** An authenticated screener before any scan, and the same with one scan
    thread that has run its first three steps. *)
Definition idle_system : App.system :=
  App.mkSystem FyersNewsScreener.init [].

Definition scanning_system : App.system :=
  fst (App.run_schedule Config.default demo_env [0; 0; 0]%nat
         (App.mkSystem FyersNewsScreener.init [Thread.AtStart])).

(** ** enhanced_screener.py: get_trading_recommendation *)

(** The dict returned by [get_trading_recommendation]; the two news keys
    are only set under [if news_summary:]. *)
Module Recommendation.
Record t : Type := mk {
  signal_type : string;
  action : string;
  strength : string;
  confidence_score : Z;
  entry : string;
  target : string;
  stop_loss : string;
  risk_level : string;
  news_impact : option string;
  news_type : option string
}.
End Recommendation.

(** [news_summary['sentiment']] and [news_summary['category']]: subscripting
    a string with a string raises TypeError. *)
Definition news_impact_of (news_summary : news_summary)
  : Py.result (option string * option string) :=
  if truthy news_summary then
    match news_summary with
    | SDict d => Py.Return (Some (Summary.sentiment d), Some (Summary.category d))
    | SStr _ => Py.Raise Py.TypeError
    | SNone => Py.Return (None, None)
    end
  else Py.Return (None, None).

Definition get_trading_recommendation
    (signal : option Signal.t) (strength_score : Z) (news_summary : news_summary)
  : Py.result (option Recommendation.t) :=
  match signal with
  | None => Py.Return None
  | Some signal =>
      let '(entry, target, stop_loss) :=
        if String.eqb (Signal.signal signal) "BULLISH" then
          if (strength_score >? 75)%Z
          then ("Strong Buy - Enter at current levels",
                "5-10% upside potential", "3-4% below entry")
          else ("Buy on dips - Wait for minor correction",
                "3-7% upside potential", "2-3% below entry")
        else
          if (strength_score >? 75)%Z
          then ("Strong Sell - Short at current levels (Intraday only)",
                "3-7% downside expected", "2% above entry")
          else ("Sell on bounce - Wait for minor rally",
                "2-5% downside expected", "1.5% above entry") in
      let risk_level :=
        if (strength_score >? 80)%Z then "Low Risk"
        else if (strength_score >? 60)%Z then "Medium Risk"
        else "High Risk" in
      news <- news_impact_of news_summary ;;
      Py.Return (Some {|
        Recommendation.signal_type := Signal.signal signal;
        Recommendation.action := Signal.action signal;
        Recommendation.strength := Signal.strength signal;
        Recommendation.confidence_score := strength_score;
        Recommendation.entry := entry;
        Recommendation.target := target;
        Recommendation.stop_loss := stop_loss;
        Recommendation.risk_level := risk_level;
        Recommendation.news_impact := fst news;
        Recommendation.news_type := snd news |})
  end.

(** ** app.py: analyze_stock_detail *)

Module Detail.

(** The dict handed to [jsonify] at the end of the [try] block (without its
    timestamp). *)
Record payload : Type := mkPayload {
  symbol : string;
  current_quote : Quote.t;
  analysis : option Analysis.t;
  news : list Article.t;
  summary : news_summary;
  signal : option Signal.t;
  strength_score : Z;
  recommendation : option Recommendation.t;
  has_price_volume_correlation : bool;
  is_breakout : bool
}.

Inductive outcome : Type :=
| NotInitialized                 (* 401, 'Screener not initialized' *)
| NotFound (error : string)      (* 404 *)
| ServerError (e : Py.exn)       (* 500, from [except Exception] *)
| Payload (body : payload).      (* the [try] block reached [jsonify] *)

(** [f"NSE:{symbol}-EQ" if not symbol.startswith('NSE:') else symbol] *)
Definition fyers_symbol (symbol : string) : string :=
  if negb (String.prefix "NSE:" symbol) then "NSE:" ++ symbol ++ "-EQ"
  else symbol.

Section Route.
Variable cfg : Config.t.
Variable env : Env.t.

(** [AdvancedFilters.check_price_volume_correlation] works on pandas'
    correlation of floats; the route only stores its result, so it is a
    parameter here. *)
Variable check_price_volume_correlation :
  option DataFrame -> Quote.t -> Py.result bool.

(** [calculate_strength_score(analysis, ...)] as the route calls it: the
    analysis may be None, and the first statement of the scorer subscripts
    it. *)
Definition score_of
    (analysis : option Analysis.t) (news_summary : news_summary)
    (df : option DataFrame) : Py.result Z :=
  match analysis with
  | None => Py.Raise Py.TypeError
  | Some a => AdvancedFilters.calculate_strength_score a news_summary df
  end.

(** The body of the [try] block after both fetches have succeeded. *)
Definition analyze_fetched
    (symbol : string) (df : DataFrame) (current_quote : Quote.t)
  : Py.result payload :=
  analysis <- FyersNewsScreener.analyze_volume_and_price (Some df) current_quote ;;
  let news := FyersNewsScreener.fetch_news_for_stock env symbol in
  news_summary <- NewsAnalyzer.get_news_summary news ;;
  strength_score <- score_of analysis news_summary (Some df) ;;
  has_correlation <- check_price_volume_correlation (Some df) current_quote ;;
  let is_breakout := AdvancedFilters.check_breakout (Some df) current_quote in
  let signal :=
    FyersNewsScreener.determine_signal cfg analysis (Z.of_nat (List.length news)) in
  recommendation <-
    match signal with
    | Some _ => get_trading_recommendation signal strength_score news_summary
    | None => Py.Return None
    end ;;
  Py.Return {|
    symbol := symbol;
    current_quote := current_quote;
    analysis := analysis;
    news := firstn 5 news;
    summary := news_summary;
    signal := signal;
    strength_score := strength_score;
    recommendation := recommendation;
    has_price_volume_correlation := has_correlation;
    is_breakout := is_breakout |}.

(** [initialized] is [news_screener is not None]. *)
Definition analyze_stock_detail (initialized : bool) (symbol : string) : outcome :=
  if negb initialized then NotInitialized
  else
    let fyers_symbol := fyers_symbol symbol in
    match FyersNewsScreener.get_historical_data env fyers_symbol with
    | None => NotFound "Failed to fetch stock data"
    | Some df =>
        match FyersNewsScreener.get_current_quote env fyers_symbol with
        | None => NotFound "Failed to fetch current quote"
        | Some current_quote =>
            match analyze_fetched fyers_symbol df current_quote with
            | Py.Raise e => ServerError e
            | Py.Return body => Payload body
            end
        end
    end.

End Route.
End Detail.

(** ** socket_worker.py: the screener results of the tick loop *)

Module SocketWorker.

(** The dict passed to [emit_fn] for a matching symbol (without its
    timestamp). *)
Record alert : Type := mkAlert {
  alert_type : string;
  alert_symbol : string;
  alert_signal : string;
  alert_action : string;
  alert_strength : string;
  alert_price_change : Q;
  alert_volume_ratio : Q;
  alert_news_count : Z;
  alert_current_price : Q
}.

(** The loop over [SCREENER_RESULTS]: the first stock of that symbol is
    returned, with the alert emitted when an [emit_fn] is given. *)
Fixpoint check_screener_signals
    (SCREENER_RESULTS : list Stock.t) (symbol : string) (current_ltp : Q)
    (emit_fn : bool) : option Stock.t * list alert :=
  match SCREENER_RESULTS with
  | [] => (None, [])
  | stock :: rest =>
      if String.eqb (Stock.symbol stock) symbol then
        (Some stock,
         if emit_fn then
           [ {| alert_type := "screener_alert";
                alert_symbol := symbol;
                alert_signal := Stock.signal stock;
                alert_action := Stock.action stock;
                alert_strength := Stock.strength stock;
                alert_price_change := Stock.price_change stock;
                alert_volume_ratio := Stock.volume_ratio stock;
                alert_news_count := Stock.news_count stock;
                alert_current_price := current_ltp |} ]
         else [])
      else check_screener_signals rest symbol current_ltp emit_fn
  end.

(** [update_screener_results]: the global is rebound to the new list. *)
Definition update_screener_results
    (SCREENER_RESULTS results : list Stock.t) : list Stock.t := results.

(** The three counts of [get_screener_stats]. *)
Definition count_signal (name : string) (results : list Stock.t) : Z :=
  fold_left
    (fun n s => if String.eqb (Stock.signal s) name then (n + 1)%Z else n)
    results 0%Z.

Definition get_screener_stats (SCREENER_RESULTS : list Stock.t) : Z * Z * Z :=
  (Z.of_nat (List.length SCREENER_RESULTS),
   count_signal "BULLISH" SCREENER_RESULTS,
   count_signal "BEARISH" SCREENER_RESULTS).

(** One turn of [run_periodic_screener_scan] inside market hours: the scan
    runs on the caller's thread unless the flag is set, and its result
    replaces [SCREENER_RESULTS] (the emitted completion message and the
    waiting are left out). *)
Definition periodic_scan
    (cfg : Config.t) (env : Env.t)
    (NEWS_SCREENER : FyersNewsScreener.t) (SCREENER_RESULTS : list Stock.t)
  : FyersNewsScreener.t * list Stock.t :=
  if negb (FyersNewsScreener.is_scanning NEWS_SCREENER) then
    let '(screener, results) := FyersNewsScreener.scan_stocks cfg env NEWS_SCREENER in
    (screener, update_screener_results SCREENER_RESULTS results)
  else (NEWS_SCREENER, SCREENER_RESULTS).

End SocketWorker.

(** ** bot_core/broker.py: MockBroker *)

Module MockBroker.

(** A trade dict; [execute_trade] never sets the key [pnl]. *)
Record trade : Type := mkTrade {
  symbol : string;
  side : string;
  qty : Q;
  entry : Q;
  entry_time : string;
  pnl : option Q
}.

Record t : Type := mk {
  trades : list trade;
  balance : Q
}.

(** [__init__] *)
Definition init : t := mk [] 100000.

(** [sum(t["pnl"] for t in self.trades if "pnl" in t)] *)
Definition total_pnl (trades : list trade) : Q :=
  fold_left
    (fun acc t => match pnl t with Some x => acc + x | None => acc end)
    trades 0.

(** The dict of [stats]: balance, trades_count and pnl. *)
Definition stats (self : t) : Q * Z * Q :=
  (balance self, Z.of_nat (List.length (trades self)), total_pnl (trades self)).

(** [execute_trade]: the new state and the returned trade; [now] is the
    clock. *)
Definition execute_trade
    (self : t) (now : string) (symbol side : string) (qty price : Q) : t * trade :=
  let trade := mkTrade symbol side qty price now None in
  (mk (trades self ++ [trade])%list (balance self), trade).

End MockBroker.

(** ** Vocabulary of the further properties *)

(** Two markets that answer alike for every symbol but [s]. *)
Definition agree_except (s : string) (env env' : Env.t) : Prop :=
  forall symbol,
    symbol <> s ->
    Env.fyers_history env symbol = Env.fyers_history env' symbol
    /\ Env.fyers_quotes env symbol = Env.fyers_quotes env' symbol
    /\ Env.newsapi env symbol = Env.newsapi env' symbol
    /\ Env.now env symbol = Env.now env' symbol.

(** The results of a list that are not about [s]. *)
Definition without_symbol (s : string) (l : list Stock.t) : list Stock.t :=
  filter (fun stock => negb (String.eqb (Stock.symbol stock) s)) l.

(** What every entry of a published list satisfies. *)
Definition passes_screen (cfg : Config.t) (stock : Stock.t) : Prop :=
  In (Stock.symbol stock) FyersNewsScreener.get_nse_symbols
  /\ Config.MIN_PRICE cfg <= Stock.ltp stock
  /\ Stock.ltp stock <= Config.MAX_PRICE cfg
  /\ Config.VOLUME_SURGE_THRESHOLD cfg <= Stock.volume_ratio stock
  /\ Config.PRICE_CHANGE_MIN cfg <= Qabs (Stock.price_change stock)
  /\ Qabs (Stock.price_change stock) <= Config.PRICE_CHANGE_MAX cfg
  /\ (0 <= Stock.news_count stock <= 5)%Z
  /\ (List.length (Stock.news stock) <= 3)%nat
  /\ ((Stock.signal stock = "BULLISH" /\ Stock.action stock = "BUY (Delivery)"
       /\ 0 < Stock.price_change stock)
      \/ (Stock.signal stock = "BEARISH" /\ Stock.action stock = "SELL (Intraday)"
          /\ Stock.price_change stock <= 0)).

(** The number of occurrences of a category, as [Counter] counts it. *)
Definition occurrences (c : string) (l : list string) : Z :=
  Z.of_nat (List.length (filter (String.eqb c) l)).

(** Whether the visit of a symbol gives a result. *)
Definition found (cfg : Config.t) (env : Env.t) (symbol : string) : bool :=
  match FyersNewsScreener.scan_symbol cfg env symbol with
  | Py.Return (Some _) => true
  | _ => false
  end.

(** A list that names no symbol twice, as a test. *)
Fixpoint distinct (l : list string) : bool :=
  match l with
  | [] => true
  | x :: rest => negb (existsb (String.eqb x) rest) && distinct rest
  end.

(** The score and the category line as functions of what was counted. *)
Definition score_of_counts (p n : Z) : Q :=
  if (p + n =? 0)%Z then 0 else inject_Z (p - n) / inject_Z (p + n).

Definition category_of (categories : list string) : string :=
  match NewsAnalyzer.most_common (NewsAnalyzer.Counter categories) with
  | Some c => NewsAnalyzer.title c ++ " News"
  | None => "General News"
  end.

(** The count a [Counter] holds for a key, and its keys in order. *)
Definition count_of (k : string) (counts : list (string * Z)) : Z :=
  match find (fun e => String.eqb (fst e) k) counts with
  | Some e => snd e
  | None => 0%Z
  end.

Definition keys (counts : list (string * Z)) : list string := map fst counts.

(** The two entries given above a score of 75. *)
Definition strong_entry (r : Recommendation.t) : Prop :=
  Recommendation.entry r = "Strong Buy - Enter at current levels"
  \/ Recommendation.entry r = "Strong Sell - Short at current levels (Intraday only)".

(** [symbol.replace('NSE:', '').replace('-EQ', '')], the displayed name. *)
Definition display_name (symbol : string) : string :=
  Py.replace "-EQ" "" (Py.replace "NSE:" "" symbol).

(** The orders of a session: symbol, side, quantity, price and the time
    of execution. *)
Definition order : Type := (string * string * Q * Q * string)%type.

Definition execute_all (self : MockBroker.t) (orders : list order) : MockBroker.t :=
  fold_left
    (fun b (o : order) =>
       let '(symbol, side, qty, price, now) := o in
       fst (MockBroker.execute_trade b now symbol side qty price))
    orders self.

(** The small market with the history of TCS failing. *)
Definition demo_env_tcs_down : Env.t :=
  Env.mk
    (fun symbol =>
       if String.eqb symbol "NSE:TCS-EQ" then None
       else Env.fyers_history demo_env symbol)
    (Env.fyers_quotes demo_env)
    (Env.newsapi demo_env)
    (Env.now demo_env).

(** A correlation check that always answers False. *)
Definition no_correlation (df : option DataFrame) (q : Quote.t) : Py.result bool :=
  Py.Return false.

(** * Properties *)

(** ** Examples *)

Example lower_ex : Py.lower "Big WIN for TCS" = "big win for tcs".
Proof. reflexivity. Qed.

Example contains_inside_word : Py.contains "win" "the window" = true.
Proof. reflexivity. Qed.

Example contains_absent : Py.contains "deal" "the window" = false.
Proof. reflexivity. Qed.

Example replace_ex :
  Py.replace "-EQ" "" (Py.replace "NSE:" "" "NSE:BAJAJ-AUTO-EQ") = "BAJAJ-AUTO".
Proof. reflexivity. Qed.

Example summary_ex :
  NewsAnalyzer.get_news_summary [article1; article2] =
  Py.Return (SDict (Summary.mk "Highly Positive" (5 # 7) "Contract News" true 6 1)).
Proof. reflexivity. Qed.

Example most_common_tie :
  NewsAnalyzer.most_common (NewsAnalyzer.Counter ["legal"; "product"; "product"; "legal"])
  = Some "legal".
Proof. reflexivity. Qed.

Example score_extreme :
  AdvancedFilters.calculate_strength_score
    (Analysis.mk 1000 50 3 1 1000)
    (SDict (Summary.mk "Highly Positive" 1 "Contract News" true 4 0)) None
  = Py.Return 100%Z.
Proof. reflexivity. Qed.

Example score_sentinel :
  AdvancedFilters.calculate_strength_score
    (Analysis.mk 4 6 0 1 4) (SStr "No recent news") None
  = Py.Raise Py.AttributeError.
Proof. reflexivity. Qed.

Example demo_scan :
  FyersNewsScreener.scan_stocks Config.default demo_env FyersNewsScreener.init
  = (FyersNewsScreener.mk [tcs_stock; reliance_stock] false,
     [tcs_stock; reliance_stock]).
Proof. vm_compute. reflexivity. Qed.

(** ** Comparisons *)

Lemma gt_true (a b : Q) : Py.gt a b = true <-> b < a.
Proof.
  unfold Py.gt. rewrite negb_true_iff, <- not_true_iff_false, Qle_bool_iff.
  split; intro H; [apply Qnot_le_lt | apply Qlt_not_le]; exact H.
Qed.

Lemma gt_false (a b : Q) : Py.gt a b = false <-> a <= b.
Proof.
  unfold Py.gt. rewrite negb_false_iff. apply Qle_bool_iff.
Qed.

Lemma lt_true (a b : Q) : Py.lt a b = true <-> a < b.
Proof. exact (gt_true b a). Qed.

Lemma lt_false (a b : Q) : Py.lt a b = false <-> b <= a.
Proof. exact (gt_false b a). Qed.

Lemma ge_true (a b : Q) : Py.ge a b = true <-> b <= a.
Proof. apply Qle_bool_iff. Qed.

Lemma le_true (a b : Q) : Py.le a b = true <-> a <= b.
Proof. apply Qle_bool_iff. Qed.

Lemma div_nonzero (x y : Q) : ~ y == 0 -> Py.div x y = Py.Return (x / y).
Proof.
  intro H. unfold Py.div.
  destruct (Qeq_bool y 0) eqn:E; [| reflexivity].
  apply Qeq_bool_iff in E. contradiction.
Qed.

(** The guarded quotient [x / y if y > 0 else 0] never raises. *)
Lemma guarded_div_returns (x y : Q) :
  exists r, (if Py.gt y 0 then Py.div x y else Py.Return 0) = Py.Return r
            /\ (y <= 0 -> r = 0) /\ (0 < y -> r = x / y).
Proof.
  destruct (Py.gt y 0) eqn:E.
  - apply gt_true in E. exists (x / y). split; [| split].
    + apply div_nonzero. intro H. rewrite H in E. discriminate.
    + intro H. exfalso. apply (Qlt_not_le _ _ E H).
    + reflexivity.
  - apply gt_false in E. exists 0. split; [reflexivity | split].
    + reflexivity.
    + intro H. exfalso. apply (Qlt_not_le _ _ H E).
Qed.

(** ** The Signal Determiner *)

Section DetermineSignal.
Variable cfg : Config.t.

Lemma determine_signal_strength (a : Analysis.t) (news_count : Z) :
  signal_preconditions cfg a ->
  exists sig,
    FyersNewsScreener.determine_signal cfg (Some a) news_count = Some sig
    /\ Signal.strength sig =
         if (news_count >? 0)%Z then "VERY STRONG"
         else if Py.gt (Analysis.volume_ratio a) 3 then "STRONG"
         else "MODERATE".
Proof.
  intros (Hv & Hlo & Hhi). unfold FyersNewsScreener.determine_signal.
  apply ge_true in Hv. apply le_true in Hlo. apply le_true in Hhi.
  rewrite Hv, Hlo, Hhi. cbn [andb].
  destruct (Py.gt (Analysis.price_change a) 0);
    eexists; (split; [reflexivity |]); cbn [Signal.strength];
    destruct (news_count >? 0)%Z; reflexivity.
Qed.

End DetermineSignal.

(** C2 (as amended): under the signal preconditions a signal is always
    produced, and its strength is VERY STRONG exactly when at least one
    article is present, whatever the volume ratio; STRONG exactly when
    there is no article and volume_ratio > 3; MODERATE exactly when there is
    no article and volume_ratio <= 3. *)
Theorem determine_signal_strength_by_news_first :
  forall (cfg : Config.t) (a : Analysis.t) (news_count : Z),
    signal_preconditions cfg a ->
    exists sig,
      FyersNewsScreener.determine_signal cfg (Some a) news_count = Some sig
      /\ (Signal.strength sig = "VERY STRONG" <-> (0 < news_count)%Z)
      /\ (Signal.strength sig = "STRONG"
          <-> (news_count <= 0)%Z /\ 3 < Analysis.volume_ratio a)
      /\ (Signal.strength sig = "MODERATE"
          <-> (news_count <= 0)%Z /\ Analysis.volume_ratio a <= 3).
Proof.
  intros cfg a n Hpre.
  destruct (determine_signal_strength cfg a n Hpre) as (sig & Hsig & Hstr).
  exists sig. split; [exact Hsig |]. rewrite Hstr.
  destruct (n >? 0)%Z eqn:En.
  - apply Z.gtb_lt in En.
    repeat split; intros; try discriminate; try lia; try reflexivity.
  - assert (Hn : (n <= 0)%Z) by (destruct (Z.gtb_spec n 0); [discriminate | lia]).
    destruct (Py.gt (Analysis.volume_ratio a) 3) eqn:Ev.
    + apply gt_true in Ev.
      repeat split; intros; try discriminate; try lia; try assumption;
        try reflexivity.
      destruct H as [_ H]. exfalso. apply (Qlt_not_le _ _ Ev H).
    + apply gt_false in Ev.
      repeat split; intros; try discriminate; try lia; try assumption;
        try reflexivity.
      destruct H as [_ H]. exfalso. apply (Qlt_not_le _ _ H Ev).
Qed.

(** The spec's example: ratio 4, change +6, two articles, defaults. *)
Lemma determine_signal_strength_by_news_first_witness :
  signal_preconditions Config.default (Analysis.mk 4 6 0 1 4)
  /\ exists sig,
      FyersNewsScreener.determine_signal Config.default
        (Some (Analysis.mk 4 6 0 1 4)) 2 = Some sig
      /\ (Signal.strength sig = "VERY STRONG" <-> (0 < 2)%Z)
      /\ (Signal.strength sig = "STRONG"
          <-> (2 <= 0)%Z /\ 3 < Analysis.volume_ratio (Analysis.mk 4 6 0 1 4))
      /\ (Signal.strength sig = "MODERATE"
          <-> (2 <= 0)%Z /\ Analysis.volume_ratio (Analysis.mk 4 6 0 1 4) <= 3).
Proof.
  assert (H : signal_preconditions Config.default (Analysis.mk 4 6 0 1 4)).
  { unfold signal_preconditions. cbn. repeat split; discriminate. }
  split; [exact H |].
  apply (determine_signal_strength_by_news_first Config.default (Analysis.mk 4 6 0 1 4) 2 H).
Defined.

(** C2 (as stated) fails: with the default thresholds, volume_ratio 2,
    a price change of 2 percent and one article, the preconditions hold and
    the strength is VERY STRONG although volume_ratio is not above 3. *)
Lemma very_strong_without_volume_above_3 :
  signal_preconditions Config.default (Analysis.mk 2 2 0 1 2)
  /\ FyersNewsScreener.determine_signal Config.default
       (Some (Analysis.mk 2 2 0 1 2)) 1
     = Some (Signal.mk "BULLISH" "BUY (Delivery)" "VERY STRONG")
  /\ ~ (3 < Analysis.volume_ratio (Analysis.mk 2 2 0 1 2) /\ (0 < 1)%Z).
Proof.
  split; [| split].
  - unfold signal_preconditions. cbn. repeat split; discriminate.
  - reflexivity.
  - intros [H _]. cbn in H. revert H. apply Qle_not_lt. discriminate.
Qed.

(** ** The strength scorer *)

(** Case analysis on every test of a band function. *)
Ltac split_bands :=
  repeat match goal with
         | |- context [if ?b then _ else _] => destruct b
         end.

Lemma volume_points_range (r : Q) :
  (10 <= AdvancedFilters.volume_points r <= 30)%Z.
Proof.
  unfold AdvancedFilters.volume_points.
  split_bands; lia.
Qed.

Lemma price_points_range (r : Q) :
  (10 <= AdvancedFilters.price_points r <= 25)%Z.
Proof.
  unfold AdvancedFilters.price_points.
  split_bands; lia.
Qed.

Lemma range_points_range (r : Q) :
  (0 <= AdvancedFilters.range_points r <= 20)%Z.
Proof.
  unfold AdvancedFilters.range_points.
  split_bands; lia.
Qed.

Lemma news_points_range (ns : news_summary) :
  nonempty_string ns = false ->
  exists n, AdvancedFilters.news_points ns = Py.Return n /\ (0 <= n <= 25)%Z.
Proof.
  intro H. unfold AdvancedFilters.news_points.
  destruct ns as [| s | d]; cbn in *.
  - exists 0%Z. split; [reflexivity | lia].
  - rewrite H. exists 0%Z. split; [reflexivity | lia].
  - eexists. split; [reflexivity |].
    split_bands; lia.
Qed.

Lemma news_points_raises (s : string) :
  s <> "" -> AdvancedFilters.news_points (SStr s) = Py.Raise Py.AttributeError.
Proof.
  intro H. unfold AdvancedFilters.news_points. cbn.
  destruct (String.eqb_spec s ""); [contradiction | reflexivity].
Qed.

Lemma strength_score_returns (a : Analysis.t) (ns : news_summary) (df : option DataFrame) :
  nonempty_string ns = false ->
  exists n,
    AdvancedFilters.news_points ns = Py.Return n /\ (0 <= n <= 25)%Z
    /\ AdvancedFilters.calculate_strength_score a ns df
       = Py.Return
           (Z.min (AdvancedFilters.volume_points (Analysis.volume_ratio a)
                   + AdvancedFilters.price_points (Qabs (Analysis.price_change a))
                   + n
                   + AdvancedFilters.range_points (Analysis.range_ratio a)) 100).
Proof.
  intro H. destruct (news_points_range ns H) as (n & Hn & Hr).
  exists n. split; [exact Hn | split; [exact Hr |]].
  unfold AdvancedFilters.calculate_strength_score. rewrite Hn. reflexivity.
Qed.

(** C3: on the no-news sentinel the scorer does not return a score: the
    sentinel is a non-empty string, passes [if news_summary:], and the
    lookup of [.get] on it raises AttributeError, for every analysis
    record. *)
Theorem strength_score_on_sentinel_raises :
  forall (a : Analysis.t) (df : option DataFrame),
    NewsAnalyzer.get_news_summary [] = Py.Return (SStr "No recent news")
    /\ AdvancedFilters.calculate_strength_score a (SStr "No recent news") df
       = Py.Raise Py.AttributeError.
Proof.
  intros a df. split; reflexivity.
Qed.

(** C4: for every analysis record and every news summary that is a
    summary dict (any is_major flag and sentiment_score) or absent, the
    scorer returns an integer between 0 and 100: the minimum of 100 and the
    sum of the four band components, a sum that never exceeds 100. *)
Theorem strength_score_within_0_100 :
  forall (a : Analysis.t) (ns : news_summary) (df : option DataFrame),
    nonempty_string ns = false ->
    exists news score : Z,
      AdvancedFilters.news_points ns = Py.Return news
      /\ AdvancedFilters.calculate_strength_score a ns df = Py.Return score
      /\ (0 <= score <= 100)%Z
      /\ score
         = Z.min (AdvancedFilters.volume_points (Analysis.volume_ratio a)
                  + AdvancedFilters.price_points (Qabs (Analysis.price_change a))
                  + news
                  + AdvancedFilters.range_points (Analysis.range_ratio a)) 100
      /\ (AdvancedFilters.volume_points (Analysis.volume_ratio a)
          + AdvancedFilters.price_points (Qabs (Analysis.price_change a))
          + news
          + AdvancedFilters.range_points (Analysis.range_ratio a) <= 100)%Z.
Proof.
  intros a ns df H.
  destruct (strength_score_returns a ns df H) as (n & Hnews & Hn & Hs).
  exists n. eexists.
  split; [exact Hnews |]. split; [exact Hs |].
  pose proof (volume_points_range (Analysis.volume_ratio a)).
  pose proof (price_points_range (Qabs (Analysis.price_change a))).
  pose proof (range_points_range (Analysis.range_ratio a)).
  split; [lia |]. split; [reflexivity | lia].
Qed.

(** The extreme inputs of the spec: the four components are all at their
    maximum and the score is exactly 100. *)
Lemma strength_score_within_0_100_witness :
  exists score : Z,
    AdvancedFilters.calculate_strength_score
      (Analysis.mk 1000 50 3 1 1000)
      (SDict (Summary.mk "Highly Positive" 1 "Contract News" true 4 0)) None
    = Py.Return score
    /\ (0 <= score <= 100)%Z.
Proof.
  destruct (strength_score_within_0_100
              (Analysis.mk 1000 50 3 1 1000)
              (SDict (Summary.mk "Highly Positive" 1 "Contract News" true 4 0))
              None eq_refl)
    as (news & score & _ & Hscore & Hrange & _).
  exists score. split; [exact Hscore | exact Hrange].
Defined.

(** C10: whenever the scorer returns, the score is at least 20, because
    the volume and the price-change components are at least 10 each; it
    returns for every summary dict and for an absent summary, and both ends
    of the range from 20 to 100 are reached. *)
Theorem strength_score_at_least_20 :
  forall (a : Analysis.t) (ns : news_summary) (df : option DataFrame),
    (forall score,
        AdvancedFilters.calculate_strength_score a ns df = Py.Return score ->
        (20 <= score <= 100)%Z)
    /\ (nonempty_string ns = false ->
        exists score,
          AdvancedFilters.calculate_strength_score a ns df = Py.Return score)
    /\ AdvancedFilters.calculate_strength_score (Analysis.mk 0 0 0 0 0) SNone df
       = Py.Return 20%Z
    /\ AdvancedFilters.calculate_strength_score
         (Analysis.mk 6 9 3 1 6)
         (SDict (Summary.mk "Highly Positive" 1 "Contract News" true 4 0)) df
       = Py.Return 100%Z.
Proof.
  intros a ns df. split; [| split; [| split]].
  - intros score Hs.
    unfold AdvancedFilters.calculate_strength_score in Hs.
    destruct (AdvancedFilters.news_points ns) as [e | n] eqn:En;
      [discriminate |].
    cbn in Hs. injection Hs as <-.
    assert (Hn : (0 <= n <= 25)%Z).
    { destruct (nonempty_string ns) eqn:Es.
      - destruct ns as [| s | d]; try discriminate.
        rewrite news_points_raises in En; [discriminate |].
        intros ->. discriminate.
      - destruct (news_points_range ns Es) as (n' & Hn' & Hr).
        rewrite Hn' in En. injection En as <-. exact Hr. }
    pose proof (volume_points_range (Analysis.volume_ratio a)).
    pose proof (price_points_range (Qabs (Analysis.price_change a))).
    pose proof (range_points_range (Analysis.range_ratio a)).
    lia.
  - intro H. destruct (strength_score_returns a ns df H) as (n & _ & _ & Hs).
    eexists. exact Hs.
  - reflexivity.
  - reflexivity.
Qed.

Lemma strength_score_at_least_20_witness :
  (20 <= 45 <= 100)%Z
  /\ exists score,
      AdvancedFilters.calculate_strength_score (Analysis.mk 4 6 0 1 4) SNone None
      = Py.Return score.
Proof.
  pose proof (strength_score_at_least_20 (Analysis.mk 4 6 0 1 4) SNone None)
    as (Hlow & Hret & _).
  split.
  - apply (Hlow 45%Z). reflexivity.
  - apply Hret. reflexivity.
Defined.

(** ** The volume/price analysis *)

Section Analyze.
Variable current_quote : Quote.t.

Lemma analyze_short_history (rows : DataFrame) :
  (List.length rows < 10)%nat ->
  FyersNewsScreener.analyze_volume_and_price (Some rows) current_quote
  = Py.Return None.
Proof.
  intro H. unfold FyersNewsScreener.analyze_volume_and_price.
  apply Nat.ltb_lt in H. rewrite H. reflexivity.
Qed.

(** With ten candles or more both guarded quotients return and the record
    is built. *)
Lemma analyze_long_history (rows : DataFrame) :
  (10 <= List.length rows)%nat ->
  exists volume_ratio range_ratio,
    FyersNewsScreener.analyze_volume_and_price (Some rows) current_quote
    = Py.Return (Some (Analysis.mk volume_ratio
                                   (Quote.change_percent current_quote)
                                   range_ratio
                                   (historical_mean_volume rows)
                                   (Quote.volume current_quote)))
    /\ (historical_mean_volume rows <= 0 -> volume_ratio = 0)
    /\ (0 < historical_mean_volume rows ->
        volume_ratio = Quote.volume current_quote / historical_mean_volume rows)
    /\ (mean_range rows <= 0 -> range_ratio = 0).
Proof.
  intro H. unfold FyersNewsScreener.analyze_volume_and_price.
  assert (E : (List.length rows <? 10)%nat = false) by (apply Nat.ltb_ge; exact H).
  rewrite E.
  fold (historical_mean_volume rows). fold (mean_range rows).
  destruct (guarded_div_returns (Quote.volume current_quote)
                                (historical_mean_volume rows))
    as (vr & Hvr & Hvr0 & Hvr1).
  destruct (guarded_div_returns
              (Qabs (Quote.ltp current_quote - Quote.prev_close current_quote))
              (mean_range rows))
    as (rr & Hrr & Hrr0 & _).
  exists vr, rr. rewrite Hvr. cbn [Py.bind]. rewrite Hrr. cbn [Py.bind].
  repeat split; assumption.
Qed.

End Analyze.

(** C6: for every candle history and quote, when the mean of the volumes
    before the most recent candle is zero the analysis does not raise: the
    quotient by the mean is not evaluated, and the record it returns (for
    ten candles or more; fewer give None) has volume_ratio 0. *)
Theorem zero_mean_volume_gives_zero_ratio :
  forall (rows : DataFrame) (current_quote : Quote.t),
    historical_mean_volume rows == 0 ->
    exists r,
      FyersNewsScreener.analyze_volume_and_price (Some rows) current_quote
      = Py.Return r
      /\ match r with
         | Some a =>
             Analysis.volume_ratio a = 0
             /\ Analysis.avg_volume a = historical_mean_volume rows
             /\ (10 <= List.length rows)%nat
         | None => (List.length rows < 10)%nat
         end.
Proof.
  intros rows q Hmean.
  destruct (Nat.lt_ge_cases (List.length rows) 10) as [Hlt | Hge].
  - exists None. split; [apply analyze_short_history; exact Hlt | exact Hlt].
  - destruct (analyze_long_history q rows Hge) as (vr & rr & Hret & Hzero & _).
    eexists. split; [exact Hret |].
    cbn [Analysis.volume_ratio Analysis.avg_volume].
    split; [| split; [reflexivity | exact Hge]].
    apply Hzero. rewrite Hmean. apply Qle_refl.
Qed.

(** Ten days without any trade before today. *)
Lemma zero_mean_volume_gives_zero_ratio_witness :
  historical_mean_volume (flat_candles 10 0) == 0
  /\ exists r,
      FyersNewsScreener.analyze_volume_and_price
        (Some (flat_candles 10 0)) (Quote.mk 2450 2000 2 2400)
      = Py.Return r
      /\ match r with
         | Some a =>
             Analysis.volume_ratio a = 0
             /\ Analysis.avg_volume a = historical_mean_volume (flat_candles 10 0)
             /\ (10 <= List.length (flat_candles 10 0))%nat
         | None => (List.length (flat_candles 10 0) < 10)%nat
         end.
Proof.
  assert (H : historical_mean_volume (flat_candles 10 0) == 0) by reflexivity.
  split; [exact H |].
  apply (zero_mean_volume_gives_zero_ratio
           (flat_candles 10 0) (Quote.mk 2450 2000 2 2400) H).
Defined.

Example zero_mean_volume_ex :
  FyersNewsScreener.analyze_volume_and_price
    (Some (flat_candles 10 0)) (Quote.mk 2450 2000 2 2400)
  = Py.Return (Some (Analysis.mk 0 2 (500 # 20) (0 # 9) 2000)).
Proof. reflexivity. Qed.

(** C9: the analysis returns None exactly when the history is absent or
    has fewer than ten candles; on ten candles or more it returns a record
    with all five fields, for every quote, and never raises. *)
Theorem analysis_fails_exactly_below_ten_candles :
  forall (df : option DataFrame) (current_quote : Quote.t),
    (FyersNewsScreener.analyze_volume_and_price df current_quote = Py.Return None
     <-> df = None \/ exists rows, df = Some rows /\ (List.length rows < 10)%nat)
    /\ (forall rows,
           df = Some rows -> (10 <= List.length rows)%nat ->
           exists a,
             FyersNewsScreener.analyze_volume_and_price df current_quote
             = Py.Return (Some a)
             /\ Analysis.price_change a = Quote.change_percent current_quote
             /\ Analysis.current_volume a = Quote.volume current_quote
             /\ Analysis.avg_volume a = historical_mean_volume rows).
Proof.
  intros df q. split; [split |].
  - intro H. destruct df as [rows |]; [right | left; reflexivity].
    exists rows. split; [reflexivity |].
    destruct (Nat.lt_ge_cases (List.length rows) 10) as [Hlt | Hge];
      [exact Hlt |].
    destruct (analyze_long_history q rows Hge) as (vr & rr & Hret & _).
    rewrite Hret in H. discriminate.
  - intros [-> | (rows & -> & Hlt)].
    + reflexivity.
    + apply analyze_short_history. exact Hlt.
  - intros rows -> Hge.
    destruct (analyze_long_history q rows Hge) as (vr & rr & Hret & _).
    eexists. split; [exact Hret |]. cbn. repeat split.
Qed.

Lemma analysis_fails_exactly_below_ten_candles_witness :
  FyersNewsScreener.analyze_volume_and_price
    (Some (flat_candles 9 1000)) (Quote.mk 2450 2000 2 2400) = Py.Return None
  /\ exists a,
      FyersNewsScreener.analyze_volume_and_price
        (Some (flat_candles 10 1000)) (Quote.mk 2450 2000 2 2400)
      = Py.Return (Some a)
      /\ Analysis.price_change a = 2
      /\ Analysis.current_volume a = 2000
      /\ Analysis.avg_volume a = historical_mean_volume (flat_candles 10 1000).
Proof.
  split.
  - apply (proj1 (analysis_fails_exactly_below_ten_candles
                    (Some (flat_candles 9 1000)) (Quote.mk 2450 2000 2 2400))).
    right. exists (flat_candles 9 1000). split; [reflexivity | cbn; lia].
  - apply (proj2 (analysis_fails_exactly_below_ten_candles
                    (Some (flat_candles 10 1000)) (Quote.mk 2450 2000 2 2400))
                 (flat_candles 10 1000)).
    + reflexivity.
    + cbn. lia.
Defined.

(** ** The sentiment classifier *)

Lemma count_keywords_grows (keywords : list string) (text : string) (count : Z) :
  (count <= NewsAnalyzer.count_keywords keywords text count)%Z.
Proof.
  unfold NewsAnalyzer.count_keywords. revert count.
  induction keywords as [| kw kws IH]; intro count; cbn.
  - lia.
  - destruct (Py.contains kw text).
    + specialize (IH (count + 1)%Z). lia.
    + apply IH.
Qed.

(** Two counters that are threaded through a loop and never decrease in
    its body do not decrease over the loop. *)
Lemma paired_counters_grow (A : Type) (f g : A -> Z -> Z) :
  (forall a c, (c <= f a c)%Z) ->
  (forall a c, (c <= g a c)%Z) ->
  forall (l : list A) (counts : Z * Z),
    (fst counts
     <= fst (fold_left (fun pn a => (f a (fst pn), g a (snd pn))) l counts))%Z
    /\ (snd counts
        <= snd (fold_left (fun pn a => (f a (fst pn), g a (snd pn))) l counts))%Z.
Proof.
  intros Hf Hg l. induction l as [| a rest IH]; intros [p n].
  - split; apply Z.le_refl.
  - destruct (IH (f a p, g a n)) as [IHp IHn].
    split; eapply Z.le_trans; [apply (Hf a) | exact IHp | apply (Hg a) | exact IHn].
Qed.

Lemma count_articles_grows (news_articles : list Article.t) (counts : Z * Z) :
  (fst counts <= fst (NewsAnalyzer.count_articles news_articles counts))%Z
  /\ (snd counts <= snd (NewsAnalyzer.count_articles news_articles counts))%Z.
Proof.
  exact (paired_counters_grow Article.t
           (fun article =>
              NewsAnalyzer.count_keywords NewsAnalyzer.POSITIVE_KEYWORDS
                (NewsAnalyzer.article_text article))
           (fun article =>
              NewsAnalyzer.count_keywords NewsAnalyzer.NEGATIVE_KEYWORDS
                (NewsAnalyzer.article_text article))
           (fun article =>
              count_keywords_grows NewsAnalyzer.POSITIVE_KEYWORDS
                (NewsAnalyzer.article_text article))
           (fun article =>
              count_keywords_grows NewsAnalyzer.NEGATIVE_KEYWORDS
                (NewsAnalyzer.article_text article))
           news_articles counts).
Qed.

(** The quotient of the difference by the sum of two counts. *)
Lemma hit_ratio_bounded (p n : Z) :
  (0 <= p)%Z -> (0 <= n)%Z -> (p + n <> 0)%Z ->
  Py.div (inject_Z (p - n)) (inject_Z (p + n))
  = Py.Return (inject_Z (p - n) / inject_Z (p + n))
  /\ - (1) <= inject_Z (p - n) / inject_Z (p + n)
  /\ inject_Z (p - n) / inject_Z (p + n) <= 1.
Proof.
  intros Hp Hn Ht.
  assert (Hpos : 0 < inject_Z (p + n)).
  { change 0 with (inject_Z 0). rewrite <- Zlt_Qlt. lia. }
  split; [| split].
  - apply div_nonzero. intro H. rewrite H in Hpos. discriminate.
  - apply Qle_shift_div_l; [exact Hpos |].
    change (- (1)) with (inject_Z (-1)). rewrite <- inject_Z_mult, <- Zle_Qle. lia.
  - apply Qle_shift_div_r; [exact Hpos |].
    change 1 with (inject_Z 1). rewrite <- inject_Z_mult, <- Zle_Qle. lia.
Qed.

(** C7: for every article list the sentiment analysis returns a score
    between -1 and 1, which is 0 when no keyword was counted and the
    quotient (positive - negative) / (positive + negative) otherwise; the
    summary of the empty list is the string "No recent news", and the
    summary of a non-empty list is a dict that carries this score. *)
Theorem sentiment_score_between_minus_1_and_1 :
  forall news_articles : list Article.t,
  exists (score : Q) (positive_count negative_count : Z),
    NewsAnalyzer.analyze_sentiment news_articles
    = Py.Return (score, positive_count, negative_count)
    /\ (0 <= positive_count)%Z /\ (0 <= negative_count)%Z
    /\ - (1) <= score /\ score <= 1
    /\ score = (if (positive_count + negative_count =? 0)%Z then 0
                else inject_Z (positive_count - negative_count)
                     / inject_Z (positive_count + negative_count))
    /\ match news_articles with
       | [] =>
           NewsAnalyzer.get_news_summary news_articles
           = Py.Return (SStr "No recent news")
       | _ :: _ =>
           exists d,
             NewsAnalyzer.get_news_summary news_articles = Py.Return (SDict d)
             /\ Summary.sentiment_score d = score
             /\ Summary.positive_keywords d = positive_count
             /\ Summary.negative_keywords d = negative_count
       end.
Proof.
  intros [| article rest].
  - exists 0, 0%Z, 0%Z.
    split; [reflexivity |].
    split; [lia |]. split; [lia |].
    split; [discriminate |]. split; [discriminate |].
    split; reflexivity.
  - unfold NewsAnalyzer.get_news_summary, NewsAnalyzer.analyze_sentiment.
    pose proof (count_articles_grows (article :: rest) (0%Z, 0%Z)) as [Hp Hn].
    destruct (NewsAnalyzer.count_articles (article :: rest) (0%Z, 0%Z))
      as [p n]. cbn [fst snd] in Hp, Hn.
    destruct (p + n =? 0)%Z eqn:Et.
    + exists 0, p, n. cbn [Py.bind].
      split; [reflexivity |].
      split; [exact Hp |]. split; [exact Hn |].
      split; [discriminate |]. split; [discriminate |].
      split; [rewrite Et; reflexivity |].
      eexists. split; [reflexivity |].
      cbn [Summary.sentiment_score Summary.positive_keywords
           Summary.negative_keywords].
      split; [reflexivity | split; reflexivity].
    + apply Z.eqb_neq in Et.
      destruct (hit_ratio_bounded p n Hp Hn Et) as (Hd & Hlo & Hhi).
      exists (inject_Z (p - n) / inject_Z (p + n)), p, n.
      rewrite Hd. cbn [Py.bind].
      split; [reflexivity |].
      split; [exact Hp |]. split; [exact Hn |].
      split; [exact Hlo |]. split; [exact Hhi |].
      split; [apply Z.eqb_neq in Et; rewrite Et; reflexivity |].
      eexists. split; [reflexivity |].
      cbn [Summary.sentiment_score Summary.positive_keywords
           Summary.negative_keywords].
      split; [reflexivity | split; reflexivity].
Qed.

(** ** The stable descending sort *)

Section SortFacts.
Variable A : Type.
Variable key : A -> Q.

Lemma insert_desc_perm (x : A) (l : list A) :
  Permutation (x :: l) (insert_desc key x l).
Proof.
  induction l as [| y l IH]; cbn.
  - apply Permutation_refl.
  - destruct (Py.lt (key x) (key y)).
    + eapply perm_trans; [apply perm_swap |]. apply perm_skip. exact IH.
    + apply Permutation_refl.
Qed.

Lemma sort_reverse_perm (l : list A) : Permutation l (sort_reverse key l).
Proof.
  induction l as [| x l IH]; cbn.
  - apply perm_nil.
  - eapply perm_trans; [apply perm_skip; exact IH |]. apply insert_desc_perm.
Qed.

Lemma insert_desc_sorted (x : A) (l : list A) :
  StronglySorted (descending key) l -> StronglySorted (descending key) (insert_desc key x l).
Proof.
  induction 1 as [| y l Hs IH Hy]; cbn.
  - constructor; constructor.
  - destruct (Py.lt (key x) (key y)) eqn:E.
    + apply lt_true in E. constructor; [exact IH |].
      apply (Permutation_Forall (insert_desc_perm x l)).
      constructor; [| exact Hy].
      unfold descending. apply Qlt_le_weak. exact E.
    + apply lt_false in E. constructor.
      * constructor; assumption.
      * constructor; [exact E |].
        apply (Forall_impl _ (P := descending key y)); [| exact Hy].
        intros z Hz. unfold descending in *. eapply Qle_trans; eassumption.
Qed.

Lemma sort_reverse_sorted (l : list A) :
  StronglySorted (descending key) (sort_reverse key l).
Proof.
  induction l as [| x l IH]; cbn.
  - constructor.
  - apply insert_desc_sorted. exact IH.
Qed.

(** An insertion only moves the new element past strictly larger keys. *)
Lemma insert_desc_with_key (k : Q) (x : A) (l : list A) :
  with_key key k (insert_desc key x l) = with_key key k (x :: l).
Proof.
  induction l as [| y l IH]; [reflexivity |].
  cbn [insert_desc].
  destruct (Py.lt (key x) (key y)) eqn:E; [| reflexivity].
  apply lt_true in E.
  change (with_key key k (y :: insert_desc key x l))
    with (if Qeq_bool (key y) k then y :: with_key key k (insert_desc key x l)
          else with_key key k (insert_desc key x l)).
  rewrite IH. unfold with_key. cbn [filter].
  destruct (Qeq_bool (key x) k) eqn:Ex; [| reflexivity].
  destruct (Qeq_bool (key y) k) eqn:Ey; [| reflexivity].
  apply Qeq_bool_iff in Ex. apply Qeq_bool_iff in Ey.
  exfalso. rewrite Ex, Ey in E. apply (Qlt_irrefl k). exact E.
Qed.

Lemma sort_reverse_stable (k : Q) (l : list A) :
  with_key key k (sort_reverse key l) = with_key key k l.
Proof.
  induction l as [| x l IH]; [reflexivity |].
  cbn [sort_reverse]. rewrite insert_desc_with_key.
  unfold with_key in *. cbn [filter]. rewrite IH. reflexivity.
Qed.

Lemma with_key_head (x : A) (l : list A) :
  with_key key (key x) (x :: l) = x :: with_key key (key x) l.
Proof.
  unfold with_key. cbn [filter].
  assert (E : Qeq_bool (key x) (key x) = true) by (apply Qeq_bool_iff; reflexivity).
  rewrite E. reflexivity.
Qed.

Lemma with_key_incl (k : Q) (x : A) (l : list A) :
  In x (with_key key k l) -> In x l.
Proof. unfold with_key. intro H. apply filter_In in H. apply H. Qed.

(** Two descending lists with the same elements of every key, in the same
    order, are equal: the stable descending arrangement of a list is
    unique, so every stable sort computes [sort_reverse]. *)
Lemma stable_descending_unique (l1 l2 : list A) :
  StronglySorted (descending key) l1 ->
  StronglySorted (descending key) l2 ->
  (forall k, with_key key k l1 = with_key key k l2) ->
  l1 = l2.
Proof.
  intro H1. revert l2.
  induction H1 as [| x l1 Hs1 IH Hx]; intros l2 H2 Hk.
  - destruct l2 as [| y l2]; [reflexivity |].
    specialize (Hk (key y)). rewrite with_key_head in Hk. discriminate.
  - destruct H2 as [| y l2 Hs2 Hy].
    + specialize (Hk (key x)). rewrite with_key_head in Hk. discriminate.
    + assert (Hxy : key x <= key y).
      { pose proof (Hk (key x)) as E. rewrite with_key_head in E.
        assert (Hin : In x (y :: l2)).
        { apply (with_key_incl (key x)). rewrite <- E. left. reflexivity. }
        destruct Hin as [-> | Hin]; [apply Qle_refl |].
        rewrite Forall_forall in Hy. apply (Hy x Hin). }
      assert (Hyx : key y <= key x).
      { pose proof (Hk (key y)) as E. rewrite (with_key_head y) in E.
        assert (Hin : In y (x :: l1)).
        { apply (with_key_incl (key y)). rewrite E. left. reflexivity. }
        destruct Hin as [-> | Hin]; [apply Qle_refl |].
        rewrite Forall_forall in Hx. apply (Hx y Hin). }
      assert (Heq : Qeq_bool (key y) (key x) = true).
      { apply Qeq_bool_iff. apply Qle_antisym; assumption. }
      assert (x = y).
      { pose proof (Hk (key x)) as E. rewrite with_key_head in E.
        unfold with_key in E. cbn [filter] in E. rewrite Heq in E.
        injection E as E _. exact E. }
      subst y. f_equal. apply IH; [exact Hs2 |].
      intro k. specialize (Hk k). unfold with_key in *. cbn [filter] in Hk.
      destruct (Qeq_bool (key x) k); [injection Hk as Hk |]; exact Hk.
Qed.

End SortFacts.

Example sort_reverse_ties :
  map Stock.symbol
      (sort_reverse Stock.volume_ratio
         [ Stock.mk "A" "" 0 0 2 "" "" "" 0 [] "";
           Stock.mk "B" "" 0 0 (4 # 1) "" "" "" 0 [] "";
           Stock.mk "C" "" 0 0 (4 # 2) "" "" "" 0 [] "";
           Stock.mk "D" "" 0 0 (8 # 2) "" "" "" 0 [] "" ])
  = ["B"; "D"; "A"; "C"].
Proof. reflexivity. Qed.

(** ** The scan *)

Section Scan.
Variable cfg : Config.t.
Variable env : Env.t.

Import FyersNewsScreener.

Lemma discovered_app (l1 l2 : list string) :
  discovered cfg env (l1 ++ l2)%list = (discovered cfg env l1 ++ discovered cfg env l2)%list.
Proof. apply flat_map_app. Qed.

(** An iteration appends what it finds and leaves the flag alone, also
    when its body raises. *)
Lemma scan_iteration_appends (self : t) (symbol : string) :
  scan_iteration cfg env self symbol
  = mk (screened_stocks self ++ discovered cfg env [symbol])%list (is_scanning self).
Proof.
  unfold scan_iteration, discovered. cbn [flat_map].
  destruct (scan_symbol cfg env symbol) as [e | [stock_data |]];
    cbn [app]; rewrite ?app_nil_r; destruct self; reflexivity.
Qed.

Lemma scan_loop_appends (symbols : list string) (self : t) :
  scan_loop cfg env symbols self
  = mk (screened_stocks self ++ discovered cfg env symbols)%list (is_scanning self).
Proof.
  unfold scan_loop. revert self.
  induction symbols as [| symbol rest IH]; intro self; cbn [fold_left].
  - cbn. rewrite app_nil_r. destruct self; reflexivity.
  - rewrite IH, scan_iteration_appends. cbn [screened_stocks is_scanning].
    rewrite <- app_assoc, <- discovered_app. reflexivity.
Qed.

(** What a completed scan leaves and returns does not depend on the
    state it started from. *)
Lemma scan_stocks_result (self : t) :
  scan_stocks cfg env self
  = (mk (sort_reverse Stock.volume_ratio (discovered cfg env get_nse_symbols)) false,
     sort_reverse Stock.volume_ratio (discovered cfg env get_nse_symbols)).
Proof.
  unfold scan_stocks. rewrite scan_loop_appends. reflexivity.
Qed.

(** A thread that runs alone. *)
Lemma run_add (n m : nat) (p : Thread.pc) (self : t) :
  Thread.run cfg env (n + m) p self
  = let '(p', self') := Thread.run cfg env n p self in
    Thread.run cfg env m p' self'.
Proof.
  revert p self. induction n as [| n IH]; intros p self; [reflexivity |].
  cbn [Nat.add Thread.run].
  destruct (Thread.step cfg env p self) as [[p' self'] ev]. apply IH.
Qed.

Lemma run_loop (rest : list string) (self : t) :
  Thread.run cfg env (List.length rest) (Thread.InLoop rest) self
  = (Thread.InLoop [], scan_loop cfg env rest self).
Proof.
  revert self. induction rest as [| symbol rest IH]; intro self; [reflexivity |].
  cbn [List.length Thread.run Thread.step]. rewrite IH. reflexivity.
Qed.

(** Run to its end, a thread does what the method does. *)
Lemma run_to_completion (self : t) :
  Thread.run cfg env (2 + List.length get_nse_symbols + 2) Thread.AtStart self
  = (Thread.Finished, fst (scan_stocks cfg env self)).
Proof.
  rewrite run_add, run_add.
  cbn [Thread.run Thread.step]. rewrite run_loop.
  cbn [Thread.run Thread.step]. unfold scan_stocks. reflexivity.
Qed.

End Scan.

(** C8: a completed scan publishes, and returns, its results sorted by
    volume_ratio in descending order; the published list is a rearrangement
    of the results in discovery order in which results of equal volume_ratio
    keep their discovery order. *)
Theorem completed_scan_sorted_descending_stable :
  forall (cfg : Config.t) (env : Env.t) (before : FyersNewsScreener.t),
    let after := fst (FyersNewsScreener.scan_stocks cfg env before) in
    let published := FyersNewsScreener.screened_stocks after in
    App.get_results (Some (App.mkSystem after []))
    = App.Results false published (Z.of_nat (List.length published))
    /\ snd (FyersNewsScreener.scan_stocks cfg env before) = published
    /\ StronglySorted (descending Stock.volume_ratio) published
    /\ Permutation (discovered cfg env FyersNewsScreener.get_nse_symbols) published
    /\ forall k : Q,
        with_key Stock.volume_ratio k published
        = with_key Stock.volume_ratio k
            (discovered cfg env FyersNewsScreener.get_nse_symbols).
Proof.
  intros cfg env before after published. subst published after.
  rewrite scan_stocks_result. cbn [fst snd FyersNewsScreener.screened_stocks].
  split; [reflexivity |]. split; [reflexivity |].
  split; [apply sort_reverse_sorted |].
  split; [apply sort_reverse_perm |].
  intro k. apply sort_reverse_stable.
Qed.

(** ** What the routes can see while a scan runs *)

Section Visible.
Variable cfg : Config.t.
Variable env : Env.t.

Import FyersNewsScreener.

Lemma visible_step (before : t) (p : Thread.pc) (self : t) :
  visible_during cfg env before p self ->
  visible_during cfg env before (fst (fst (Thread.step cfg env p self)))
                        (snd (fst (Thread.step cfg env p self))).
Proof.
  destruct p as [| | [| symbol rest] | |]; cbn [Thread.step fst snd visible_during].
  - intros ->. split; reflexivity.
  - intros [_ Hflag]. exists []. cbn [app screened_stocks is_scanning].
    split; [reflexivity |]. split; [reflexivity | exact Hflag].
  - intros (visited & Hsyms & Hseen & Hflag).
    rewrite app_nil_r in Hsyms. subst visited.
    cbn [screened_stocks is_scanning]. rewrite Hseen.
    split; [reflexivity | exact Hflag].
  - intros (visited & Hsyms & Hseen & Hflag).
    exists (visited ++ [symbol])%list.
    rewrite scan_iteration_appends. cbn [screened_stocks is_scanning].
    rewrite <- app_assoc, discovered_app, Hseen.
    split; [exact Hsyms |]. split; [reflexivity | exact Hflag].
  - intros [Hseen _]. cbn [screened_stocks is_scanning].
    split; [exact Hseen | reflexivity].
  - intro H. exact H.
Qed.

Lemma visible_run (before : t) (n : nat) (p : Thread.pc) (self : t) :
  visible_during cfg env before p self ->
  visible_during cfg env before (fst (Thread.run cfg env n p self))
                        (snd (Thread.run cfg env n p self)).
Proof.
  revert p self. induction n as [| n IH]; intros p self H; [exact H |].
  cbn [Thread.run]. pose proof (visible_step before p self H) as Hstep.
  destruct (Thread.step cfg env p self) as [[p' self'] ev].
  apply IH. exact Hstep.
Qed.

End Visible.

(** C1 (as stated) fails: after a completed scan that published two
    results, a second scan is started; once it has run its first two
    statements the results route answers with the empty list, and after
    two more symbols with the two results of the running scan, not yet
    sorted, while the scan is still in its loop. *)
Lemma results_cleared_and_partial_mid_scan :
  let before :=
    fst (FyersNewsScreener.scan_stocks Config.default demo_env FyersNewsScreener.init) in
  let at2 := Thread.run Config.default demo_env 2 Thread.AtStart before in
  let at4 := Thread.run Config.default demo_env 4 Thread.AtStart before in
  App.get_results (Some (App.mkSystem before []))
  = App.Results false [tcs_stock; reliance_stock] 2
  /\ fst at2 = Thread.InLoop FyersNewsScreener.get_nse_symbols
  /\ App.get_results (Some (App.mkSystem (snd at2) [fst at2]))
     = App.Results true [] 0
  /\ App.get_results (Some (App.mkSystem (snd at4) [fst at4]))
     = App.Results true [reliance_stock; tcs_stock] 2
  /\ FyersNewsScreener.screened_stocks (snd at2)
     <> FyersNewsScreener.screened_stocks before.
Proof.
  vm_compute. repeat split; discriminate.
Qed.

(** ** start_scan and the scan threads *)

Section Threads.
Variable cfg : Config.t.
Variable env : Env.t.

Import App.

Lemma total_app (budget : Thread.pc -> nat) (l1 l2 : list Thread.pc) :
  total budget (l1 ++ l2)%list = (total budget l1 + total budget l2)%nat.
Proof.
  unfold total. induction l1 as [| p l1 IH]; cbn [app fold_right];
    [reflexivity |].
  rewrite IH. lia.
Qed.

Lemma total_set_nth (budget : Thread.pc -> nat) (i : nat) (p p' : Thread.pc)
      (ts : list Thread.pc) :
  nth_error ts i = Some p ->
  (total budget (set_nth i p' ts) + budget p = total budget ts + budget p')%nat.
Proof.
  unfold total. revert i. induction ts as [| q ts IH]; intros i H.
  - destruct i; discriminate.
  - destruct i as [| i]; cbn [nth_error set_nth fold_right] in H |- *.
    + injection H as ->. lia.
    + specialize (IH i H). lia.
Qed.

Lemma step_spends_rebind (p : Thread.pc) (self : FyersNewsScreener.t) :
  (spent is_rebind (snd (Thread.step cfg env p self))
   + rebinds_left (fst (fst (Thread.step cfg env p self))) = rebinds_left p)%nat.
Proof. destruct p as [| | [| symbol rest] | |]; reflexivity. Qed.

Lemma step_spends_sort (p : Thread.pc) (self : FyersNewsScreener.t) :
  (spent is_sort (snd (Thread.step cfg env p self))
   + sorts_left (fst (fst (Thread.step cfg env p self))) = sorts_left p)%nat.
Proof. destruct p as [| | [| symbol rest] | |]; reflexivity. Qed.

(** Whatever the schedule, the events of a kind that occur and those that
    are still to come add up to what the threads had to do at the start. *)
Lemma schedule_spends
      (is_ev : Thread.event -> bool) (budget : Thread.pc -> nat) :
  (forall p self,
      (spent is_ev (snd (Thread.step cfg env p self))
       + budget (fst (fst (Thread.step cfg env p self))) = budget p)%nat) ->
  forall (schedule : list nat) (sys : system),
    (List.length (filter is_ev (snd (run_schedule cfg env schedule sys)))
     + total budget (threads (fst (run_schedule cfg env schedule sys)))
     = total budget (threads sys))%nat.
Proof.
  intros Hstep schedule.
  induction schedule as [| i schedule IH]; intro sys; [reflexivity |].
  cbn [run_schedule]. unfold step_thread.
  destruct (nth_error (threads sys) i) as [p |] eqn:Ei.
  - pose proof (Hstep p (screener sys)) as Hp.
    destruct (Thread.step cfg env p (screener sys)) as [[p' self'] ev].
    cbn [fst snd] in Hp.
    specialize (IH (mkSystem self' (set_nth i p' (threads sys)))).
    destruct (run_schedule cfg env schedule
                (mkSystem self' (set_nth i p' (threads sys)))) as [sys'' evs].
    cbn [fst snd threads] in IH |- *.
    pose proof (total_set_nth budget i p p' (threads sys) Ei) as Hset.
    unfold spent in Hp. cbn [filter].
    destruct (is_ev ev); cbn [List.length]; lia.
  - specialize (IH sys).
    destruct (run_schedule cfg env schedule sys) as [sys'' evs].
    cbn [fst snd] in IH |- *.
    pose proof (Hstep Thread.Finished (screener sys)) as Hidle.
    cbn [Thread.step fst snd] in Hidle. unfold spent in Hidle.
    cbn [filter]. destruct (is_ev Thread.Idle); cbn [List.length]; lia.
Qed.

Lemma rebinds_bounded (schedule : list nat) (sys : system) :
  (rebinds (snd (run_schedule cfg env schedule sys))
   + total rebinds_left (threads (fst (run_schedule cfg env schedule sys)))
   = total rebinds_left (threads sys))%nat.
Proof. apply (schedule_spends is_rebind rebinds_left step_spends_rebind). Qed.

Lemma completions_bounded (schedule : list nat) (sys : system) :
  (completions (snd (run_schedule cfg env schedule sys))
   + total sorts_left (threads (fst (run_schedule cfg env schedule sys)))
   = total sorts_left (threads sys))%nat.
Proof. apply (schedule_spends is_sort sorts_left step_spends_sort). Qed.

Lemma rebinds_app (evs1 evs2 : list Thread.event) :
  rebinds (evs1 ++ evs2)%list = (rebinds evs1 + rebinds evs2)%nat.
Proof. unfold rebinds. rewrite filter_app, length_app. reflexivity. Qed.

Lemma completions_app (evs1 evs2 : list Thread.event) :
  completions (evs1 ++ evs2)%list = (completions evs1 + completions evs2)%nat.
Proof. unfold completions. rewrite filter_app, length_app. reflexivity. Qed.

(** A call of [start_scan] starts at most one thread, and none when it
    answers AlreadyScanning. *)
Lemma start_scan_threads (sys sys' : system) (r : response) :
  start_scan (Some sys) = (r, Some sys') ->
  screener sys' = screener sys
  /\ ((r = AlreadyScanning /\ threads sys' = threads sys)
      \/ (r = ScanStarted
          /\ FyersNewsScreener.is_scanning (screener sys) = false
          /\ threads sys' = (threads sys ++ [Thread.AtStart])%list)).
Proof.
  unfold start_scan.
  destruct (FyersNewsScreener.is_scanning (screener sys)) eqn:E; intro H;
    injection H as <- <-.
  - split; [reflexivity |]. left. split; reflexivity.
  - split; [reflexivity |]. right. repeat split.
Qed.

End Threads.

(** The flag is written by the thread, not by the route: as long as the
    thread started by a first call has not run its first statement, a second
    call is accepted too, and each of the two threads replaces and sorts the
    result list. *)
Remark start_scan_twice_before_thread_runs :
  let '(r1, g1) := App.start_scan (Some idle_system) in
  let '(r2, g2) := App.start_scan g1 in
  r1 = App.ScanStarted /\ r2 = App.ScanStarted
  /\ option_map App.threads g2 = Some [Thread.AtStart; Thread.AtStart]
  /\ match g2 with
     | Some sys2 =>
         let events :=
           snd (App.run_schedule Config.default demo_env
                  (repeat 0%nat 56 ++ repeat 1%nat 56) sys2) in
         App.rebinds events = 2%nat /\ App.completions events = 2%nat
     | None => False
     end.
Proof. vm_compute. repeat split. Qed.

Section ProgramPoints.
Variable cfg : Config.t.
Variable env : Env.t.

Lemma step_next_pc (p : Thread.pc) (self : FyersNewsScreener.t) :
  fst (fst (Thread.step cfg env p self)) = next_pc p.
Proof. destruct p as [| | [| symbol rest] | |]; reflexivity. Qed.

Lemma schedule_threads (schedule : list nat) (sys : App.system) :
  App.threads (fst (App.run_schedule cfg env schedule sys))
  = threads_after schedule (App.threads sys).
Proof.
  unfold threads_after. revert sys.
  induction schedule as [| i schedule IH]; intro sys; [reflexivity |].
  cbn [App.run_schedule fold_left]. unfold App.step_thread.
  destruct (nth_error (App.threads sys) i) as [p |].
  - pose proof (step_next_pc p (App.screener sys)) as Hp.
    destruct (Thread.step cfg env p (App.screener sys)) as [[p' self'] ev].
    cbn [fst] in Hp. subst p'.
    specialize (IH (App.mkSystem self'
                      (App.set_nth i (next_pc p) (App.threads sys)))).
    destruct (App.run_schedule cfg env schedule
                (App.mkSystem self'
                   (App.set_nth i (next_pc p) (App.threads sys))))
      as [sys'' evs].
    exact IH.
  - specialize (IH sys).
    destruct (App.run_schedule cfg env schedule sys) as [sys'' evs].
    exact IH.
Qed.

End ProgramPoints.

(** C5 (the code departs from it): the flag is read by the route and set
    only by the scan thread it starts.  Two start_scan calls made back to
    back on an idle screener, the second before the thread of the first has
    run its first statement, are both answered ScanStarted and leave two
    scan threads; when these run, one after the other, the result list is
    replaced twice and completed twice. *)
Theorem start_scan_twice_starts_two_scans :
  forall (cfg : Config.t) (env : Env.t) (sys : App.system),
    FyersNewsScreener.is_scanning (App.screener sys) = false ->
    App.threads sys = [] ->
    let sys1 := App.mkSystem (App.screener sys) [Thread.AtStart] in
    let sys2 := App.mkSystem (App.screener sys) [Thread.AtStart; Thread.AtStart] in
    App.start_scan (Some sys) = (App.ScanStarted, Some sys1)
    /\ App.start_scan (Some sys1) = (App.ScanStarted, Some sys2)
    /\ App.status App.ScanStarted = 200%Z
    /\ App.threads
         (fst (App.run_schedule cfg env
                 (repeat 0%nat scan_steps ++ repeat 1%nat scan_steps) sys2))
       = [Thread.Finished; Thread.Finished]
    /\ App.rebinds
         (snd (App.run_schedule cfg env
                 (repeat 0%nat scan_steps ++ repeat 1%nat scan_steps) sys2))
       = 2%nat
    /\ App.completions
         (snd (App.run_schedule cfg env
                 (repeat 0%nat scan_steps ++ repeat 1%nat scan_steps) sys2))
       = 2%nat.
Proof.
  intros cfg env sys Hflag Hnone sys1 sys2.
  assert (Hend :
            App.threads
              (fst (App.run_schedule cfg env
                      (repeat 0%nat scan_steps ++ repeat 1%nat scan_steps) sys2))
            = [Thread.Finished; Thread.Finished]).
  { rewrite schedule_threads. vm_compute. reflexivity. }
  split; [unfold App.start_scan; rewrite Hflag, Hnone; reflexivity |].
  split; [unfold App.start_scan; cbn [App.screener sys1]; rewrite Hflag;
          reflexivity |].
  split; [reflexivity |]. split; [exact Hend |].
  pose proof (rebinds_bounded cfg env
                (repeat 0%nat scan_steps ++ repeat 1%nat scan_steps) sys2) as R.
  pose proof (completions_bounded cfg env
                (repeat 0%nat scan_steps ++ repeat 1%nat scan_steps) sys2) as S.
  rewrite Hend in R, S. cbn [App.threads sys2 total fold_right
                             rebinds_left sorts_left] in R, S.
  split; lia.
Qed.

Lemma start_scan_twice_starts_two_scans_witness :
  App.start_scan (Some idle_system)
  = (App.ScanStarted, Some (App.mkSystem FyersNewsScreener.init [Thread.AtStart]))
  /\ App.start_scan (Some (App.mkSystem FyersNewsScreener.init [Thread.AtStart]))
     = (App.ScanStarted,
        Some (App.mkSystem FyersNewsScreener.init [Thread.AtStart; Thread.AtStart]))
  /\ App.status App.ScanStarted = 200%Z
  /\ App.threads
       (fst (App.run_schedule Config.default demo_env
               (repeat 0%nat scan_steps ++ repeat 1%nat scan_steps)
               (App.mkSystem FyersNewsScreener.init [Thread.AtStart; Thread.AtStart])))
     = [Thread.Finished; Thread.Finished]
  /\ App.rebinds
       (snd (App.run_schedule Config.default demo_env
               (repeat 0%nat scan_steps ++ repeat 1%nat scan_steps)
               (App.mkSystem FyersNewsScreener.init [Thread.AtStart; Thread.AtStart])))
     = 2%nat
  /\ App.completions
       (snd (App.run_schedule Config.default demo_env
               (repeat 0%nat scan_steps ++ repeat 1%nat scan_steps)
               (App.mkSystem FyersNewsScreener.init [Thread.AtStart; Thread.AtStart])))
     = 2%nat.
Proof.
  apply (start_scan_twice_starts_two_scans Config.default demo_env idle_system).
  - reflexivity.
  - reflexivity.
Defined.

(** The two scans of such a pair need not run one after the other.  When
    the second thread rebinds the list after the first has, both append to
    the same list: the first scan ends and clears the flag while the second
    is still in its loop, and in the end every result is published twice. *)
Example overlapping_scans_publish_duplicates :
  let sys2 := App.mkSystem FyersNewsScreener.init [Thread.AtStart; Thread.AtStart] in
  let midway :=
    fst (App.run_schedule Config.default demo_env
           ([0; 0; 1; 1]%nat ++ repeat 0%nat 54 ++ repeat 1%nat 3)%list sys2) in
  let final :=
    fst (App.run_schedule Config.default demo_env
           ([0; 0; 1; 1]%nat ++ repeat 0%nat 54 ++ repeat 1%nat 54)%list sys2) in
  App.get_results (Some midway)
  = App.Results false [tcs_stock; reliance_stock; reliance_stock; tcs_stock] 4
  /\ App.threads midway
     = [Thread.Finished; Thread.InLoop (skipn 3 FyersNewsScreener.get_nse_symbols)]
  /\ App.get_results (Some final)
     = App.Results false [tcs_stock; tcs_stock; reliance_stock; reliance_stock] 4
  /\ App.threads final = [Thread.Finished; Thread.Finished].
Proof. vm_compute. repeat split. Qed.

(** ** The result list as an object: what a request reads *)

Section Objects.
Variable cfg : Config.t.
Variable env : Env.t.

Lemma length_set_nth (A : Type) (i : nat) (x : A) (l : list A) :
  List.length (App.set_nth i x l) = List.length l.
Proof.
  revert i. induction l as [| y l IH]; intro i;
    [destruct i; reflexivity |].
  destruct i as [| i]; cbn [App.set_nth List.length]; [reflexivity |].
  rewrite IH. reflexivity.
Qed.

Lemma nth_set_nth_same (A : Type) (i : nat) (x d : A) (l : list A) :
  (i < List.length l)%nat -> nth i (App.set_nth i x l) d = x.
Proof.
  revert i. induction l as [| y l IH]; intros i H; cbn [List.length] in H;
    [lia |].
  destruct i as [| i]; cbn [App.set_nth nth]; [reflexivity |].
  apply IH. lia.
Qed.

Lemma nth_set_nth_other (A : Type) (i j : nat) (x d : A) (l : list A) :
  i <> j -> nth j (App.set_nth i x l) d = nth j l d.
Proof.
  revert i j. induction l as [| y l IH]; intros i j H;
    [destruct i; reflexivity |].
  destruct i as [| i]; destruct j as [| j]; cbn [App.set_nth nth];
    try reflexivity; [contradiction |].
  apply IH. intro E. apply H. rewrite E. reflexivity.
Qed.

Lemma view_in_place (f : list Stock.t -> list Stock.t) (h : Heap.t) :
  (Heap.screened_stocks h < List.length (Heap.objects h))%nat ->
  Heap.view (Heap.in_place f h)
  = FyersNewsScreener.mk
      (f (FyersNewsScreener.screened_stocks (Heap.view h)))
      (FyersNewsScreener.is_scanning (Heap.view h)).
Proof.
  intro H. unfold Heap.view, Heap.in_place, Heap.deref.
  cbn [Heap.objects Heap.screened_stocks Heap.is_scanning
       FyersNewsScreener.screened_stocks FyersNewsScreener.is_scanning].
  rewrite nth_set_nth_same by exact H. reflexivity.
Qed.

(** On the attributes, the statements on the objects are the statements
    of the thread. *)
Lemma heap_step_view (p : Thread.pc) (h : Heap.t) :
  (Heap.screened_stocks h < List.length (Heap.objects h))%nat ->
  fst (Heap.step cfg env p h) = fst (fst (Thread.step cfg env p (Heap.view h)))
  /\ Heap.view (snd (Heap.step cfg env p h))
     = snd (fst (Thread.step cfg env p (Heap.view h)))
  /\ (Heap.screened_stocks (snd (Heap.step cfg env p h))
      < List.length (Heap.objects (snd (Heap.step cfg env p h))))%nat.
Proof.
  intro H.
  destruct p as [| | [| symbol rest] | |]; cbn [Heap.step Thread.step fst snd].
  - split; [reflexivity |]. split; [reflexivity | exact H].
  - split; [reflexivity |]. split.
    + unfold Heap.view, Heap.deref.
      cbn [Heap.objects Heap.screened_stocks Heap.is_scanning
           FyersNewsScreener.is_scanning].
      rewrite app_nth2 by lia. rewrite Nat.sub_diag. reflexivity.
    + cbn [Heap.objects Heap.screened_stocks]. rewrite length_app.
      cbn [List.length]. lia.
  - split; [reflexivity |]. split; [apply view_in_place; exact H |].
    unfold Heap.in_place. cbn [Heap.objects Heap.screened_stocks].
    rewrite length_set_nth. exact H.
  - split; [reflexivity |]. unfold FyersNewsScreener.scan_iteration.
    destruct (FyersNewsScreener.scan_symbol cfg env symbol) as [e | [sd |]].
    + split; [reflexivity | exact H].
    + split; [apply view_in_place; exact H |].
      unfold Heap.in_place. cbn [Heap.objects Heap.screened_stocks].
      rewrite length_set_nth. exact H.
    + split; [reflexivity | exact H].
  - split; [reflexivity |]. split; [reflexivity | exact H].
  - split; [reflexivity |]. split; [reflexivity | exact H].
Qed.

Lemma heap_run_view (n : nat) (p : Thread.pc) (h : Heap.t) :
  (Heap.screened_stocks h < List.length (Heap.objects h))%nat ->
  fst (Heap.run cfg env n p h) = fst (Thread.run cfg env n p (Heap.view h))
  /\ Heap.view (snd (Heap.run cfg env n p h))
     = snd (Thread.run cfg env n p (Heap.view h)).
Proof.
  revert p h. induction n as [| n IH]; intros p h H.
  - split; reflexivity.
  - cbn [Heap.run Thread.run].
    destruct (heap_step_view p h H) as (Hp & Hv & Hwf).
    destruct (Heap.step cfg env p h) as [p' h'].
    destruct (Thread.step cfg env p (Heap.view h)) as [[q self'] ev].
    cbn [fst snd] in Hp, Hv, Hwf. subst q self'.
    apply IH. exact Hwf.
Qed.

Lemma heap_step_pc (p : Thread.pc) (h : Heap.t) :
  fst (Heap.step cfg env p h) = next_pc p.
Proof. destruct p as [| | [| symbol rest] | |]; reflexivity. Qed.

Lemma past_rebind_next (p : Thread.pc) :
  past_rebind p = true -> past_rebind (next_pc p) = true.
Proof. destruct p as [| | [| symbol rest] | |]; intro H; try discriminate; reflexivity. Qed.

Lemma past_rebind_stays (n : nat) (p : Thread.pc) (h : Heap.t) :
  past_rebind p = true -> past_rebind (fst (Heap.run cfg env n p h)) = true.
Proof.
  revert p h. induction n as [| n IH]; intros p h H; [exact H |].
  cbn [Heap.run]. pose proof (heap_step_pc p h) as Hp.
  destruct (Heap.step cfg env p h) as [p' h']. cbn [fst] in Hp. subst p'.
  apply IH. apply past_rebind_next. exact H.
Qed.

(** The rebinding is the second statement. *)
Lemma past_rebind_from_start (n : nat) (h : Heap.t) :
  past_rebind (fst (Heap.run cfg env n Thread.AtStart h)) = negb (n <? 2)%nat.
Proof.
  destruct n as [| [| n]]; [reflexivity | reflexivity |].
  cbn [Heap.run Heap.step]. rewrite past_rebind_stays; reflexivity.
Qed.

Lemma objects_step (h0 : Heap.t) (p : Thread.pc) (h : Heap.t) :
  objects_during h0 p h ->
  objects_during h0 (fst (Heap.step cfg env p h)) (snd (Heap.step cfg env p h)).
Proof.
  assert (Hin : forall f,
             Heap.screened_stocks h = List.length (Heap.objects h0)
             /\ List.length (Heap.objects h) = S (List.length (Heap.objects h0))
             /\ (forall address : nat,
                    (address < List.length (Heap.objects h0))%nat ->
                    Heap.deref h address = Heap.deref h0 address) ->
             Heap.screened_stocks (Heap.in_place f h) = List.length (Heap.objects h0)
             /\ List.length (Heap.objects (Heap.in_place f h))
                = S (List.length (Heap.objects h0))
             /\ (forall address : nat,
                    (address < List.length (Heap.objects h0))%nat ->
                    Heap.deref (Heap.in_place f h) address = Heap.deref h0 address)).
  { intros f (Href & Hlen & Hold). unfold Heap.in_place, Heap.deref.
    cbn [Heap.objects Heap.screened_stocks].
    split; [exact Href |]. split; [rewrite length_set_nth; exact Hlen |].
    intros address Ha. rewrite nth_set_nth_other by lia. apply Hold. exact Ha. }
  unfold objects_during.
  destruct p as [| | [| symbol rest] | |];
    cbn [Heap.step fst snd past_rebind Heap.objects Heap.screened_stocks].
  - intro H. exact H.
  - intros [Hobj Href]. rewrite Hobj.
    split; [reflexivity |].
    split; [rewrite length_app; cbn [List.length]; lia |].
    intros address Ha. unfold Heap.deref. cbn [Heap.objects].
    apply app_nth1. exact Ha.
  - intro H. apply Hin. exact H.
  - intro H.
    destruct (FyersNewsScreener.scan_symbol cfg env symbol) as [e | [sd |]];
      [exact H | apply Hin; exact H | exact H].
  - intros (Href & Hlen & Hold).
    split; [exact Href |]. split; [exact Hlen |]. exact Hold.
  - intro H. exact H.
Qed.

Lemma objects_run (h0 : Heap.t) (n : nat) (p : Thread.pc) (h : Heap.t) :
  objects_during h0 p h ->
  objects_during h0 (fst (Heap.run cfg env n p h)) (snd (Heap.run cfg env n p h)).
Proof.
  revert p h. induction n as [| n IH]; intros p h H; [exact H |].
  cbn [Heap.run]. pose proof (objects_step h0 p h H) as Hstep.
  destruct (Heap.step cfg env p h) as [p' h']. apply IH. exact Hstep.
Qed.

(** The list a request writes out when it took its reference at step
    [n_list] and writes at step [n_dump]. *)
Lemma referenced_list (before : FyersNewsScreener.t) (n_list n_dump : nat) :
  (n_list <= n_dump)%nat ->
  Heap.deref
    (snd (Heap.run cfg env n_dump Thread.AtStart (Heap.of_instance before)))
    (Heap.screened_stocks
       (snd (Heap.run cfg env n_list Thread.AtStart (Heap.of_instance before))))
  = if (n_list <? 2)%nat then FyersNewsScreener.screened_stocks before
    else FyersNewsScreener.screened_stocks
           (snd (Thread.run cfg env n_dump Thread.AtStart before)).
Proof.
  intro Hle.
  set (h0 := Heap.of_instance before).
  assert (H0 : objects_during h0 Thread.AtStart h0) by (split; reflexivity).
  pose proof (objects_run h0 n_list Thread.AtStart h0 H0) as Hl.
  pose proof (objects_run h0 n_dump Thread.AtStart h0 H0) as Hd.
  unfold objects_during in Hl, Hd.
  rewrite past_rebind_from_start in Hl, Hd.
  assert (Hwf : (Heap.screened_stocks h0 < List.length (Heap.objects h0))%nat)
    by (cbn; lia).
  destruct (heap_run_view n_dump Thread.AtStart h0 Hwf) as [_ Hview].
  change (Heap.view h0) with
    (FyersNewsScreener.mk (FyersNewsScreener.screened_stocks before)
                          (FyersNewsScreener.is_scanning before)) in Hview.
  assert (Hb : FyersNewsScreener.mk (FyersNewsScreener.screened_stocks before)
                                    (FyersNewsScreener.is_scanning before) = before)
    by (destruct before; reflexivity).
  rewrite Hb in Hview.
  destruct (n_list <? 2)%nat eqn:El; cbn [negb] in Hl.
  - destruct Hl as [_ Href]. rewrite Href.
    destruct (n_dump <? 2)%nat; cbn [negb] in Hd.
    + destruct Hd as [Hobj _]. unfold Heap.deref. rewrite Hobj. reflexivity.
    + destruct Hd as (_ & _ & Hold). rewrite Hold by (cbn; lia). reflexivity.
  - destruct Hl as (Href & _). rewrite Href.
    apply Nat.ltb_ge in El.
    assert (Ed : (n_dump <? 2)%nat = false) by (apply Nat.ltb_ge; lia).
    rewrite Ed in Hd. cbn [negb] in Hd. destruct Hd as (Href' & _).
    rewrite <- Href', <- Hview. reflexivity.
Qed.

Lemma attributes_at (before : FyersNewsScreener.t) (n : nat) :
  Heap.view (snd (Heap.run cfg env n Thread.AtStart (Heap.of_instance before)))
  = snd (Thread.run cfg env n Thread.AtStart before).
Proof.
  assert (Hwf : (Heap.screened_stocks (Heap.of_instance before)
                 < List.length (Heap.objects (Heap.of_instance before)))%nat)
    by (cbn; lia).
  destruct (heap_run_view n Thread.AtStart (Heap.of_instance before) Hwf)
    as [_ Hview].
  rewrite Hview. destruct before; reflexivity.
Qed.

End Objects.

(** C1 (as amended): for a scan that runs with no other scan thread, seen
    between two of its statements.  A request for the results reads the
    flag, the reference to the list and the length one after the other and
    writes the list out last; each read finds the attributes as the scan has
    left them at that moment.  The list written out is the snapshot of the
    previous scan only if the reference was read before the scan's second
    statement; otherwise it is the list of the running scan as it is when it
    is written: what the scan has found so far, in discovery order and empty
    at first, with is_scanning true, after the last symbol that list sorted,
    and once is_scanning is false again the sorted result of the scan just
    completed. *)
Theorem visible_results_follow_running_scan :
  forall (cfg : Config.t) (env : Env.t) (before : FyersNewsScreener.t)
         (n_flag n_list n_len n_dump : nat),
    (n_flag <= n_list)%nat -> (n_list <= n_len)%nat -> (n_len <= n_dump)%nat ->
    let heap n :=
      snd (Heap.run cfg env n Thread.AtStart (Heap.of_instance before)) in
    let p n := fst (Thread.run cfg env n Thread.AtStart before) in
    let self n := snd (Thread.run cfg env n Thread.AtStart before) in
    Heap.get_results (heap n_flag) (heap n_list) (heap n_len) (heap n_dump)
    = App.Results
        (FyersNewsScreener.is_scanning (self n_flag))
        (if (n_list <? 2)%nat then FyersNewsScreener.screened_stocks before
         else FyersNewsScreener.screened_stocks (self n_dump))
        (Z.of_nat (List.length (FyersNewsScreener.screened_stocks (self n_len))))
    /\ forall n : nat,
        Heap.view (heap n) = self n
        /\ visible_during cfg env before (p n) (self n).
Proof.
  intros cfg env before n_flag n_list n_len n_dump H1 H2 H3 heap p self.
  split.
  - unfold Heap.get_results. subst heap self. cbn beta.
    rewrite (referenced_list cfg env before n_list n_dump) by lia.
    rewrite <- (attributes_at cfg env before n_flag).
    rewrite <- (attributes_at cfg env before n_len).
    reflexivity.
  - intro n. subst heap p self. cbn beta.
    split; [apply attributes_at |].
    apply visible_run. reflexivity.
Qed.

(** After a completed scan that published TCS and RELIANCE a second scan
    runs.  A request reads the flag and the reference after the scan's first
    statement and the length after its third symbol, and writes the list
    after the fourth: it answers with the two results of the previous scan
    and the count 1. *)
Lemma visible_results_follow_running_scan_witness :
  let before :=
    fst (FyersNewsScreener.scan_stocks Config.default demo_env FyersNewsScreener.init) in
  let heap n :=
    snd (Heap.run Config.default demo_env n Thread.AtStart (Heap.of_instance before)) in
  Heap.get_results (heap 1%nat) (heap 1%nat) (heap 3%nat) (heap 4%nat)
  = App.Results true [tcs_stock; reliance_stock] 1
  /\ Heap.get_results (heap 1%nat) (heap 2%nat) (heap 3%nat) (heap 4%nat)
     = App.Results true [reliance_stock; tcs_stock] 1.
Proof.
  pose proof (visible_results_follow_running_scan
                Config.default demo_env
                (fst (FyersNewsScreener.scan_stocks Config.default demo_env
                        FyersNewsScreener.init))
                1%nat 1%nat 3%nat 4%nat
                (le_n 1%nat) (le_S _ _ (le_S _ _ (le_n 1%nat))) (le_S _ _ (le_n 3%nat)))
    as [H _].
  split; [rewrite H |]; vm_compute; reflexivity.
Defined.

(** * Further properties *)

(** ** The Signal Determiner: when and in which direction *)

(** X1: a signal is produced exactly under the two thresholds: without an
    analysis there is none, and with one there is none exactly when the
    volume ratio is below the surge threshold or the size of the price
    change is outside the configured bounds, whatever the news count. *)
Theorem signal_exactly_under_thresholds :
  forall (cfg : Config.t) (a : Analysis.t) (news_count : Z),
    FyersNewsScreener.determine_signal cfg None news_count = None
    /\ (FyersNewsScreener.determine_signal cfg (Some a) news_count = None
        <-> ~ signal_preconditions cfg a).
Proof.
  intros cfg a n. split; [reflexivity |].
  unfold FyersNewsScreener.determine_signal, signal_preconditions.
  destruct (Py.ge (Analysis.volume_ratio a) (Config.VOLUME_SURGE_THRESHOLD cfg))
    eqn:Ev;
    destruct (Py.le (Config.PRICE_CHANGE_MIN cfg) (Qabs (Analysis.price_change a)))
      eqn:Elo;
    destruct (Py.le (Qabs (Analysis.price_change a)) (Config.PRICE_CHANGE_MAX cfg))
      eqn:Ehi;
    cbn [andb].
  1: { apply ge_true in Ev. apply le_true in Elo. apply le_true in Ehi.
       split.
       - destruct (Py.gt (Analysis.price_change a) 0); discriminate.
       - intro H. exfalso. apply H. repeat split; assumption. }
  all: split; [intros _ (Hv & Hlo & Hhi) | reflexivity].
  all: apply ge_true in Hv; apply le_true in Hlo; apply le_true in Hhi;
    congruence.
Qed.

(** X2: the direction follows the sign of the price change alone: a
    signal is BULLISH with action BUY (Delivery) when the change is positive
    and BEARISH with action SELL (Intraday) otherwise. *)
Theorem signal_direction_follows_price_change :
  forall (cfg : Config.t) (a : Analysis.t) (news_count : Z) (sig : Signal.t),
    FyersNewsScreener.determine_signal cfg (Some a) news_count = Some sig ->
    (0 < Analysis.price_change a
     /\ Signal.signal sig = "BULLISH" /\ Signal.action sig = "BUY (Delivery)")
    \/ (Analysis.price_change a <= 0
        /\ Signal.signal sig = "BEARISH" /\ Signal.action sig = "SELL (Intraday)").
Proof.
  intros cfg a n sig. unfold FyersNewsScreener.determine_signal.
  destruct (_ && _); [| discriminate].
  destruct (Py.gt (Analysis.price_change a) 0) eqn:E; intro H;
    injection H as <-; cbn [Signal.signal Signal.action].
  - left. apply gt_true in E. repeat split. exact E.
  - right. apply gt_false in E. repeat split. exact E.
Qed.

Lemma signal_direction_follows_price_change_witness :
  (0 < Analysis.price_change (Analysis.mk 2 (-3) 0 1 2)
   /\ Signal.signal (Signal.mk "BEARISH" "SELL (Intraday)" "MODERATE") = "BULLISH"
   /\ Signal.action (Signal.mk "BEARISH" "SELL (Intraday)" "MODERATE")
      = "BUY (Delivery)")
  \/ (Analysis.price_change (Analysis.mk 2 (-3) 0 1 2) <= 0
      /\ Signal.signal (Signal.mk "BEARISH" "SELL (Intraday)" "MODERATE") = "BEARISH"
      /\ Signal.action (Signal.mk "BEARISH" "SELL (Intraday)" "MODERATE")
         = "SELL (Intraday)").
Proof.
  apply (signal_direction_follows_price_change
           Config.default (Analysis.mk 2 (-3) 0 1 2) 0
           (Signal.mk "BEARISH" "SELL (Intraday)" "MODERATE")).
  reflexivity.
Defined.

(** ** The breakout filter *)

Lemma fold_max_spec (rest : list Q) (m : Q) :
  let r := fold_left (fun m y => if Py.gt y m then y else m) rest m in
  m <= r /\ Forall (fun y => y <= r) rest /\ (r = m \/ In r rest).
Proof.
  revert m. induction rest as [| y rest IH]; intro m; cbn [fold_left].
  - split; [apply Qle_refl |]. split; [constructor | left; reflexivity].
  - destruct (Py.gt y m) eqn:E.
    + apply gt_true in E. destruct (IH y) as (Hy & Hall & Hin).
      split; [eapply Qle_trans; [apply Qlt_le_weak; exact E | exact Hy] |].
      split; [constructor; assumption |].
      right. destruct Hin as [-> | Hin]; [left; reflexivity | right; exact Hin].
    + apply gt_false in E. destruct (IH m) as (Hm & Hall & Hin).
      split; [exact Hm |].
      split; [constructor; [eapply Qle_trans; eassumption | exact Hall] |].
      destruct Hin as [-> | Hin]; [left; reflexivity | right; right; exact Hin].
Qed.

Lemma fold_min_spec (rest : list Q) (m : Q) :
  let r := fold_left (fun m y => if Py.lt y m then y else m) rest m in
  r <= m /\ Forall (fun y => r <= y) rest /\ (r = m \/ In r rest).
Proof.
  revert m. induction rest as [| y rest IH]; intro m; cbn [fold_left].
  - split; [apply Qle_refl |]. split; [constructor | left; reflexivity].
  - destruct (Py.lt y m) eqn:E.
    + apply lt_true in E. destruct (IH y) as (Hy & Hall & Hin).
      split; [eapply Qle_trans; [exact Hy | apply Qlt_le_weak; exact E] |].
      split; [constructor; assumption |].
      right. destruct Hin as [-> | Hin]; [left; reflexivity | right; exact Hin].
    + apply lt_false in E. destruct (IH m) as (Hm & Hall & Hin).
      split; [exact Hm |].
      split; [constructor; [eapply Qle_trans; eassumption | exact Hall] |].
      destruct Hin as [-> | Hin]; [left; reflexivity | right; right; exact Hin].
Qed.

(** On a non-empty list [maximum] is an element that bounds all. *)
Lemma maximum_spec (x : Q) (l : list Q) :
  In (AdvancedFilters.maximum (x :: l)) (x :: l)
  /\ Forall (fun y => y <= AdvancedFilters.maximum (x :: l)) (x :: l).
Proof.
  unfold AdvancedFilters.maximum.
  destruct (fold_max_spec l x) as (Hx & Hall & Hin). split.
  - destruct Hin as [-> | Hin]; [left; reflexivity | right; exact Hin].
  - constructor; assumption.
Qed.

Lemma minimum_spec (x : Q) (l : list Q) :
  In (AdvancedFilters.minimum (x :: l)) (x :: l)
  /\ Forall (fun y => AdvancedFilters.minimum (x :: l) <= y) (x :: l).
Proof.
  unfold AdvancedFilters.minimum.
  destruct (fold_min_spec l x) as (Hx & Hall & Hin). split.
  - destruct Hin as [-> | Hin]; [left; reflexivity | right; exact Hin].
  - constructor; assumption.
Qed.

Lemma tail_nonempty (A : Type) (n : nat) (l : list A) :
  (0 < n)%nat -> (n <= List.length l)%nat -> AdvancedFilters.tail n l <> [].
Proof.
  intros Hn Hl E. unfold AdvancedFilters.tail in E.
  apply (f_equal (@List.length A)) in E. rewrite length_skipn in E.
  cbn in E. lia.
Qed.

(** X3: the breakout flag is raised exactly when there are at least 20
    candles and the last price is more than 2 percent above every high, or
    more than 2 percent below every low, of the last 20 candles; with fewer
    candles, or no history, it is false whatever the price. *)
Theorem breakout_exactly_beyond_recent_range :
  forall (df : option DataFrame) (current_quote : Quote.t),
    AdvancedFilters.check_breakout df current_quote = true
    <-> exists rows,
        df = Some rows /\ (20 <= List.length rows)%nat
        /\ ((forall c, In c (AdvancedFilters.tail 20 rows) ->
                       Candle.high c * (102 # 100) < Quote.ltp current_quote)
            \/ (forall c, In c (AdvancedFilters.tail 20 rows) ->
                          Quote.ltp current_quote < Candle.low c * (98 # 100))).
Proof.
  intros df q. unfold AdvancedFilters.check_breakout.
  destruct df as [rows |].
  2: { split; [discriminate | intros (rows & H & _); discriminate]. }
  destruct (List.length rows <? 20)%nat eqn:El.
  { apply Nat.ltb_lt in El.
    split; [discriminate | intros (rows' & H & Hge & _)].
    injection H as <-. lia. }
  apply Nat.ltb_ge in El.
  pose proof (@tail_nonempty Candle.t 20 rows ltac:(lia) El) as Hne.
  destruct (AdvancedFilters.tail 20 rows) as [| c0 recent] eqn:Et;
    [contradiction |].
  destruct (maximum_spec (Candle.high c0) (map Candle.high recent))
    as (Hmax_in & Hmax_all).
  destruct (minimum_spec (Candle.low c0) (map Candle.low recent))
    as (Hmin_in & Hmin_all).
  change (Candle.high c0 :: map Candle.high recent)
    with (map Candle.high (c0 :: recent)) in *.
  change (Candle.low c0 :: map Candle.low recent)
    with (map Candle.low (c0 :: recent)) in *.
  rewrite Forall_forall in Hmax_all, Hmin_all.
  rewrite orb_true_iff, gt_true, lt_true.
  split.
  - intros [Hup | Hdown]; exists rows; (split; [reflexivity |]);
      (split; [exact El |]).
    + left. intros c Hc. rewrite Et in Hc.
      eapply Qle_lt_trans; [| exact Hup].
      apply Qmult_le_compat_r; [| discriminate].
      apply Hmax_all. apply in_map. exact Hc.
    + right. intros c Hc. rewrite Et in Hc.
      eapply Qlt_le_trans; [exact Hdown |].
      apply Qmult_le_compat_r; [| discriminate].
      apply Hmin_all. apply in_map. exact Hc.
  - intros (rows' & H & _ & Hcases). injection H as <-.
    rewrite Et in Hcases.
    destruct Hcases as [Hup | Hdown].
    + left. apply in_map_iff in Hmax_in. destruct Hmax_in as (c & <- & Hc).
      apply Hup. exact Hc.
    + right. apply in_map_iff in Hmin_in. destruct Hmin_in as (c & <- & Hc).
      apply Hdown. exact Hc.
Qed.

(** ** What a completed scan publishes *)

Section Published.
Variable cfg : Config.t.
Variable env : Env.t.

Import FyersNewsScreener.

Lemma determine_signal_some (a : Analysis.t) (news_count : Z) (sig : Signal.t) :
  determine_signal cfg (Some a) news_count = Some sig ->
  signal_preconditions cfg a
  /\ ((Signal.signal sig = "BULLISH" /\ Signal.action sig = "BUY (Delivery)"
       /\ 0 < Analysis.price_change a)
      \/ (Signal.signal sig = "BEARISH" /\ Signal.action sig = "SELL (Intraday)"
          /\ Analysis.price_change a <= 0)).
Proof.
  unfold determine_signal, signal_preconditions.
  destruct (Py.ge _ _ && _) eqn:E; [| discriminate].
  apply andb_true_iff in E. destruct E as [Ev E].
  apply andb_true_iff in E. destruct E as [Elo Ehi].
  apply ge_true in Ev. apply le_true in Elo. apply le_true in Ehi.
  destruct (Py.gt (Analysis.price_change a) 0) eqn:Ed; intro H;
    injection H as <-; cbn [Signal.signal Signal.action];
    (split; [repeat split; assumption |]).
  - left. apply gt_true in Ed. repeat split. exact Ed.
  - right. apply gt_false in Ed. repeat split. exact Ed.
Qed.

(** What the body of the loop appends for a symbol. *)
Lemma scan_symbol_found (symbol : string) (stock : Stock.t) :
  scan_symbol cfg env symbol = Py.Return (Some stock) ->
  Stock.symbol stock = symbol
  /\ Config.MIN_PRICE cfg <= Stock.ltp stock
  /\ Stock.ltp stock <= Config.MAX_PRICE cfg
  /\ Config.VOLUME_SURGE_THRESHOLD cfg <= Stock.volume_ratio stock
  /\ Config.PRICE_CHANGE_MIN cfg <= Qabs (Stock.price_change stock)
  /\ Qabs (Stock.price_change stock) <= Config.PRICE_CHANGE_MAX cfg
  /\ (0 <= Stock.news_count stock <= 5)%Z
  /\ (List.length (Stock.news stock) <= 3)%nat
  /\ ((Stock.signal stock = "BULLISH" /\ Stock.action stock = "BUY (Delivery)"
       /\ 0 < Stock.price_change stock)
      \/ (Stock.signal stock = "BEARISH" /\ Stock.action stock = "SELL (Intraday)"
          /\ Stock.price_change stock <= 0)).
Proof.
  unfold scan_symbol.
  destruct (get_historical_data env symbol) as [df |]; [| discriminate].
  destruct (get_current_quote env symbol) as [q |]; [| discriminate].
  destruct (Py.lt (Quote.ltp q) (Config.MIN_PRICE cfg)) eqn:Emin;
    [discriminate |].
  destruct (Py.gt (Quote.ltp q) (Config.MAX_PRICE cfg)) eqn:Emax;
    [discriminate |].
  cbn [orb].
  destruct (analyze_volume_and_price (Some df) q) as [e | [a |]];
    cbn [Py.bind]; try discriminate.
  destruct (determine_signal cfg (Some a)
              (Z.of_nat (List.length (fetch_news_for_stock env symbol))))
    as [sig |] eqn:Esig; [| discriminate].
  intro H. injection H as <-.
  destruct (determine_signal_some _ _ _ Esig) as ((Hv & Hlo & Hhi) & Hdir).
  apply lt_false in Emin. apply gt_false in Emax.
  cbn [Stock.symbol Stock.ltp Stock.volume_ratio Stock.price_change
       Stock.news_count Stock.news Stock.signal Stock.action].
  repeat (split; [assumption || reflexivity |]).
  split.
  - unfold fetch_news_for_stock.
    destruct (Env.newsapi env symbol) as [articles |]; cbn [List.length];
      [| lia].
    pose proof (firstn_le_length 5 articles). lia.
  - split; [| exact Hdir].
    exact (firstn_le_length 3 (fetch_news_for_stock env symbol)).
Qed.

(** The symbols of the results are the symbols that gave one, in the
    order of the visit. *)
Lemma discovered_symbols (symbols : list string) :
  map Stock.symbol (discovered cfg env symbols) = filter (found cfg env) symbols.
Proof.
  induction symbols as [| symbol rest IH]; [reflexivity |].
  unfold discovered in *. cbn [flat_map filter]. rewrite map_app, IH.
  unfold found.
  destruct (scan_symbol cfg env symbol) as [e | [stock |]] eqn:E;
    [reflexivity | | reflexivity].
  destruct (scan_symbol_found symbol stock E) as [Hsym _].
  cbn [map app]. rewrite Hsym. reflexivity.
Qed.

Lemma discovered_pass (symbols : list string) :
  Forall (fun stock =>
            In (Stock.symbol stock) symbols
            /\ exists symbol,
                scan_symbol cfg env symbol = Py.Return (Some stock))
         (discovered cfg env symbols).
Proof.
  induction symbols as [| symbol rest IH]; [constructor |].
  unfold discovered in *. cbn [flat_map]. apply Forall_app. split.
  - destruct (scan_symbol cfg env symbol) as [e | [stock |]] eqn:E;
      constructor; [| constructor].
    destruct (scan_symbol_found symbol stock E) as [Hsym _].
    split; [left; symmetry; exact Hsym | exists symbol; exact E].
  - apply (Forall_impl _ (P := fun stock =>
             In (Stock.symbol stock) rest
             /\ exists symbol,
                 scan_symbol cfg env symbol = Py.Return (Some stock)));
      [| exact IH].
    intros stock [Hin Hex]. split; [right; exact Hin | exact Hex].
Qed.

End Published.

Lemma distinct_NoDup (l : list string) : distinct l = true -> NoDup l.
Proof.
  induction l as [| x rest IH]; cbn [distinct]; intro H; constructor.
  - apply andb_true_iff in H. destruct H as [H _].
    apply negb_true_iff in H. intro Hin.
    assert (E : existsb (String.eqb x) rest = true).
    { apply existsb_exists. exists x. split; [exact Hin | apply String.eqb_refl]. }
    congruence.
  - apply IH. apply andb_true_iff in H. apply H.
Qed.

Lemma universe_NoDup : NoDup FyersNewsScreener.get_nse_symbols.
Proof. apply distinct_NoDup. vm_compute. reflexivity. Qed.

(** What holds of everything the loop body builds for a symbol of the
    universe holds of every published entry. *)
Lemma published_forall (cfg : Config.t) (env : Env.t)
      (before : FyersNewsScreener.t) (P : Stock.t -> Prop) :
  (forall symbol stock,
      In symbol FyersNewsScreener.get_nse_symbols ->
      FyersNewsScreener.scan_symbol cfg env symbol = Py.Return (Some stock) ->
      P stock) ->
  Forall P (FyersNewsScreener.screened_stocks
              (fst (FyersNewsScreener.scan_stocks cfg env before))).
Proof.
  intro H. rewrite scan_stocks_result.
  cbn [fst FyersNewsScreener.screened_stocks].
  apply (Permutation_Forall
           (sort_reverse_perm Stock.t Stock.volume_ratio
              (discovered cfg env FyersNewsScreener.get_nse_symbols))).
  apply (Forall_impl _ (P := fun stock =>
           In (Stock.symbol stock) FyersNewsScreener.get_nse_symbols
           /\ exists symbol,
               FyersNewsScreener.scan_symbol cfg env symbol
               = Py.Return (Some stock)));
    [| apply discovered_pass].
  intros stock (Hin & symbol & Hscan).
  apply (H symbol stock); [| exact Hscan].
  destruct (scan_symbol_found cfg env symbol stock Hscan) as [<- _]. exact Hin.
Qed.

Lemma published_length (cfg : Config.t) (env : Env.t)
      (before : FyersNewsScreener.t) :
  (List.length (FyersNewsScreener.screened_stocks
                  (fst (FyersNewsScreener.scan_stocks cfg env before))) <= 52)%nat.
Proof.
  rewrite scan_stocks_result. cbn [fst FyersNewsScreener.screened_stocks].
  rewrite <- (Permutation_length
                (sort_reverse_perm Stock.t Stock.volume_ratio
                   (discovered cfg env FyersNewsScreener.get_nse_symbols))).
  rewrite <- (length_map Stock.symbol), discovered_symbols.
  eapply Nat.le_trans; [apply filter_length_le |]. reflexivity.
Qed.

(** X4: every entry of the list that a completed scan publishes is about
    a symbol of the universe, has a last price within the price range, a
    volume ratio at or above the surge threshold, a price change whose size
    is within the configured bounds, a news count between 0 and 5 with at
    most three articles attached, and a direction and action that follow the
    sign of its price change. *)
Theorem published_entries_pass_screen :
  forall (cfg : Config.t) (env : Env.t) (before : FyersNewsScreener.t),
    Forall (passes_screen cfg)
           (FyersNewsScreener.screened_stocks
              (fst (FyersNewsScreener.scan_stocks cfg env before))).
Proof.
  intros cfg env before. apply published_forall.
  intros symbol stock Hin Hscan.
  destruct (scan_symbol_found cfg env symbol stock Hscan) as (Hsym & Hrest).
  split; [rewrite Hsym; exact Hin | exact Hrest].
Qed.

(** X5: a completed scan publishes at most one entry per symbol, hence at
    most 52 entries. *)
Theorem published_symbols_distinct :
  forall (cfg : Config.t) (env : Env.t) (before : FyersNewsScreener.t),
    let published :=
      FyersNewsScreener.screened_stocks
        (fst (FyersNewsScreener.scan_stocks cfg env before)) in
    NoDup (map Stock.symbol published)
    /\ (List.length published <= 52)%nat.
Proof.
  intros cfg env before published. subst published.
  split; [| apply published_length].
  rewrite scan_stocks_result. cbn [fst FyersNewsScreener.screened_stocks].
  pose proof (sort_reverse_perm Stock.t Stock.volume_ratio
                (discovered cfg env FyersNewsScreener.get_nse_symbols)) as Hperm.
  apply (Permutation_NoDup (Permutation_map Stock.symbol Hperm)).
  rewrite discovered_symbols. apply NoDup_filter. apply universe_NoDup.
Qed.

(** X6: the outcome of a scan is a function of the configuration and the
    market alone: whatever the instance held before (results of an earlier
    scan, a set flag), the published list and the returned list are the
    same, and the flag is cleared. *)
Theorem scan_outcome_independent_of_earlier_state :
  forall (cfg : Config.t) (env : Env.t) (before before' : FyersNewsScreener.t),
    FyersNewsScreener.scan_stocks cfg env before
    = FyersNewsScreener.scan_stocks cfg env before'
    /\ FyersNewsScreener.is_scanning
         (fst (FyersNewsScreener.scan_stocks cfg env before)) = false.
Proof.
  intros cfg env before before'. rewrite !scan_stocks_result.
  split; reflexivity.
Qed.

(** ** One symbol's failure costs one row *)

Section FilterSort.
Variable A : Type.
Variable key : A -> Q.
Variable keep : A -> bool.

Lemma filter_swap (f g : A -> bool) (l : list A) :
  filter f (filter g l) = filter g (filter f l).
Proof.
  induction l as [| x l IH]; [reflexivity |]. cbn [filter].
  destruct (g x) eqn:Eg; destruct (f x) eqn:Ef; cbn [filter];
    rewrite ?Eg, ?Ef, IH; reflexivity.
Qed.

Lemma filter_sorted (l : list A) :
  StronglySorted (descending key) l ->
  StronglySorted (descending key) (filter keep l).
Proof.
  induction 1 as [| x l Hs IH Hx]; cbn [filter]; [constructor |].
  destruct (keep x); [| exact IH].
  constructor; [exact IH |].
  rewrite Forall_forall in *. intros y Hy. apply Hx.
  apply filter_In in Hy. apply Hy.
Qed.

(** Dropping rows before or after the sort gives the same list. *)
Lemma filter_sort_reverse (l : list A) :
  filter keep (sort_reverse key l) = sort_reverse key (filter keep l).
Proof.
  apply (stable_descending_unique A key).
  - apply filter_sorted. apply sort_reverse_sorted.
  - apply sort_reverse_sorted.
  - intro k. unfold with_key.
    rewrite filter_swap.
    change (filter (fun x => Qeq_bool (key x) k) (sort_reverse key l))
      with (with_key key k (sort_reverse key l)).
    change (filter (fun x => Qeq_bool (key x) k)
                   (sort_reverse key (filter keep l)))
      with (with_key key k (sort_reverse key (filter keep l))).
    rewrite !sort_reverse_stable. unfold with_key. apply filter_swap.
Qed.

End FilterSort.

Section OneSymbol.
Variable cfg : Config.t.
Variable env env' : Env.t.
Variable s : string.
Hypothesis Hagree : agree_except s env env'.

Import FyersNewsScreener.

Lemma scan_symbol_agree (symbol : string) :
  symbol <> s -> scan_symbol cfg env symbol = scan_symbol cfg env' symbol.
Proof.
  intro Hne. destruct (Hagree symbol Hne) as (Hh & Hq & Hn & Ht).
  unfold scan_symbol, get_historical_data, get_current_quote,
    fetch_news_for_stock.
  rewrite Hh, Hq, Hn, Ht. reflexivity.
Qed.

Lemma without_symbol_discovered (symbols : list string) :
  without_symbol s (discovered cfg env symbols)
  = without_symbol s (discovered cfg env' symbols).
Proof.
  induction symbols as [| symbol rest IH]; [reflexivity |].
  unfold discovered, without_symbol in *. cbn [flat_map].
  rewrite !filter_app, IH. f_equal.
  destruct (String.eqb_spec symbol s) as [-> | Hne].
  - assert (Hdrop : forall e : Env.t,
               filter (fun stock => negb (String.eqb (Stock.symbol stock) s))
                      match scan_symbol cfg e s with
                      | Py.Return (Some stock_data) => [stock_data]
                      | _ => []
                      end = []).
    { intro e. destruct (scan_symbol cfg e s) as [ex | [stock |]] eqn:E;
        [reflexivity | | reflexivity].
      destruct (scan_symbol_found cfg e s stock E) as [Hsym _].
      cbn [filter]. rewrite Hsym, String.eqb_refl. reflexivity. }
    rewrite !Hdrop. reflexivity.
  - rewrite (scan_symbol_agree symbol Hne). reflexivity.
Qed.

End OneSymbol.

(** X7: what happens to one symbol stays with that symbol: if two markets
    answer alike for every symbol except one (whose fetches may fail in one
    of them and succeed in the other), then the lists published by a scan
    of each are the same once the rows of that symbol are set aside, in
    content and in order. *)
Theorem failure_of_one_symbol_costs_one_row :
  forall (cfg : Config.t) (env env' : Env.t) (s : string)
         (before before' : FyersNewsScreener.t),
    agree_except s env env' ->
    without_symbol s
      (FyersNewsScreener.screened_stocks
         (fst (FyersNewsScreener.scan_stocks cfg env before)))
    = without_symbol s
        (FyersNewsScreener.screened_stocks
           (fst (FyersNewsScreener.scan_stocks cfg env' before'))).
Proof.
  intros cfg env env' s before before' Hagree.
  rewrite !scan_stocks_result. cbn [fst FyersNewsScreener.screened_stocks].
  unfold without_symbol. rewrite !filter_sort_reverse. f_equal.
  apply (without_symbol_discovered cfg env env' s Hagree).
Qed.

Lemma failure_of_one_symbol_costs_one_row_witness :
  agree_except "NSE:TCS-EQ" demo_env demo_env_tcs_down
  /\ without_symbol "NSE:TCS-EQ"
       (FyersNewsScreener.screened_stocks
          (fst (FyersNewsScreener.scan_stocks Config.default demo_env
                  FyersNewsScreener.init)))
     = without_symbol "NSE:TCS-EQ"
         (FyersNewsScreener.screened_stocks
            (fst (FyersNewsScreener.scan_stocks Config.default demo_env_tcs_down
                    FyersNewsScreener.init))).
Proof.
  assert (H : agree_except "NSE:TCS-EQ" demo_env demo_env_tcs_down).
  { intros symbol Hne. cbn.
    destruct (String.eqb_spec symbol "NSE:TCS-EQ"); [contradiction |].
    repeat split. }
  split; [exact H |].
  apply (failure_of_one_symbol_costs_one_row
           Config.default demo_env demo_env_tcs_down "NSE:TCS-EQ"
           FyersNewsScreener.init FyersNewsScreener.init H).
Defined.

Example tcs_down_scan :
  snd (FyersNewsScreener.scan_stocks Config.default demo_env_tcs_down
         FyersNewsScreener.init)
  = [reliance_stock].
Proof. vm_compute. reflexivity. Qed.

(** ** The analysis record *)

Lemma analyze_record (rows : DataFrame) (q : Quote.t) (a : Analysis.t) :
  FyersNewsScreener.analyze_volume_and_price (Some rows) q = Py.Return (Some a) ->
  (10 <= List.length rows)%nat
  /\ Analysis.avg_volume a = historical_mean_volume rows
  /\ Analysis.current_volume a = Quote.volume q
  /\ Analysis.price_change a = Quote.change_percent q
  /\ (historical_mean_volume rows <= 0 -> Analysis.volume_ratio a = 0)
  /\ (0 < historical_mean_volume rows ->
      Analysis.volume_ratio a = Quote.volume q / historical_mean_volume rows)
  /\ (mean_range rows <= 0 -> Analysis.range_ratio a = 0)
  /\ (0 < mean_range rows ->
      Analysis.range_ratio a
      = Qabs (Quote.ltp q - Quote.prev_close q) / mean_range rows).
Proof.
  destruct (Nat.lt_ge_cases (List.length rows) 10) as [Hlt | Hge].
  { rewrite (analyze_short_history q rows Hlt). discriminate. }
  unfold FyersNewsScreener.analyze_volume_and_price.
  assert (E : (List.length rows <? 10)%nat = false) by (apply Nat.ltb_ge; exact Hge).
  rewrite E.
  fold (historical_mean_volume rows). fold (mean_range rows).
  destruct (guarded_div_returns (Quote.volume q) (historical_mean_volume rows))
    as (vr & Hvr & Hvr0 & Hvr1).
  destruct (guarded_div_returns (Qabs (Quote.ltp q - Quote.prev_close q))
                                (mean_range rows))
    as (rr & Hrr & Hrr0 & Hrr1).
  rewrite Hvr. cbn [Py.bind]. rewrite Hrr. cbn [Py.bind].
  intro H. injection H as <-.
  cbn [Analysis.avg_volume Analysis.current_volume Analysis.price_change
       Analysis.volume_ratio Analysis.range_ratio].
  repeat (split; [assumption || reflexivity |]). exact Hrr1.
Qed.

(** X8: in every record the analysis returns, range_ratio is never
    negative, and volume_ratio is never negative when the quoted volume is
    not. *)
Theorem analysis_ratios_nonnegative :
  forall (rows : DataFrame) (q : Quote.t) (a : Analysis.t),
    FyersNewsScreener.analyze_volume_and_price (Some rows) q = Py.Return (Some a) ->
    0 <= Analysis.range_ratio a
    /\ (0 <= Quote.volume q -> 0 <= Analysis.volume_ratio a).
Proof.
  intros rows q a H.
  destruct (analyze_record rows q a H)
    as (_ & _ & _ & _ & Hv0 & Hv1 & Hr0 & Hr1).
  split.
  - destruct (Qlt_le_dec 0 (mean_range rows)) as [Hpos | Hneg].
    + rewrite (Hr1 Hpos). apply Qle_shift_div_l; [exact Hpos |].
      rewrite Qmult_0_l. apply Qabs_nonneg.
    + rewrite (Hr0 Hneg). apply Qle_refl.
  - intro Hvol.
    destruct (Qlt_le_dec 0 (historical_mean_volume rows)) as [Hpos | Hneg].
    + rewrite (Hv1 Hpos). apply Qle_shift_div_l; [exact Hpos |].
      rewrite Qmult_0_l. exact Hvol.
    + rewrite (Hv0 Hneg). apply Qle_refl.
Qed.

Lemma analysis_ratios_nonnegative_witness :
  0 <= Analysis.range_ratio (Analysis.mk (18000 # 9000) 2 (500 # 20) (9000 # 9) 2000)
  /\ (0 <= Quote.volume (Quote.mk 2450 2000 2 2400) ->
      0 <= Analysis.volume_ratio
             (Analysis.mk (18000 # 9000) 2 (500 # 20) (9000 # 9) 2000)).
Proof.
  apply (analysis_ratios_nonnegative
           (flat_candles 10 1000) (Quote.mk 2450 2000 2 2400)
           (Analysis.mk (18000 # 9000) 2 (500 # 20) (9000 # 9) 2000)).
  reflexivity.
Defined.

(** ** The summary of a non-empty article list *)

Lemma summary_of_nonempty (article : Article.t) (rest : list Article.t) :
  exists p n : Z,
    (0 <= p)%Z /\ (0 <= n)%Z
    /\ NewsAnalyzer.count_articles (article :: rest) (0%Z, 0%Z) = (p, n)
    /\ NewsAnalyzer.get_news_summary (article :: rest)
       = Py.Return (SDict (Summary.mk
           (NewsAnalyzer.sentiment_label (score_of_counts p n))
           (score_of_counts p n)
           (category_of (NewsAnalyzer.categorize_news (article :: rest)))
           (NewsAnalyzer.is_major_news (article :: rest))
           p n)).
Proof.
  unfold NewsAnalyzer.get_news_summary, NewsAnalyzer.analyze_sentiment.
  pose proof (count_articles_grows (article :: rest) (0%Z, 0%Z)) as [Hp Hn].
  destruct (NewsAnalyzer.count_articles (article :: rest) (0%Z, 0%Z)) as [p n].
  cbn [fst snd] in Hp, Hn. exists p, n.
  split; [exact Hp |]. split; [exact Hn |]. split; [reflexivity |].
  unfold score_of_counts, category_of.
  destruct (p + n =? 0)%Z eqn:Et.
  - reflexivity.
  - apply Z.eqb_neq in Et.
    destruct (hit_ratio_bounded p n Hp Hn Et) as (Hd & _ & _).
    rewrite Hd. reflexivity.
Qed.

Lemma ratio_above (a c : Z) (t d : positive) :
  (c # d) < inject_Z a / inject_Z (Zpos t) <-> (c * Zpos t < a * Zpos d)%Z.
Proof.
  unfold Qlt, Qdiv, Qmult, Qinv, inject_Z. cbn. split; intro H; nia.
Qed.

Lemma ratio_below (a c : Z) (t d : positive) :
  inject_Z a / inject_Z (Zpos t) < (c # d) <-> (a * Zpos d < c * Zpos t)%Z.
Proof.
  unfold Qlt, Qdiv, Qmult, Qinv, inject_Z. cbn. split; intro H; nia.
Qed.

(** The label, read off the two counts. *)
Lemma label_of_counts (p n : Z) :
  (0 <= p)%Z -> (0 <= n)%Z ->
  NewsAnalyzer.sentiment_label (score_of_counts p n)
  = if (13 * n <? 7 * p)%Z then "Highly Positive"
    else if (n <? p)%Z then "Positive"
    else if (13 * p <? 7 * n)%Z then "Highly Negative"
    else if (p <? n)%Z then "Negative"
    else "Neutral".
Proof.
  intros Hp Hn. unfold score_of_counts.
  destruct (p + n =? 0)%Z eqn:Et.
  - apply Z.eqb_eq in Et. assert (p = 0%Z) by lia. assert (n = 0%Z) by lia.
    subst. reflexivity.
  - apply Z.eqb_neq in Et.
    destruct (p + n)%Z as [| t | t] eqn:Es; try lia.
    unfold NewsAnalyzer.sentiment_label.
    assert (E1 : Py.gt (inject_Z (p - n) / inject_Z (Zpos t)) (3 # 10)
                 = (13 * n <? 7 * p)%Z).
    { apply Bool.eq_true_iff_eq. rewrite gt_true, ratio_above, Z.ltb_lt. lia. }
    assert (E2 : Py.gt (inject_Z (p - n) / inject_Z (Zpos t)) 0 = (n <? p)%Z).
    { apply Bool.eq_true_iff_eq.
      change 0 with (0 # 1). rewrite gt_true, ratio_above, Z.ltb_lt. lia. }
    assert (E3 : Py.lt (inject_Z (p - n) / inject_Z (Zpos t)) (- (3 # 10))
                 = (13 * p <? 7 * n)%Z).
    { apply Bool.eq_true_iff_eq.
      change (- (3 # 10)) with ((-3) # 10).
      rewrite lt_true, ratio_below, Z.ltb_lt. lia. }
    assert (E4 : Py.lt (inject_Z (p - n) / inject_Z (Zpos t)) 0 = (p <? n)%Z).
    { apply Bool.eq_true_iff_eq.
      change 0 with (0 # 1). rewrite lt_true, ratio_below, Z.ltb_lt. lia. }
    rewrite E1, E2, E3, E4. reflexivity.
Qed.

(** X9: the sentiment label of a summary is decided by the two keyword
    counts: Highly Positive exactly when 7 times the positive count exceeds
    13 times the negative count, Highly Negative in the mirrored case,
    Neutral exactly when the counts are equal, and Positive or Negative in
    between according to the larger count. *)
Theorem sentiment_label_decided_by_counts :
  forall (article : Article.t) (rest : list Article.t),
  exists d : Summary.t,
    NewsAnalyzer.get_news_summary (article :: rest) = Py.Return (SDict d)
    /\ (0 <= Summary.positive_keywords d)%Z
    /\ (0 <= Summary.negative_keywords d)%Z
    /\ (Summary.sentiment d = "Highly Positive"
        <-> (13 * Summary.negative_keywords d < 7 * Summary.positive_keywords d)%Z)
    /\ (Summary.sentiment d = "Positive"
        <-> (Summary.negative_keywords d < Summary.positive_keywords d
             /\ 7 * Summary.positive_keywords d <= 13 * Summary.negative_keywords d)%Z)
    /\ (Summary.sentiment d = "Neutral"
        <-> Summary.positive_keywords d = Summary.negative_keywords d)
    /\ (Summary.sentiment d = "Negative"
        <-> (Summary.positive_keywords d < Summary.negative_keywords d
             /\ 7 * Summary.negative_keywords d <= 13 * Summary.positive_keywords d)%Z)
    /\ (Summary.sentiment d = "Highly Negative"
        <-> (13 * Summary.positive_keywords d < 7 * Summary.negative_keywords d)%Z).
Proof.
  intros article rest.
  destruct (summary_of_nonempty article rest) as (p & n & Hp & Hn & _ & Hsum).
  eexists. split; [exact Hsum |].
  cbn [Summary.positive_keywords Summary.negative_keywords Summary.sentiment].
  rewrite (label_of_counts p n Hp Hn).
  split; [exact Hp |]. split; [exact Hn |].
  destruct (Z.ltb_spec (13 * n) (7 * p));
    [| destruct (Z.ltb_spec n p);
       [| destruct (Z.ltb_spec (13 * p) (7 * n));
          [| destruct (Z.ltb_spec p n)]]];
    repeat split; intros; try discriminate; try lia; try reflexivity.
Qed.

(** ** Categories *)

Lemma categorize_from (news_articles : list Article.t) (acc : list string) :
  fold_left
    (fun categories article =>
       match NewsAnalyzer.first_category (NewsAnalyzer.article_text article) with
       | Some category => (categories ++ [category])%list
       | None => categories
       end)
    news_articles acc
  = (acc ++ NewsAnalyzer.categorize_news news_articles)%list.
Proof.
  unfold NewsAnalyzer.categorize_news. revert acc.
  induction news_articles as [| article rest IH]; intro acc; cbn [fold_left].
  - rewrite app_nil_r. reflexivity.
  - rewrite IH. rewrite (IH (match _ with Some c => _ | None => _ end)).
    destruct (NewsAnalyzer.first_category (NewsAnalyzer.article_text article));
      cbn [app]; rewrite <- ?app_assoc; reflexivity.
Qed.

Lemma categorize_cons (article : Article.t) (rest : list Article.t) :
  NewsAnalyzer.categorize_news (article :: rest)
  = (match NewsAnalyzer.first_category (NewsAnalyzer.article_text article) with
     | Some category => [category]
     | None => []
     end ++ NewsAnalyzer.categorize_news rest)%list.
Proof.
  unfold NewsAnalyzer.categorize_news at 1. cbn [fold_left].
  rewrite categorize_from.
  destruct (NewsAnalyzer.first_category (NewsAnalyzer.article_text article));
    reflexivity.
Qed.

Lemma categorize_app (l1 l2 : list Article.t) :
  NewsAnalyzer.categorize_news (l1 ++ l2)%list
  = (NewsAnalyzer.categorize_news l1 ++ NewsAnalyzer.categorize_news l2)%list.
Proof.
  induction l1 as [| article rest IH]; [reflexivity |].
  cbn [app]. rewrite !categorize_cons, IH, app_assoc. reflexivity.
Qed.

Lemma first_category_known (text category : string) :
  NewsAnalyzer.first_category text = Some category ->
  In category (map fst NewsAnalyzer.MAJOR_NEWS_TYPES).
Proof.
  unfold NewsAnalyzer.first_category.
  destruct (find _ NewsAnalyzer.MAJOR_NEWS_TYPES) as [entry |] eqn:E;
    [| discriminate].
  intro H. injection H as <-. apply find_some in E. apply in_map. apply E.
Qed.

(** X10: the categories of a list of articles are at most one per article,
    each is one of the seven names of the table, they come in the order of
    the articles (the categories of two lists put together are the two lists
    of categories put together), and a joined list has major news exactly
    when one of its parts has. *)
Theorem categories_one_per_article_in_order :
  forall l1 l2 : list Article.t,
    (List.length (NewsAnalyzer.categorize_news l1) <= List.length l1)%nat
    /\ Forall (fun category => In category (map fst NewsAnalyzer.MAJOR_NEWS_TYPES))
              (NewsAnalyzer.categorize_news l1)
    /\ NewsAnalyzer.categorize_news (l1 ++ l2)%list
       = (NewsAnalyzer.categorize_news l1 ++ NewsAnalyzer.categorize_news l2)%list
    /\ NewsAnalyzer.is_major_news (l1 ++ l2)%list
       = NewsAnalyzer.is_major_news l1 || NewsAnalyzer.is_major_news l2.
Proof.
  intros l1 l2. split; [| split; [| split]].
  - induction l1 as [| article rest IH]; [apply Nat.le_refl |].
    rewrite categorize_cons, length_app. cbn [List.length].
    destruct (NewsAnalyzer.first_category (NewsAnalyzer.article_text article));
      cbn [List.length]; lia.
  - induction l1 as [| article rest IH]; [constructor |].
    rewrite categorize_cons. apply Forall_app. split; [| exact IH].
    destruct (NewsAnalyzer.first_category (NewsAnalyzer.article_text article))
      as [category |] eqn:E; constructor; [| constructor].
    apply (first_category_known _ _ E).
  - apply categorize_app.
  - unfold NewsAnalyzer.is_major_news, Py.any.
    rewrite categorize_app. apply existsb_app.
Qed.

(** ** The most common category *)

Lemma occurrences_snoc (k c : string) (l : list string) :
  occurrences k (l ++ [c])%list
  = (occurrences k l + if String.eqb k c then 1 else 0)%Z.
Proof.
  unfold occurrences. rewrite filter_app, length_app. cbn [filter].
  destruct (String.eqb k c); cbn [List.length]; lia.
Qed.

Lemma occurrences_nonneg (k : string) (l : list string) :
  (0 <= occurrences k l)%Z.
Proof. unfold occurrences. lia. Qed.

Lemma count_of_incr (c k : string) (counts : list (string * Z)) :
  count_of k (NewsAnalyzer.counter_incr c counts)
  = (count_of k counts + if String.eqb k c then 1 else 0)%Z.
Proof.
  unfold count_of.
  induction counts as [| [k0 v] rest IH]; cbn [NewsAnalyzer.counter_incr find fst snd].
  - rewrite (String.eqb_sym c k). destruct (String.eqb k c); reflexivity.
  - destruct (String.eqb_spec k0 c) as [-> | Hne]; cbn [find fst snd].
    + rewrite (String.eqb_sym c k). destruct (String.eqb k c); cbn [snd]; lia.
    + destruct (String.eqb_spec k0 k) as [-> | Hne'].
      * destruct (String.eqb_spec k c); [congruence | cbn [snd]; lia].
      * exact IH.
Qed.

Lemma keys_incr (c : string) (counts : list (string * Z)) :
  keys (NewsAnalyzer.counter_incr c counts)
  = if existsb (String.eqb c) (keys counts) then keys counts
    else (keys counts ++ [c])%list.
Proof.
  unfold keys.
  induction counts as [| [k0 v] rest IH];
    cbn [NewsAnalyzer.counter_incr map fst existsb app]; [reflexivity |].
  rewrite (String.eqb_sym c k0).
  destruct (String.eqb k0 c); cbn [orb map fst]; [reflexivity |].
  rewrite IH. destruct (existsb (String.eqb c) (map fst rest)); reflexivity.
Qed.

Lemma existsb_eqb_In (c : string) (l : list string) :
  existsb (String.eqb c) l = true <-> In c l.
Proof.
  rewrite existsb_exists. split.
  - intros (x & Hin & E). apply String.eqb_eq in E. subst. exact Hin.
  - intro Hin. exists c. split; [exact Hin | apply String.eqb_refl].
Qed.

Lemma Counter_snoc (l : list string) (c : string) :
  NewsAnalyzer.Counter (l ++ [c])%list
  = NewsAnalyzer.counter_incr c (NewsAnalyzer.Counter l).
Proof. unfold NewsAnalyzer.Counter. rewrite fold_left_app. reflexivity. Qed.

Lemma Counter_count (k : string) (l : list string) :
  count_of k (NewsAnalyzer.Counter l) = occurrences k l.
Proof.
  induction l as [| c l IH] using rev_ind; [reflexivity |].
  rewrite Counter_snoc, count_of_incr, occurrences_snoc, IH. reflexivity.
Qed.

Lemma Counter_keys (l : list string) :
  NoDup (keys (NewsAnalyzer.Counter l))
  /\ forall k, In k (keys (NewsAnalyzer.Counter l)) <-> In k l.
Proof.
  induction l as [| c l [IHn IHk]] using rev_ind.
  - split; [constructor | intro k; reflexivity].
  - rewrite Counter_snoc, keys_incr.
    destruct (existsb (String.eqb c) (keys (NewsAnalyzer.Counter l))) eqn:E.
    + apply existsb_eqb_In in E. split; [exact IHn |].
      intro k. rewrite in_app_iff, IHk. cbn [In].
      split; [tauto |]. intros [H | [<- | []]]; [exact H |].
      apply IHk. exact E.
    + assert (Hc : ~ In c (keys (NewsAnalyzer.Counter l))).
      { intro H. apply existsb_eqb_In in H. congruence. }
      split.
      * apply NoDup_app; [exact IHn | constructor; [intros [] | constructor] |].
        intros x Hx [<- | []]. exact (Hc Hx).
      * intro k. rewrite !in_app_iff, IHk. reflexivity.
Qed.

Lemma count_of_entry (counts : list (string * Z)) (e : string * Z) :
  NoDup (keys counts) -> In e counts -> count_of (fst e) counts = snd e.
Proof.
  unfold count_of, keys.
  induction counts as [| e0 rest IH]; intros Hnd Hin; [destruct Hin |].
  cbn [map] in Hnd. inversion Hnd as [| ? ? Hnotin Hnd']. subst.
  cbn [find]. destruct Hin as [-> | Hin].
  - rewrite String.eqb_refl. reflexivity.
  - destruct (String.eqb_spec (fst e0) (fst e)) as [E | _].
    + exfalso. apply Hnotin. rewrite E. apply in_map. exact Hin.
    + apply IH; assumption.
Qed.

(** [max_entry] returns the first entry of maximal count. *)
Lemma max_entry_first (counts pre mid : list (string * Z)) (best : string * Z) :
  Forall (fun x => (snd x < snd best)%Z) pre ->
  Forall (fun x => (snd x <= snd best)%Z) mid ->
  exists pre' post,
    (pre ++ best :: mid ++ counts)%list
    = (pre' ++ NewsAnalyzer.max_entry best counts :: post)%list
    /\ Forall (fun x => (snd x < snd (NewsAnalyzer.max_entry best counts))%Z) pre'
    /\ Forall (fun x => (snd x <= snd (NewsAnalyzer.max_entry best counts))%Z) post.
Proof.
  revert pre mid best.
  induction counts as [| e rest IH]; intros pre mid best Hpre Hmid;
    cbn [NewsAnalyzer.max_entry].
  - exists pre, mid. rewrite app_nil_r. repeat split; assumption.
  - destruct (Z.ltb_spec (snd best) (snd e)) as [Hlt | Hge].
    + destruct (IH (pre ++ best :: mid)%list [] e) as (pre' & post & E & H1 & H2).
      * apply Forall_app. split.
        -- apply (Forall_impl _ (P := fun x => (snd x < snd best)%Z));
             [intros x Hx; lia | exact Hpre].
        -- constructor; [exact Hlt |].
           apply (Forall_impl _ (P := fun x => (snd x <= snd best)%Z));
             [intros x Hx; lia | exact Hmid].
      * constructor.
      * exists pre', post. split; [| split; assumption].
        rewrite <- E. cbn [app]. rewrite <- app_assoc. reflexivity.
    + destruct (IH pre (mid ++ [e])%list best Hpre) as (pre' & post & E & H1 & H2).
      * apply Forall_app. split; [exact Hmid | constructor; [exact Hge | constructor]].
      * exists pre', post. split; [| split; assumption].
        rewrite <- E, <- app_assoc. reflexivity.
Qed.

(** The keys of a [Counter] stand in the order of first occurrence. *)
Lemma Counter_key_order (l : list string) (k1 k2 : list string) (c : string) :
  keys (NewsAnalyzer.Counter l) = (k1 ++ c :: k2)%list ->
  exists l1 l2, l = (l1 ++ c :: l2)%list /\ forall x, In x l1 -> In x k1.
Proof.
  revert k1 k2. induction l as [| x l IH] using rev_ind; intros k1 k2 E.
  - destruct k1; discriminate.
  - rewrite Counter_snoc, keys_incr in E.
    destruct (existsb (String.eqb x) (keys (NewsAnalyzer.Counter l))) eqn:Ex.
    + destruct (IH k1 k2 E) as (l1 & l2 & -> & H).
      exists l1, (l2 ++ [x])%list. split; [| exact H].
      rewrite <- app_assoc. reflexivity.
    + destruct k2 as [| y k2] using rev_ind.
      * apply app_inj_tail in E. destruct E as [E <-].
        exists l, []. split; [reflexivity |].
        intros y Hy. rewrite <- E. apply (proj2 (Counter_keys l)). exact Hy.
      * clear IHk2.
        change (k1 ++ c :: k2 ++ [y])%list with (k1 ++ (c :: k2) ++ [y])%list in E.
        rewrite app_assoc in E. apply app_inj_tail in E. destruct E as [E _].
        destruct (IH k1 k2 E) as (l1 & l2 & -> & H).
        exists l1, (l2 ++ [x])%list. split; [| exact H].
        rewrite <- app_assoc. reflexivity.
Qed.

(** What [most_common(1)] picks from the categories of a list. *)
Lemma most_common_spec (l : list string) :
  match NewsAnalyzer.most_common (NewsAnalyzer.Counter l) with
  | None => l = []
  | Some c =>
      (forall c', (occurrences c' l <= occurrences c l)%Z)
      /\ exists l1 l2,
          l = (l1 ++ c :: l2)%list
          /\ forall c', In c' l1 -> (occurrences c' l < occurrences c l)%Z
  end.
Proof.
  destruct (Counter_keys l) as [Hnd Hkeys].
  unfold NewsAnalyzer.most_common.
  destruct (NewsAnalyzer.Counter l) as [| e0 rest] eqn:Ec.
  - destruct l as [| c l]; [reflexivity |].
    exfalso. apply (proj2 (Hkeys c)). left. reflexivity.
  - destruct (max_entry_first rest [] [] e0) as (pre & post & E & Hpre & Hpost);
      [constructor | constructor |].
    cbn [app] in E.
    set (e := NewsAnalyzer.max_entry e0 rest) in *.
    assert (Hcount : forall x, In x (e0 :: rest) ->
                               occurrences (fst x) l = snd x).
    { intros x Hx. rewrite <- Counter_count, Ec.
      apply count_of_entry; assumption. }
    assert (He : occurrences (fst e) l = snd e).
    { apply Hcount. rewrite E. apply in_elt. }
    split.
    + intro c'. destruct (in_dec string_dec c' l) as [Hin | Hnot].
      * apply Hkeys in Hin. unfold keys in Hin. apply in_map_iff in Hin.
        destruct Hin as (x & <- & Hx).
        rewrite (Hcount x Hx), He. rewrite E in Hx.
        apply in_app_or in Hx. destruct Hx as [Hx | [<- | Hx]].
        -- rewrite Forall_forall in Hpre. specialize (Hpre x Hx). lia.
        -- lia.
        -- rewrite Forall_forall in Hpost. apply (Hpost x Hx).
      * assert (E0 : occurrences c' l = 0%Z).
        { unfold occurrences.
          destruct (filter (String.eqb c') l) as [| y ys] eqn:Ef; [reflexivity |].
          exfalso. apply Hnot.
          assert (Hy : In y (filter (String.eqb c') l)) by (rewrite Ef; left; reflexivity).
          apply filter_In in Hy. destruct Hy as [Hy Heq].
          apply String.eqb_eq in Heq. subst. exact Hy. }
        rewrite E0. apply occurrences_nonneg.
    + assert (Ek : keys (e0 :: rest) = (keys pre ++ fst e :: keys post)%list).
      { unfold keys. rewrite E, map_app. reflexivity. }
      destruct (Counter_key_order l (keys pre) (keys post) (fst e))
        as (l1 & l2 & Hl & Hl1).
      { rewrite Ec. exact Ek. }
      exists l1, l2. split; [exact Hl |].
      intros c' Hc'. apply Hl1 in Hc'. unfold keys in Hc'.
      apply in_map_iff in Hc'. destruct Hc' as (x & <- & Hx).
      rewrite (Hcount x), He.
      * rewrite Forall_forall in Hpre. apply (Hpre x Hx).
      * rewrite E. apply in_or_app. left. exact Hx.
Qed.

(** X11: the category line of a summary is "General News" when no article
    matched a category; otherwise it names a category that no other
    category outnumbers among the articles, and every category met before
    its first occurrence has strictly fewer articles: of several most
    frequent categories the first one met is named. *)
Theorem summary_names_first_most_frequent_category :
  forall (article : Article.t) (rest : list Article.t),
  exists d : Summary.t,
    NewsAnalyzer.get_news_summary (article :: rest) = Py.Return (SDict d)
    /\ ((NewsAnalyzer.categorize_news (article :: rest) = []
         /\ Summary.category d = "General News")
        \/ exists c l1 l2,
            NewsAnalyzer.categorize_news (article :: rest) = (l1 ++ c :: l2)%list
            /\ Summary.category d = NewsAnalyzer.title c ++ " News"
            /\ (forall c',
                   (occurrences c' (NewsAnalyzer.categorize_news (article :: rest))
                    <= occurrences c (NewsAnalyzer.categorize_news (article :: rest)))%Z)
            /\ (forall c',
                   In c' l1 ->
                   (occurrences c' (NewsAnalyzer.categorize_news (article :: rest))
                    < occurrences c (NewsAnalyzer.categorize_news (article :: rest)))%Z)).
Proof.
  intros article rest.
  destruct (summary_of_nonempty article rest) as (p & n & _ & _ & _ & Hsum).
  eexists. split; [exact Hsum |]. cbn [Summary.category].
  unfold category_of.
  pose proof (most_common_spec (NewsAnalyzer.categorize_news (article :: rest)))
    as Hspec.
  destruct (NewsAnalyzer.most_common
              (NewsAnalyzer.Counter (NewsAnalyzer.categorize_news (article :: rest))))
    as [c |].
  - right. destruct Hspec as (Hmax & l1 & l2 & Hl & Hfirst).
    exists c, l1, l2. repeat split; assumption.
  - left. split; [exact Hspec | reflexivity].
Qed.

(** ** More on the strength score *)

Ltac band_cases :=
  repeat match goal with
         | |- context [if Py.gt ?x ?c then _ else _] =>
             let E := fresh "E" in
             destruct (Py.gt x c) eqn:E;
             [apply gt_true in E | apply gt_false in E]
         end.

Lemma volume_points_mono (r r' : Q) :
  r <= r' -> (AdvancedFilters.volume_points r <= AdvancedFilters.volume_points r')%Z.
Proof.
  intro H. unfold AdvancedFilters.volume_points. band_cases;
    first [lia | exfalso; lra].
Qed.

Lemma price_points_mono (r r' : Q) :
  r <= r' -> (AdvancedFilters.price_points r <= AdvancedFilters.price_points r')%Z.
Proof.
  intro H. unfold AdvancedFilters.price_points. band_cases;
    first [lia | exfalso; lra].
Qed.

Lemma range_points_mono (r r' : Q) :
  r <= r' -> (AdvancedFilters.range_points r <= AdvancedFilters.range_points r')%Z.
Proof.
  intro H. unfold AdvancedFilters.range_points. band_cases;
    first [lia | exfalso; lra].
Qed.

Lemma strength_score_value (a : Analysis.t) (ns : news_summary)
      (df : option DataFrame) (score : Z) :
  AdvancedFilters.calculate_strength_score a ns df = Py.Return score ->
  exists news,
    AdvancedFilters.news_points ns = Py.Return news
    /\ score
       = Z.min (AdvancedFilters.volume_points (Analysis.volume_ratio a)
                + AdvancedFilters.price_points (Qabs (Analysis.price_change a))
                + news
                + AdvancedFilters.range_points (Analysis.range_ratio a)) 100.
Proof.
  unfold AdvancedFilters.calculate_strength_score.
  destruct (AdvancedFilters.news_points ns) as [e | news]; [discriminate |].
  cbn [Py.bind]. intro H. injection H as <-. exists news. split; reflexivity.
Qed.

(** X12: the score is monotone in the three market measures: with the
    same news summary, a record whose volume ratio, size of price change and
    range ratio are all at least those of another never scores lower. *)
Theorem strength_score_monotone :
  forall (a a' : Analysis.t) (ns : news_summary) (df df' : option DataFrame)
         (score score' : Z),
    Analysis.volume_ratio a <= Analysis.volume_ratio a' ->
    Qabs (Analysis.price_change a) <= Qabs (Analysis.price_change a') ->
    Analysis.range_ratio a <= Analysis.range_ratio a' ->
    AdvancedFilters.calculate_strength_score a ns df = Py.Return score ->
    AdvancedFilters.calculate_strength_score a' ns df' = Py.Return score' ->
    (score <= score')%Z.
Proof.
  intros a a' ns df df' score score' Hv Hp Hr Hs Hs'.
  destruct (strength_score_value a ns df score Hs) as (n & Hn & ->).
  destruct (strength_score_value a' ns df' score' Hs') as (n' & Hn' & ->).
  rewrite Hn in Hn'. injection Hn' as <-.
  pose proof (volume_points_mono _ _ Hv).
  pose proof (price_points_mono _ _ Hp).
  pose proof (range_points_mono _ _ Hr).
  lia.
Qed.

Lemma strength_score_monotone_witness :
  AdvancedFilters.calculate_strength_score (Analysis.mk 4 6 0 1 4) SNone None
  = Py.Return 45%Z
  /\ AdvancedFilters.calculate_strength_score (Analysis.mk 6 (-9) 3 1 6) SNone None
     = Py.Return 75%Z
  /\ (45 <= 75)%Z.
Proof.
  split; [reflexivity |]. split; [reflexivity |].
  apply (strength_score_monotone
           (Analysis.mk 4 6 0 1 4) (Analysis.mk 6 (-9) 3 1 6) SNone None None).
  - discriminate.
  - discriminate.
  - discriminate.
  - reflexivity.
  - reflexivity.
Defined.

(** X13: every score the scorer returns is a multiple of 5. *)
Theorem strength_score_multiple_of_5 :
  forall (a : Analysis.t) (ns : news_summary) (df : option DataFrame) (score : Z),
    AdvancedFilters.calculate_strength_score a ns df = Py.Return score ->
    (score mod 5 = 0)%Z.
Proof.
  intros a ns df score Hs.
  destruct (strength_score_value a ns df score Hs) as (n & Hn & ->).
  assert (Hnews : (n mod 5 = 0)%Z /\ (0 <= n <= 25)%Z).
  { unfold AdvancedFilters.news_points in Hn.
    destruct (truthy ns); [| injection Hn as <-; split; [reflexivity | lia]].
    destruct ns as [| s | d]; [| discriminate |].
    - injection Hn as <-. split; [reflexivity | lia].
    - injection Hn as <-.
      destruct (Summary.is_major d); split_bands; split; (reflexivity || lia). }
  destruct Hnews as [Hmod Hrange].
  unfold AdvancedFilters.volume_points, AdvancedFilters.price_points,
    AdvancedFilters.range_points.
  split_bands;
    (apply Z.min_case_strong; intros; [| reflexivity]);
    rewrite <- Z.add_mod_idemp_r by lia;
    repeat rewrite <- Z.add_assoc;
    match goal with
    | |- ((?x + (?y + (n + ?z))) mod 5 = 0)%Z =>
        replace (x + (y + (n + z)))%Z with (n + (x + y + z))%Z by lia
    end;
    rewrite <- Z.add_mod_idemp_l, Hmod by lia; reflexivity.
Qed.

Lemma strength_score_multiple_of_5_witness :
  AdvancedFilters.calculate_strength_score (Analysis.mk 4 6 0 1 4) SNone None
  = Py.Return 45%Z
  /\ (45 mod 5 = 0)%Z.
Proof.
  split; [reflexivity |].
  apply (strength_score_multiple_of_5 (Analysis.mk 4 6 0 1 4) SNone None).
  reflexivity.
Defined.


(** ** The trading recommendation *)

Lemma recommendation_returns (sig : Signal.t) (score : Z) (ns : news_summary) :
  nonempty_string ns = false ->
  exists entry target stop_loss impact,
    get_trading_recommendation (Some sig) score ns
    = Py.Return (Some (Recommendation.mk
        (Signal.signal sig) (Signal.action sig) (Signal.strength sig) score
        entry target stop_loss
        (if (score >? 80)%Z then "Low Risk"
         else if (score >? 60)%Z then "Medium Risk" else "High Risk")
        (fst impact) (snd impact)))
    /\ impact = match ns with
                | SDict d => (Some (Summary.sentiment d), Some (Summary.category d))
                | _ => (None, None)
                end
    /\ (entry, target, stop_loss)
       = if String.eqb (Signal.signal sig) "BULLISH" then
           if (score >? 75)%Z
           then ("Strong Buy - Enter at current levels",
                 "5-10% upside potential", "3-4% below entry")
           else ("Buy on dips - Wait for minor correction",
                 "3-7% upside potential", "2-3% below entry")
         else
           if (score >? 75)%Z
           then ("Strong Sell - Short at current levels (Intraday only)",
                 "3-7% downside expected", "2% above entry")
           else ("Sell on bounce - Wait for minor rally",
                 "2-5% downside expected", "1.5% above entry").
Proof.
  intro H. unfold get_trading_recommendation.
  assert (Hn : news_impact_of ns
               = Py.Return match ns with
                           | SDict d =>
                               (Some (Summary.sentiment d), Some (Summary.category d))
                           | _ => (None, None)
                           end).
  { unfold news_impact_of. destruct ns as [| s | d]; cbn in *;
      [reflexivity | rewrite H; reflexivity | reflexivity]. }
  destruct (String.eqb (Signal.signal sig) "BULLISH");
    destruct (score >? 75)%Z; rewrite Hn; cbn [Py.bind];
    do 4 eexists; (split; [reflexivity | split; reflexivity]).
Qed.

(** X15: for a signal and a summary dict (or no summary) the
    recommendation carries the signal and the score, its risk level is Low
    Risk exactly above 80, Medium Risk exactly from 61 to 80 and High Risk
    exactly up to 60, and its entry is a Strong Buy or Strong Sell exactly
    above 75: High Risk never comes with a strong entry, Low Risk always
    does. *)
Theorem recommendation_risk_and_entry_by_score :
  forall (sig : Signal.t) (score : Z) (ns : news_summary),
    nonempty_string ns = false ->
    exists r : Recommendation.t,
      get_trading_recommendation (Some sig) score ns = Py.Return (Some r)
      /\ Recommendation.signal_type r = Signal.signal sig
      /\ Recommendation.action r = Signal.action sig
      /\ Recommendation.strength r = Signal.strength sig
      /\ Recommendation.confidence_score r = score
      /\ (Recommendation.risk_level r = "Low Risk" <-> (80 < score)%Z)
      /\ (Recommendation.risk_level r = "Medium Risk" <-> (60 < score <= 80)%Z)
      /\ (Recommendation.risk_level r = "High Risk" <-> (score <= 60)%Z)
      /\ (strong_entry r <-> (75 < score)%Z).
Proof.
  intros sig score ns H.
  destruct (recommendation_returns sig score ns H)
    as (entry & target & stop & impact & Hret & _ & Hentry).
  eexists. split; [exact Hret |].
  unfold strong_entry.
  cbn [Recommendation.signal_type Recommendation.action Recommendation.strength
       Recommendation.confidence_score Recommendation.risk_level
       Recommendation.entry].
  do 4 (split; [reflexivity |]).
  assert (Hrisk :
            ((if (score >? 80)%Z then "Low Risk"
              else if (score >? 60)%Z then "Medium Risk" else "High Risk")
             = "Low Risk" <-> (80 < score)%Z)
            /\ ((if (score >? 80)%Z then "Low Risk"
                 else if (score >? 60)%Z then "Medium Risk" else "High Risk")
                = "Medium Risk" <-> (60 < score <= 80)%Z)
            /\ ((if (score >? 80)%Z then "Low Risk"
                 else if (score >? 60)%Z then "Medium Risk" else "High Risk")
                = "High Risk" <-> (score <= 60)%Z)).
  { destruct (Z.gtb_spec score 80); [| destruct (Z.gtb_spec score 60)];
      repeat split; intros; try discriminate; try lia; try reflexivity. }
  destruct Hrisk as (H1 & H2 & H3).
  split; [exact H1 |]. split; [exact H2 |]. split; [exact H3 |].
  destruct (String.eqb (Signal.signal sig) "BULLISH");
    destruct (Z.gtb_spec score 75);
    injection Hentry as -> _ _;
    (split; [intros [E | E]; first [discriminate | lia] | intro; first [lia | auto]]).
Qed.

Lemma recommendation_risk_and_entry_by_score_witness :
  exists r : Recommendation.t,
    get_trading_recommendation
      (Some (Signal.mk "BULLISH" "BUY (Delivery)" "STRONG")) 85 SNone
    = Py.Return (Some r)
    /\ Recommendation.risk_level r = "Low Risk"
    /\ strong_entry r.
Proof.
  destruct (recommendation_risk_and_entry_by_score
              (Signal.mk "BULLISH" "BUY (Delivery)" "STRONG") 85 SNone eq_refl)
    as (r & Hret & _ & _ & _ & _ & Hlow & _ & _ & Hstrong).
  exists r. split; [exact Hret |].
  split; [apply Hlow; lia | apply Hstrong; lia].
Defined.

(** X16: without a signal there is no recommendation; with a signal the
    two news keys are set exactly for a summary dict, to its sentiment
    label and category line; and on a non-empty string as summary, such as
    the no-news sentinel, the function raises TypeError. *)
Theorem recommendation_news_keys_and_sentinel :
  forall (sig : Signal.t) (score : Z) (ns : news_summary),
    get_trading_recommendation None score ns = Py.Return None
    /\ match ns with
       | SDict d =>
           exists r,
             get_trading_recommendation (Some sig) score ns = Py.Return (Some r)
             /\ Recommendation.news_impact r = Some (Summary.sentiment d)
             /\ Recommendation.news_type r = Some (Summary.category d)
       | SNone =>
           exists r,
             get_trading_recommendation (Some sig) score ns = Py.Return (Some r)
             /\ Recommendation.news_impact r = None
             /\ Recommendation.news_type r = None
       | SStr s =>
           if String.eqb s "" then
             exists r,
               get_trading_recommendation (Some sig) score ns = Py.Return (Some r)
               /\ Recommendation.news_impact r = None
               /\ Recommendation.news_type r = None
           else
             get_trading_recommendation (Some sig) score ns
             = Py.Raise Py.TypeError
       end.
Proof.
  intros sig score ns. split; [reflexivity |].
  destruct ns as [| s | d].
  - destruct (recommendation_returns sig score SNone eq_refl)
      as (e & t & sl & impact & Hret & -> & _).
    eexists. split; [exact Hret | split; reflexivity].
  - destruct (String.eqb s "") eqn:Es.
    + assert (H : nonempty_string (SStr s) = false) by (cbn; rewrite Es; reflexivity).
      destruct (recommendation_returns sig score (SStr s) H)
        as (e & t & sl & impact & Hret & -> & _).
      eexists. split; [exact Hret | split; reflexivity].
    + unfold get_trading_recommendation, news_impact_of. cbn [truthy].
      rewrite Es. cbn [negb].
      destruct (String.eqb (Signal.signal sig) "BULLISH");
        destruct (score >? 75)%Z; reflexivity.
  - destruct (recommendation_returns sig score (SDict d) eq_refl)
      as (e & t & sl & impact & Hret & -> & _).
    eexists. split; [exact Hret | split; reflexivity].
Qed.

(** ** The detail route *)

Section DetailRoute.
Variable cfg : Config.t.
Variable env : Env.t.
Variable correlation : option DataFrame -> Quote.t -> Py.result bool.

Lemma analyze_fetched_without_news (symbol : string) (df : DataFrame) (q : Quote.t) :
  FyersNewsScreener.fetch_news_for_stock env symbol = [] ->
  Detail.analyze_fetched cfg env correlation symbol df q
  = Py.Raise (if (List.length df <? 10)%nat
              then Py.TypeError else Py.AttributeError).
Proof.
  intro Hnews. unfold Detail.analyze_fetched. rewrite Hnews.
  destruct (Nat.ltb_spec (List.length df) 10) as [Hlt | Hge].
  - rewrite (analyze_short_history q df Hlt). reflexivity.
  - destruct (analyze_long_history q df Hge) as (vr & rr & -> & _).
    reflexivity.
Qed.

Lemma analyze_fetched_short (symbol : string) (df : DataFrame) (q : Quote.t) :
  (List.length df < 10)%nat ->
  Detail.analyze_fetched cfg env correlation symbol df q = Py.Raise Py.TypeError.
Proof.
  intro Hlt. unfold Detail.analyze_fetched.
  rewrite (analyze_short_history q df Hlt). cbn [Py.bind].
  destruct (FyersNewsScreener.fetch_news_for_stock env symbol)
    as [| article rest].
  - reflexivity.
  - destruct (summary_of_nonempty article rest) as (p & n & _ & _ & _ & ->).
    reflexivity.
Qed.

Lemma analyze_fetched_payload
      (symbol : string) (df : DataFrame) (q : Quote.t) (body : Detail.payload) :
  Detail.analyze_fetched cfg env correlation symbol df q = Py.Return body ->
  (10 <= List.length df)%nat
  /\ FyersNewsScreener.fetch_news_for_stock env symbol <> []
  /\ Detail.symbol body = symbol
  /\ (exists a, Detail.analysis body = Some a)
  /\ (exists d, Detail.summary body = SDict d)
  /\ (20 <= Detail.strength_score body <= 100)%Z
  /\ (Detail.recommendation body = None <-> Detail.signal body = None).
Proof.
  destruct (Nat.lt_ge_cases (List.length df) 10) as [Hlt | Hge].
  { rewrite (analyze_fetched_short symbol df q Hlt). discriminate. }
  destruct (FyersNewsScreener.fetch_news_for_stock env symbol)
    as [| article rest] eqn:Hnews.
  { rewrite (analyze_fetched_without_news symbol df q Hnews). discriminate. }
  unfold Detail.analyze_fetched. rewrite Hnews.
  destruct (analyze_long_history q df Hge) as (vr & rr & -> & _).
  cbn [Py.bind].
  destruct (summary_of_nonempty article rest) as (p & n & _ & _ & _ & ->).
  cbn [Py.bind Detail.score_of].
  match goal with
  | |- context [AdvancedFilters.calculate_strength_score ?a (SDict ?d) ?f] =>
      destruct (strength_score_returns a (SDict d) f eq_refl)
        as (news & _ & Hnews_range & ->);
      pose proof (volume_points_range (Analysis.volume_ratio a)) as Hvp;
      pose proof (price_points_range (Qabs (Analysis.price_change a))) as Hpp;
      pose proof (range_points_range (Analysis.range_ratio a)) as Hrp
  end.
  cbn [Py.bind].
  destruct (correlation (Some df) q) as [e | has_correlation];
    [discriminate |].
  cbn [Py.bind].
  destruct (FyersNewsScreener.determine_signal cfg _ _) as [sig |].
  - match goal with
    | |- context [get_trading_recommendation (Some sig) ?s (SDict ?d)] =>
        destruct (recommendation_returns sig s (SDict d) eq_refl)
          as (e & t & sl & impact & -> & _)
    end.
    cbn [Py.bind]. intro H. injection H as <-.
    cbn [Detail.symbol Detail.analysis Detail.summary Detail.strength_score
         Detail.recommendation Detail.signal].
    split; [exact Hge |]. split; [discriminate |]. split; [reflexivity |].
    split; [eexists; reflexivity |]. split; [eexists; reflexivity |].
    cbn [Analysis.volume_ratio Analysis.price_change Analysis.range_ratio] in *.
    split; [lia |]. split; discriminate.
  - cbn [Py.bind]. intro H. injection H as <-.
    cbn [Detail.symbol Detail.analysis Detail.summary Detail.strength_score
         Detail.recommendation Detail.signal].
    split; [exact Hge |]. split; [discriminate |]. split; [reflexivity |].
    split; [eexists; reflexivity |]. split; [eexists; reflexivity |].
    cbn [Analysis.volume_ratio Analysis.price_change Analysis.range_ratio] in *.
    split; [lia |]. split; reflexivity.
Qed.

End DetailRoute.

(** X17: the detail route reaches its answer only for a symbol with at
    least ten candles and at least one article: the payload then holds an
    analysis record, a summary dict, a score between 20 and 100, and a
    recommendation exactly when there is a signal. *)
Theorem detail_payload_needs_history_and_news :
  forall (cfg : Config.t) (env : Env.t)
         (correlation : option DataFrame -> Quote.t -> Py.result bool)
         (symbol : string) (body : Detail.payload),
    Detail.analyze_stock_detail cfg env correlation true symbol = Detail.Payload body ->
    exists rows,
      FyersNewsScreener.get_historical_data env (Detail.fyers_symbol symbol)
      = Some rows
      /\ (10 <= List.length rows)%nat
      /\ FyersNewsScreener.fetch_news_for_stock env (Detail.fyers_symbol symbol) <> []
      /\ Detail.symbol body = Detail.fyers_symbol symbol
      /\ (exists a, Detail.analysis body = Some a)
      /\ (exists d, Detail.summary body = SDict d)
      /\ (20 <= Detail.strength_score body <= 100)%Z
      /\ (Detail.recommendation body = None <-> Detail.signal body = None).
Proof.
  intros cfg env correlation symbol body.
  unfold Detail.analyze_stock_detail. cbn [negb].
  destruct (FyersNewsScreener.get_historical_data env (Detail.fyers_symbol symbol))
    as [rows |]; [| discriminate].
  destruct (FyersNewsScreener.get_current_quote env (Detail.fyers_symbol symbol))
    as [q |]; [| discriminate].
  destruct (Detail.analyze_fetched cfg env correlation
              (Detail.fyers_symbol symbol) rows q) as [e | body'] eqn:E;
    [discriminate |].
  intro H. injection H as <-. exists rows. split; [reflexivity |].
  exact (analyze_fetched_payload cfg env correlation _ rows q body' E).
Qed.


Lemma detail_payload_needs_history_and_news_witness :
  exists body rows,
    Detail.analyze_stock_detail Config.default demo_env no_correlation true "TCS"
    = Detail.Payload body
    /\ FyersNewsScreener.get_historical_data demo_env (Detail.fyers_symbol "TCS")
       = Some rows
    /\ (10 <= List.length rows)%nat
    /\ (20 <= Detail.strength_score body <= 100)%Z.
Proof.
  destruct (Detail.analyze_stock_detail Config.default demo_env no_correlation
              true "TCS") as [| | | body] eqn:E;
    try (vm_compute in E; discriminate).
  destruct (detail_payload_needs_history_and_news
              Config.default demo_env no_correlation "TCS" body E)
    as (rows & Hrows & Hlen & _ & _ & _ & _ & Hscore & _).
  exists body, rows. repeat split; try assumption; apply Hscore.
Defined.


(** ** Names and symbols *)

Lemma scan_symbol_name (cfg : Config.t) (env : Env.t) (symbol : string)
      (stock : Stock.t) :
  FyersNewsScreener.scan_symbol cfg env symbol = Py.Return (Some stock) ->
  Stock.symbol stock = symbol /\ Stock.name stock = display_name symbol.
Proof.
  unfold FyersNewsScreener.scan_symbol.
  destruct (FyersNewsScreener.get_historical_data env symbol) as [df |];
    [| discriminate].
  destruct (FyersNewsScreener.get_current_quote env symbol) as [q |];
    [| discriminate].
  destruct (_ || _); [discriminate |].
  destruct (FyersNewsScreener.analyze_volume_and_price (Some df) q)
    as [e | [a |]]; cbn [Py.bind]; try discriminate.
  destruct (FyersNewsScreener.determine_signal cfg (Some a) _) as [sig |];
    [| discriminate].
  intro H. injection H as <-. split; reflexivity.
Qed.

Lemma universe_names_lead_back :
  forall symbol,
    In symbol FyersNewsScreener.get_nse_symbols ->
    Detail.fyers_symbol (display_name symbol) = symbol.
Proof.
  assert (H : forallb
                (fun symbol =>
                   String.eqb (Detail.fyers_symbol (display_name symbol)) symbol)
                FyersNewsScreener.get_nse_symbols = true)
    by (vm_compute; reflexivity).
  rewrite forallb_forall in H.
  intros symbol Hin. apply String.eqb_eq. apply H. exact Hin.
Qed.

(** X19: the symbol the detail route works on always starts with NSE:,
    and formatting is idempotent; and for every entry that a completed scan
    publishes, the displayed name of the entry, given to the detail route,
    is formatted back to the entry's own symbol. *)
Theorem published_names_lead_back_to_symbols :
  forall (cfg : Config.t) (env : Env.t) (before : FyersNewsScreener.t) (s : string),
    String.prefix "NSE:" (Detail.fyers_symbol s) = true
    /\ Detail.fyers_symbol (Detail.fyers_symbol s) = Detail.fyers_symbol s
    /\ Forall (fun stock =>
                 Detail.fyers_symbol (Stock.name stock) = Stock.symbol stock)
              (FyersNewsScreener.screened_stocks
                 (fst (FyersNewsScreener.scan_stocks cfg env before))).
Proof.
  intros cfg env before s.
  assert (Hp : String.prefix "NSE:" (Detail.fyers_symbol s) = true).
  { unfold Detail.fyers_symbol.
    destruct (String.prefix "NSE:" s) eqn:E; cbn [negb]; [exact E |].
    cbn. destruct (s ++ "-EQ"); reflexivity. }
  split; [exact Hp |]. split.
  - unfold Detail.fyers_symbol at 1. rewrite Hp. reflexivity.
  - apply published_forall. intros symbol stock Hin Hscan.
    destruct (scan_symbol_name cfg env symbol stock Hscan) as [Hsym Hname].
    rewrite Hname, Hsym. apply universe_names_lead_back. exact Hin.
Qed.

(** ** The tick loop's copy of the results *)

Lemma check_found (results : list Stock.t) (symbol : string) (ltp : Q)
      (emit_fn : bool) (stock : Stock.t) :
  fst (SocketWorker.check_screener_signals results symbol ltp emit_fn) = Some stock ->
  exists before after,
    results = (before ++ stock :: after)%list
    /\ Stock.symbol stock = symbol
    /\ Forall (fun s => Stock.symbol s <> symbol) before
    /\ List.length (snd (SocketWorker.check_screener_signals results symbol ltp emit_fn))
       = if emit_fn then 1%nat else 0%nat.
Proof.
  induction results as [| s rest IH]; cbn [SocketWorker.check_screener_signals].
  - discriminate.
  - destruct (String.eqb_spec (Stock.symbol s) symbol) as [E | Hne].
    + cbn [fst snd]. intro H. injection H as <-.
      exists [], rest. split; [reflexivity |]. split; [exact E |].
      split; [constructor |]. destruct emit_fn; reflexivity.
    + intro H. destruct (IH H) as (before & after & -> & Hsym & Hall & Hlen).
      exists (s :: before), after. split; [reflexivity |].
      split; [exact Hsym |]. split; [constructor; assumption | exact Hlen].
Qed.

Lemma check_missing (results : list Stock.t) (symbol : string) (ltp : Q)
      (emit_fn : bool) :
  fst (SocketWorker.check_screener_signals results symbol ltp emit_fn) = None ->
  Forall (fun s => Stock.symbol s <> symbol) results
  /\ snd (SocketWorker.check_screener_signals results symbol ltp emit_fn) = [].
Proof.
  induction results as [| s rest IH]; cbn [SocketWorker.check_screener_signals].
  - intros _. split; [constructor | reflexivity].
  - destruct (String.eqb_spec (Stock.symbol s) symbol) as [E | Hne].
    + discriminate.
    + intro H. destruct (IH H) as [Hall Hnil].
      split; [constructor; assumption | exact Hnil].
Qed.

(** X20: a tick's lookup returns the first stored result of its symbol and
    emits exactly one alert for it when an emitter is given; it returns
    nothing, and emits nothing, exactly when no stored result has that
    symbol. *)
Theorem tick_lookup_finds_first_result :
  forall (results : list Stock.t) (symbol : string) (ltp : Q) (emit_fn : bool),
    match SocketWorker.check_screener_signals results symbol ltp emit_fn with
    | (Some stock, alerts) =>
        (exists before after,
            results = (before ++ stock :: after)%list
            /\ Forall (fun s => Stock.symbol s <> symbol) before)
        /\ Stock.symbol stock = symbol
        /\ List.length alerts = (if emit_fn then 1%nat else 0%nat)
        /\ Forall (fun a =>
                     SocketWorker.alert_symbol a = symbol
                     /\ SocketWorker.alert_signal a = Stock.signal stock
                     /\ SocketWorker.alert_current_price a = ltp)
                  alerts
    | (None, alerts) =>
        Forall (fun s => Stock.symbol s <> symbol) results /\ alerts = []
    end.
Proof.
  intros results symbol ltp emit_fn.
  destruct (SocketWorker.check_screener_signals results symbol ltp emit_fn)
    as [[stock |] alerts] eqn:E.
  - assert (Hf : fst (SocketWorker.check_screener_signals results symbol ltp emit_fn)
                 = Some stock) by (rewrite E; reflexivity).
    destruct (check_found results symbol ltp emit_fn stock Hf)
      as (before & after & Hres & Hsym & Hall & Hlen).
    rewrite E in Hlen. cbn [snd] in Hlen.
    split; [exists before, after; split; assumption |].
    split; [exact Hsym |]. split; [exact Hlen |].
    clear Hf Hlen Hres Hall before after.
    revert E. induction results as [| s rest IH];
      cbn [SocketWorker.check_screener_signals]; [discriminate |].
    destruct (String.eqb (Stock.symbol s) symbol); [| exact IH].
    intro H. injection H as <- <-.
    destruct emit_fn; constructor; [| constructor].
    cbn. repeat split.
  - assert (Hf : fst (SocketWorker.check_screener_signals results symbol ltp emit_fn)
                 = None) by (rewrite E; reflexivity).
    destruct (check_missing results symbol ltp emit_fn Hf) as [Hall Hnil].
    rewrite E in Hnil. split; assumption.
Qed.

Lemma discovered_In (cfg : Config.t) (env : Env.t) (symbols : list string)
      (stock : Stock.t) :
  In stock (discovered cfg env symbols)
  <-> exists symbol,
      In symbol symbols
      /\ FyersNewsScreener.scan_symbol cfg env symbol = Py.Return (Some stock).
Proof.
  unfold discovered. rewrite in_flat_map. split.
  - intros (symbol & Hin & Hst). exists symbol. split; [exact Hin |].
    destruct (FyersNewsScreener.scan_symbol cfg env symbol) as [e | [st |]];
      try destruct Hst as [<- | []]; try destruct Hst. reflexivity.
  - intros (symbol & Hin & Hscan). exists symbol. split; [exact Hin |].
    rewrite Hscan. left. reflexivity.
Qed.

Lemma published_In (cfg : Config.t) (env : Env.t) (before : FyersNewsScreener.t)
      (stock : Stock.t) :
  In stock (snd (FyersNewsScreener.scan_stocks cfg env before))
  <-> exists symbol,
      In symbol FyersNewsScreener.get_nse_symbols
      /\ FyersNewsScreener.scan_symbol cfg env symbol = Py.Return (Some stock).
Proof.
  rewrite scan_stocks_result. cbn [snd]. rewrite <- discovered_In.
  pose proof (sort_reverse_perm Stock.t Stock.volume_ratio
                (discovered cfg env FyersNewsScreener.get_nse_symbols)) as Hperm.
  split; intro H.
  - apply (Permutation_in _ (Permutation_sym Hperm) H).
  - apply (Permutation_in _ Hperm H).
Qed.

(** X21: a periodic scan that finds the flag set changes nothing.
    Otherwise it runs the scan and stores its list, which is the very list
    the results route shows; a tick of some symbol then finds exactly the
    entry that the scan built for that symbol, and finds nothing for a
    symbol of the universe only if the scan built none. *)
Theorem periodic_scan_feeds_tick_lookup :
  forall (cfg : Config.t) (env : Env.t) (screener : FyersNewsScreener.t)
         (stored : list Stock.t) (symbol : string) (ltp : Q) (emit_fn : bool),
    let after := SocketWorker.periodic_scan cfg env screener stored in
    if FyersNewsScreener.is_scanning screener then after = (screener, stored)
    else
      snd after = FyersNewsScreener.screened_stocks (fst after)
      /\ FyersNewsScreener.is_scanning (fst after) = false
      /\ match fst (SocketWorker.check_screener_signals (snd after) symbol ltp emit_fn)
         with
         | Some stock =>
             FyersNewsScreener.scan_symbol cfg env symbol = Py.Return (Some stock)
         | None =>
             forall stock,
               In symbol FyersNewsScreener.get_nse_symbols ->
               FyersNewsScreener.scan_symbol cfg env symbol <> Py.Return (Some stock)
         end.
Proof.
  intros cfg env screener stored symbol ltp emit_fn after. subst after.
  unfold SocketWorker.periodic_scan.
  destruct (FyersNewsScreener.is_scanning screener); cbn [negb]; [reflexivity |].
  pose proof (published_In cfg env screener) as Hin.
  destruct (FyersNewsScreener.scan_stocks cfg env screener) as [self results] eqn:Es.
  assert (Hres : FyersNewsScreener.scan_stocks cfg env screener
                 = (FyersNewsScreener.mk results false, results)).
  { rewrite scan_stocks_result in Es |- *. injection Es as <- <-. reflexivity. }
  rewrite Es in Hres. injection Hres as ->.
  unfold SocketWorker.update_screener_results.
  cbn [fst snd FyersNewsScreener.screened_stocks FyersNewsScreener.is_scanning] in *.
  split; [reflexivity |]. split; [reflexivity |].
  destruct (fst (SocketWorker.check_screener_signals results symbol ltp emit_fn))
    as [stock |] eqn:Ec.
  - destruct (check_found results symbol ltp emit_fn stock Ec)
      as (pre & post & Hl & Hsym & _).
    assert (Hs : In stock results) by (rewrite Hl; apply in_elt).
    apply Hin in Hs. destruct Hs as (symbol' & _ & Hscan).
    destruct (scan_symbol_name cfg env symbol' stock Hscan) as [Hsym' _].
    rewrite <- Hsym, Hsym'. exact Hscan.
  - destruct (check_missing results symbol ltp emit_fn Ec) as [Hall _].
    intros stock Hu Hscan.
    assert (Hs : In stock results).
    { apply Hin. exists symbol. split; assumption. }
    rewrite Forall_forall in Hall. apply (Hall stock Hs).
    apply (scan_symbol_name cfg env symbol stock Hscan).
Qed.

Lemma count_signal_from (name : string) (results : list Stock.t) (n : Z) :
  fold_left
    (fun n s => if String.eqb (Stock.signal s) name then (n + 1)%Z else n)
    results n
  = (n + SocketWorker.count_signal name results)%Z.
Proof.
  unfold SocketWorker.count_signal. revert n.
  induction results as [| s rest IH]; intro n; cbn [fold_left]; [lia |].
  rewrite IH.
  rewrite (IH (if String.eqb (Stock.signal s) name then (0 + 1)%Z else 0%Z)).
  destruct (String.eqb (Stock.signal s) name); lia.
Qed.

Lemma count_signal_cons (name : string) (s : Stock.t) (rest : list Stock.t) :
  SocketWorker.count_signal name (s :: rest)
  = ((if String.eqb (Stock.signal s) name then 1 else 0)
     + SocketWorker.count_signal name rest)%Z.
Proof.
  unfold SocketWorker.count_signal at 1. cbn [fold_left].
  rewrite count_signal_from.
  destruct (String.eqb (Stock.signal s) name); reflexivity.
Qed.

Lemma stats_add_up (results : list Stock.t) :
  Forall (fun s => Stock.signal s = "BULLISH" \/ Stock.signal s = "BEARISH") results ->
  Z.of_nat (List.length results)
  = (SocketWorker.count_signal "BULLISH" results
     + SocketWorker.count_signal "BEARISH" results)%Z
  /\ (0 <= SocketWorker.count_signal "BULLISH" results)%Z
  /\ (0 <= SocketWorker.count_signal "BEARISH" results)%Z.
Proof.
  induction 1 as [| s rest Hs Hall IH]; [repeat split; reflexivity |].
  rewrite !count_signal_cons. cbn [List.length].
  destruct IH as (IH & Hb & Hr).
  destruct Hs as [E | E]; rewrite E;
    change (String.eqb "BULLISH" "BULLISH") with true;
    change (String.eqb "BEARISH" "BEARISH") with true;
    change (String.eqb "BULLISH" "BEARISH") with false;
    change (String.eqb "BEARISH" "BULLISH") with false;
    lia.
Qed.

(** X22: for the list a scan returns, the statistics of the tick loop add
    up: every entry is counted as bullish or as bearish, so the two counts
    sum to the total, which is at most 52. *)
Theorem screener_stats_add_up :
  forall (cfg : Config.t) (env : Env.t) (before : FyersNewsScreener.t),
    let '(total_signals, bullish_count, bearish_count) :=
      SocketWorker.get_screener_stats
        (snd (FyersNewsScreener.scan_stocks cfg env before)) in
    total_signals = (bullish_count + bearish_count)%Z
    /\ (0 <= bullish_count)%Z /\ (0 <= bearish_count)%Z
    /\ (total_signals <= 52)%Z.
Proof.
  intros cfg env before. unfold SocketWorker.get_screener_stats.
  assert (Hsnd : snd (FyersNewsScreener.scan_stocks cfg env before)
                 = FyersNewsScreener.screened_stocks
                     (fst (FyersNewsScreener.scan_stocks cfg env before)))
    by (rewrite scan_stocks_result; reflexivity).
  rewrite Hsnd.
  pose proof (published_length cfg env before) as Hlen.
  assert (Hdir : Forall (fun s => Stock.signal s = "BULLISH"
                                  \/ Stock.signal s = "BEARISH")
                        (FyersNewsScreener.screened_stocks
                           (fst (FyersNewsScreener.scan_stocks cfg env before)))).
  { apply published_forall. intros symbol stock _ Hscan.
    destruct (scan_symbol_found cfg env symbol stock Hscan)
      as (_ & _ & _ & _ & _ & _ & _ & _ & [[H _] | [H _]]);
      [left | right]; exact H. }
  destruct (stats_add_up _ Hdir) as (Hsum & Hb & Hr).
  split; [exact Hsum |]. split; [exact Hb |]. split; [exact Hr | lia].
Qed.

(** ** From start_scan to the results route *)

Lemma run_single_thread (cfg : Config.t) (env : Env.t) (n : nat)
      (p : Thread.pc) (self : FyersNewsScreener.t) :
  fst (App.run_schedule cfg env (repeat 0%nat n) (App.mkSystem self [p]))
  = App.mkSystem (snd (Thread.run cfg env n p self))
                 [fst (Thread.run cfg env n p self)].
Proof.
  revert p self. induction n as [| n IH]; intros p self; [reflexivity |].
  cbn [repeat App.run_schedule Thread.run].
  unfold App.step_thread. cbn [App.threads nth_error App.screener].
  destruct (Thread.step cfg env p self) as [[p' self'] ev].
  cbn [App.set_nth].
  specialize (IH p' self').
  destruct (App.run_schedule cfg env (repeat 0%nat n) (App.mkSystem self' [p']))
    as [sys evs].
  cbn [fst] in IH |- *. exact IH.
Qed.

(** X23: a scan started through the route on an idle screener with no
    scan thread, and left to run alone, is over after 56 steps of its
    thread: the flag is cleared again and the results route returns the
    list that scan_stocks computes for this market, with its length as
    count. *)
Theorem started_scan_ends_in_published_results :
  forall (cfg : Config.t) (env : Env.t) (self : FyersNewsScreener.t),
    FyersNewsScreener.is_scanning self = false ->
    exists sys1,
      App.start_scan (Some (App.mkSystem self [])) = (App.ScanStarted, Some sys1)
      /\ let sys2 := fst (App.run_schedule cfg env (repeat 0%nat 56) sys1) in
         App.threads sys2 = [Thread.Finished]
         /\ App.get_results (Some sys2)
            = App.Results false
                (snd (FyersNewsScreener.scan_stocks cfg env self))
                (Z.of_nat (List.length
                             (snd (FyersNewsScreener.scan_stocks cfg env self))))
         /\ fst (App.start_scan (Some sys2)) = App.ScanStarted.
Proof.
  intros cfg env self Hflag.
  exists (App.mkSystem self [Thread.AtStart]). split.
  - unfold App.start_scan. cbn [App.screener App.threads]. rewrite Hflag.
    reflexivity.
  - cbn zeta. rewrite run_single_thread.
    change 56%nat with (2 + List.length FyersNewsScreener.get_nse_symbols + 2)%nat.
    rewrite run_to_completion, scan_stocks_result. cbn [fst snd].
    split; [reflexivity |]. split; reflexivity.
Qed.

Lemma started_scan_ends_in_published_results_witness :
  exists sys1,
    App.start_scan (Some (App.mkSystem FyersNewsScreener.init []))
    = (App.ScanStarted, Some sys1)
    /\ App.get_results
         (Some (fst (App.run_schedule Config.default demo_env (repeat 0%nat 56) sys1)))
       = App.Results false [tcs_stock; reliance_stock] 2.
Proof.
  destruct (started_scan_ends_in_published_results
              Config.default demo_env FyersNewsScreener.init eq_refl)
    as (sys1 & Hstart & _ & Hres & _).
  exists sys1. split; [exact Hstart |].
  rewrite Hres. vm_compute. reflexivity.
Defined.

(** ** The mock broker *)

Lemma total_pnl_from (trades : list MockBroker.trade) (acc : Q) :
  Forall (fun t => MockBroker.pnl t = None) trades ->
  fold_left
    (fun acc t => match MockBroker.pnl t with Some x => acc + x | None => acc end)
    trades acc = acc.
Proof.
  intro H. revert acc. induction H as [| t rest Ht Hall IH]; intro acc;
    cbn [fold_left]; [reflexivity |].
  rewrite Ht. apply IH.
Qed.

Lemma execute_all_trades (orders : list order) (self : MockBroker.t) :
  MockBroker.balance (execute_all self orders) = MockBroker.balance self
  /\ MockBroker.trades (execute_all self orders)
     = (MockBroker.trades self
        ++ map (fun o : order =>
                  let '(symbol, side, qty, price, now) := o in
                  MockBroker.mkTrade symbol side qty price now None)
               orders)%list.
Proof.
  unfold execute_all. revert self.
  induction orders as [| [[[[symbol side] qty] price] now] rest IH]; intro self;
    cbn [fold_left map].
  - rewrite app_nil_r. split; reflexivity.
  - destruct (IH (fst (MockBroker.execute_trade self now symbol side qty price)))
      as [Hb Ht].
    rewrite Hb, Ht. cbn [MockBroker.execute_trade fst MockBroker.balance
                         MockBroker.trades].
    rewrite <- app_assoc. split; reflexivity.
Qed.

(** X24: the mock broker only records: after any sequence of executed
    orders on a new broker, stats shows the starting balance of 100000, a
    trade count equal to the number of orders, and a profit and loss of 0,
    and the trades are the orders in their order. *)
Theorem mock_broker_only_records :
  forall orders : list order,
    MockBroker.stats (execute_all MockBroker.init orders)
    = (100000, Z.of_nat (List.length orders), 0)
    /\ map (fun t => (MockBroker.symbol t, MockBroker.side t, MockBroker.qty t,
                      MockBroker.entry t, MockBroker.entry_time t))
           (MockBroker.trades (execute_all MockBroker.init orders))
       = orders.
Proof.
  intro orders.
  destruct (execute_all_trades orders MockBroker.init) as [Hb Ht].
  unfold MockBroker.stats. rewrite Hb, Ht. cbn [MockBroker.init MockBroker.balance
                                                 MockBroker.trades app].
  split.
  - f_equal; [f_equal |].
    + rewrite length_map. reflexivity.
    + unfold MockBroker.total_pnl. apply total_pnl_from.
      apply Forall_forall. intros t Hin. apply in_map_iff in Hin.
      destruct Hin as ([[[[symbol side] qty] price] now] & <- & _). reflexivity.
  - rewrite map_map. clear Hb Ht.
    induction orders as [| [[[[symbol side] qty] price] now] rest IH];
      [reflexivity |].
    cbn [map]. rewrite IH. reflexivity.
Qed.

(** ** A call that finds the flag set *)

(** X25: a start_scan call that finds is_scanning set answers
    AlreadyScanning (status 400) and returns the system as it was: flag,
    result list and threads are unchanged and no thread is started.  So when
    a first call is made with no scan thread in existence and the second
    call finds the flag set, then over everything that runs before and after
    the second call the result list is replaced at most once and completed
    at most once. *)
Theorem start_scan_rejected_while_scanning :
  forall (cfg : Config.t) (env : Env.t) (sys : App.system),
    FyersNewsScreener.is_scanning (App.screener sys) = true ->
    App.start_scan (Some sys) = (App.AlreadyScanning, Some sys)
    /\ App.status (fst (App.start_scan (Some sys))) = 400%Z
    /\ App.get_results (snd (App.start_scan (Some sys))) = App.get_results (Some sys)
    /\ forall (sys0 sys1 : App.system) (r1 : App.response)
              (schedule1 schedule2 : list nat),
        App.threads sys0 = [] ->
        App.start_scan (Some sys0) = (r1, Some sys1) ->
        fst (App.run_schedule cfg env schedule1 sys1) = sys ->
        let events :=
          (snd (App.run_schedule cfg env schedule1 sys1)
           ++ snd (App.run_schedule cfg env schedule2 sys))%list in
        (App.rebinds events <= 1)%nat /\ (App.completions events <= 1)%nat.
Proof.
  intros cfg env sys Hflag.
  assert (Hcall : App.start_scan (Some sys) = (App.AlreadyScanning, Some sys)).
  { unfold App.start_scan. rewrite Hflag. reflexivity. }
  split; [exact Hcall |]. rewrite Hcall. cbn [fst snd App.status].
  split; [reflexivity |]. split; [reflexivity |].
  intros sys0 sys1 r1 schedule1 schedule2 Hnone Hfirst Hreach.
  rewrite rebinds_app, completions_app.
  destruct (start_scan_threads sys0 sys1 r1 Hfirst) as [_ Hthreads].
  pose proof (rebinds_bounded cfg env schedule1 sys1) as R1.
  pose proof (completions_bounded cfg env schedule1 sys1) as S1.
  pose proof (rebinds_bounded cfg env schedule2 sys) as R2.
  pose proof (completions_bounded cfg env schedule2 sys) as S2.
  rewrite Hreach in R1, S1.
  assert (Hr : (total rebinds_left (App.threads sys1) <= 1)%nat
               /\ (total sorts_left (App.threads sys1) <= 1)%nat).
  { destruct Hthreads as [[_ ->] | (_ & _ & ->)]; rewrite Hnone; cbn; lia. }
  lia.
Qed.

Lemma start_scan_rejected_while_scanning_witness :
  App.start_scan (Some idle_system)
  = (App.ScanStarted, Some (App.mkSystem FyersNewsScreener.init [Thread.AtStart]))
  /\ App.start_scan (Some scanning_system)
     = (App.AlreadyScanning, Some scanning_system)
  /\ (let events :=
        (snd (App.run_schedule Config.default demo_env [0; 0; 0]%nat
                (App.mkSystem FyersNewsScreener.init [Thread.AtStart]))
         ++ snd (App.run_schedule Config.default demo_env (repeat 0%nat 60)
                   scanning_system))%list in
      (App.rebinds events <= 1)%nat /\ (App.completions events <= 1)%nat).
Proof.
  assert (Hflag : FyersNewsScreener.is_scanning (App.screener scanning_system) = true)
    by (vm_compute; reflexivity).
  pose proof (start_scan_rejected_while_scanning
                Config.default demo_env scanning_system Hflag)
    as (Hcall & _ & _ & Hpair).
  split; [reflexivity |]. split; [exact Hcall |].
  apply (Hpair idle_system
               (App.mkSystem FyersNewsScreener.init [Thread.AtStart])
               App.ScanStarted).
  - reflexivity.
  - reflexivity.
  - reflexivity.
Defined.
